(** * pg_index_reclaim: merging under-utilised B-tree leaf pages

    A shallow embedding of [pg_index_reclaim.c].  The C functions of the
    extension ([find_leftmost_leaf], [analyze_index_pages], [execute_merge],
    [pg_index_reclaim_execute], [pg_index_reclaim_analyze]) are written as
    statements of a small state/early-return/error monad over an explicit
    page store.  The storage-layer routines the extension calls (bufpage.c,
    bufmgr.c, nbtree.h macros) are modelled in the first part of the file. *)

From Stdlib Require Import ZArith List Bool Lia.
From Stdlib Require Import Floats.SpecFloat.
From stdpp Require Import base list.

Local Open Scope Z_scope.

(** ** Constants of the server headers

    None of these is declared in the extension itself; the values are the
    ones of a default 64-bit build (8 kB blocks, 8-byte maximum alignment). *)
Module Const.

Definition BLCKSZ : Z := 8192.
Definition SizeOfPageHeaderData : Z := 24.
Definition sizeof_ItemIdData : Z := 4.
Definition sizeof_BTPageOpaqueData : Z := 16.
Definition sizeof_IndexTupleData : Z := 8.

Definition P_NONE : Z := 0.
Definition BTREE_METAPAGE : Z := 0.
Definition InvalidBlockNumber : Z := 0xFFFFFFFF.
Definition InvalidOffsetNumber : Z := 0.
Definition FirstOffsetNumber : Z := 1.
Definition P_HIKEY : Z := 1.
Definition P_FIRSTKEY : Z := 2.

Definition BTP_LEAF : Z := 1.
Definition BTP_DELETED : Z := 4.
Definition BTP_HALF_DEAD : Z := 16.

Definition LP_UNUSED : Z := 0.
Definition LP_NORMAL : Z := 1.

Definition PD_HAS_FREE_LINES : Z := 1.
Definition INDEX_ALT_TID_MASK : Z := 0x2000.
Definition BTREE_AM_OID : Z := 403.

Definition AccessShareLock : Z := 1.
Definition ShareUpdateExclusiveLock : Z := 4.

(** [BT_READ] is [BUFFER_LOCK_SHARE], [BT_WRITE] is [BUFFER_LOCK_EXCLUSIVE]. *)
Definition BT_READ : Z := 1.
Definition BT_WRITE : Z := 2.

End Const.
Export Const.

(** [MAXALIGN(LEN)] is [((uintptr_t) (LEN) + 7) & ~((uintptr_t) 7)]. *)
Definition MAXALIGN (len : Z) : Z := Z.land (len + 7) (Z.lnot 7).

(** [Size] is a 64-bit unsigned integer. *)
Definition wrap_Size (z : Z) : Z := z mod 2 ^ 64.

(** ** Pages *)

Definition BlockNumber := Z.
Definition OffsetNumber := Z.
Definition Buffer := Z.

(** An index tuple: the block number held in [t_tid] (a downlink on internal
    pages, the top parent on a half-dead leaf), [t_info], and the key and
    heap reference, kept abstract. *)
Record IndexTuple := mkTuple {
  t_tid : BlockNumber;
  t_info : Z;
  t_key : Z
}.

(** A line pointer together with the tuple it points to. *)
Record ItemId := mkItemId {
  lp_flags : Z;
  lp_len : Z;
  lp_item : IndexTuple
}.

Definition ItemIdIsUsed (itemid : ItemId) : bool := negb (lp_flags itemid =? LP_UNUSED).
Definition ItemIdHasStorage (itemid : ItemId) : bool := negb (lp_len itemid =? 0).
Definition ItemIdGetLength (itemid : ItemId) : Z := lp_len itemid.

Definition unused_ItemId : ItemId := mkItemId LP_UNUSED 0 (mkTuple 0 0 0).

(** A page: header fields, the line pointer array ([pd_lower] is where that
    array ends, so it is computed from its length), the B-tree special area
    and, for the metapage, the root pointer. *)
Record Page := mkPage {
  pd_flags : Z;
  pd_upper : Z;
  pd_pagesize : Z;
  pd_linp : list ItemId;
  btpo_prev : BlockNumber;
  btpo_next : BlockNumber;
  btpo_level : Z;
  btpo_flags : Z;
  btpo_cycleid : Z;
  btm_root : BlockNumber
}.

Definition pd_lower (page : Page) : Z :=
  SizeOfPageHeaderData + sizeof_ItemIdData * Z.of_nat (length (pd_linp page)).

Definition set_linp (page : Page) (linp : list ItemId) (upper : Z) : Page :=
  mkPage (pd_flags page) upper (pd_pagesize page) linp
         (btpo_prev page) (btpo_next page) (btpo_level page) (btpo_flags page)
         (btpo_cycleid page) (btm_root page).

Definition set_pd_flags (page : Page) (f : Z) : Page :=
  mkPage f (pd_upper page) (pd_pagesize page) (pd_linp page)
         (btpo_prev page) (btpo_next page) (btpo_level page) (btpo_flags page)
         (btpo_cycleid page) (btm_root page).

Definition set_btpo_prev (page : Page) (b : BlockNumber) : Page :=
  mkPage (pd_flags page) (pd_upper page) (pd_pagesize page) (pd_linp page)
         b (btpo_next page) (btpo_level page) (btpo_flags page)
         (btpo_cycleid page) (btm_root page).

Definition set_btpo_next (page : Page) (b : BlockNumber) : Page :=
  mkPage (pd_flags page) (pd_upper page) (pd_pagesize page) (pd_linp page)
         (btpo_prev page) b (btpo_level page) (btpo_flags page)
         (btpo_cycleid page) (btm_root page).

Definition set_btpo_flags (page : Page) (f : Z) : Page :=
  mkPage (pd_flags page) (pd_upper page) (pd_pagesize page) (pd_linp page)
         (btpo_prev page) (btpo_next page) (btpo_level page) f
         (btpo_cycleid page) (btm_root page).

Definition set_btpo_cycleid (page : Page) (c : Z) : Page :=
  mkPage (pd_flags page) (pd_upper page) (pd_pagesize page) (pd_linp page)
         (btpo_prev page) (btpo_next page) (btpo_level page) (btpo_flags page)
         c (btm_root page).

(** *** bufpage.h and nbtree.h macros *)

Definition PageIsNew (page : Page) : bool := pd_upper page =? 0.
Definition PageGetPageSize (page : Page) : Z := pd_pagesize page.

Definition PageGetMaxOffsetNumber (page : Page) : OffsetNumber :=
  if pd_lower page <=? SizeOfPageHeaderData then 0
  else (pd_lower page - SizeOfPageHeaderData) / sizeof_ItemIdData.

(** [PageGetItemId(page, offnum)], offsets counting from 1. *)
Definition PageGetItemId (page : Page) (offnum : OffsetNumber) : ItemId :=
  nth (Z.to_nat (offnum - 1)) (pd_linp page) unused_ItemId.

Definition PageGetFreeSpace (page : Page) : Z :=
  let space := pd_upper page - pd_lower page in
  if space <? sizeof_ItemIdData then 0 else space - sizeof_ItemIdData.

Definition PageHasFreeLinePointers (page : Page) : bool :=
  negb (Z.land (pd_flags page) PD_HAS_FREE_LINES =? 0).

Definition P_ISLEAF (page : Page) : bool := negb (Z.land (btpo_flags page) BTP_LEAF =? 0).
Definition P_ISDELETED (page : Page) : bool := negb (Z.land (btpo_flags page) BTP_DELETED =? 0).
Definition P_ISHALFDEAD (page : Page) : bool := negb (Z.land (btpo_flags page) BTP_HALF_DEAD =? 0).
Definition P_RIGHTMOST (page : Page) : bool := btpo_next page =? P_NONE.
Definition P_FIRSTDATAKEY (page : Page) : OffsetNumber :=
  if P_RIGHTMOST page then P_HIKEY else P_FIRSTKEY.

(** The offsets visited by [for (offnum = first; offnum <= maxoff; offnum++)]. *)
Definition offsets_from_to (first maxoff : OffsetNumber) : list OffsetNumber :=
  map (fun i => first + Z.of_nat i) (seq 0 (Z.to_nat (maxoff - first + 1))).

(** *** bufpage.c routines

    The page header is taken to be sane ([pd_lower <= pd_upper <=
    pd_special <= BLCKSZ]); the consistency checks by which these routines
    refuse a corrupted header are not part of the model. *)

(** First recyclable slot searched by [PageAddItemExtended] when the
    [PD_HAS_FREE_LINES] hint is set. *)
Fixpoint first_free_slot (off : OffsetNumber) (linp : list ItemId) : option OffsetNumber :=
  match linp with
  | [] => None
  | itemid :: rest =>
      if negb (ItemIdIsUsed itemid) && negb (ItemIdHasStorage itemid)
      then Some off else first_free_slot (off + 1) rest
  end.

(** [PageAddItem(page, item, size, offsetNumber, false, false)]: the new page
    and the offset used, or [InvalidOffsetNumber] (page unchanged but for the
    hint bit) when the item does not fit. *)
Definition PageAddItem (page : Page) (item : IndexTuple) (size : Z)
    (offsetNumber : OffsetNumber) : Page * OffsetNumber :=
  let limit := PageGetMaxOffsetNumber page + 1 in
  let '(page, offsetNumber, needshuffle) :=
    if negb (offsetNumber =? InvalidOffsetNumber) then
      (page, offsetNumber, offsetNumber <? limit)
    else if PageHasFreeLinePointers page then
      match first_free_slot FirstOffsetNumber (pd_linp page) with
      | Some off => (page, off, false)
      | None =>
          (set_pd_flags page (Z.land (pd_flags page) (Z.lnot PD_HAS_FREE_LINES)),
           limit, false)
      end
    else (page, limit, false) in
  if limit <? offsetNumber then (page, InvalidOffsetNumber) else
  let lower :=
    if (offsetNumber =? limit) || needshuffle
    then pd_lower page + sizeof_ItemIdData else pd_lower page in
  let upper := pd_upper page - MAXALIGN size in
  if upper <? lower then (page, InvalidOffsetNumber) else
  let itemid := mkItemId LP_NORMAL size item in
  let i := Z.to_nat (offsetNumber - 1) in
  let linp :=
    if (offsetNumber =? limit) || needshuffle
    then take i (pd_linp page) ++ itemid :: drop i (pd_linp page)
    else <[i := itemid]> (pd_linp page) in
  (set_linp page linp upper, offsetNumber).

(** Line pointers kept by a multi-delete, with the storage they free. *)
Fixpoint delete_slots (off : OffsetNumber) (itemnos : list OffsetNumber)
    (linp : list ItemId) : list ItemId * Z :=
  match linp with
  | [] => ([], 0)
  | itemid :: rest =>
      let '(kept, freed) := delete_slots (off + 1) itemnos rest in
      if existsb (Z.eqb off) itemnos
      then (kept, MAXALIGN (ItemIdGetLength itemid) + freed)
      else (itemid :: kept, freed)
  end.

(** [PageIndexMultiDelete(page, itemnos, nitems)]: the line pointers are
    removed and the tuples compacted.  The routine's check of the line
    pointers of the page (an error when more than two items go and one of
    the line pointers has no storage) is, like the header checks, not part
    of the model, and [pd_upper] moves up by the bytes freed, which is where
    the compaction puts it on a page whose tuples lie without gaps. *)
Definition PageIndexMultiDelete (page : Page) (itemnos : list OffsetNumber) : Page :=
  let '(kept, freed) := delete_slots FirstOffsetNumber itemnos (pd_linp page) in
  set_linp page kept (pd_upper page + freed).

(** [PageIndexTupleOverwrite(page, offnum, newtup, newsize)]. *)
Definition PageIndexTupleOverwrite (page : Page) (offnum : OffsetNumber)
    (newtup : IndexTuple) (newsize : Z) : Page * bool :=
  let tupid := PageGetItemId page offnum in
  let oldsize := MAXALIGN (ItemIdGetLength tupid) in
  let alignednewsize := MAXALIGN newsize in
  if oldsize + (pd_upper page - pd_lower page) <? alignednewsize then (page, false)
  else
    let size_diff := oldsize - alignednewsize in
    (set_linp page
       (<[Z.to_nat (offnum - 1) := mkItemId (lp_flags tupid) newsize newtup]> (pd_linp page))
       (pd_upper page + size_diff),
     true).

(** ** State, and the statements of a C function body *)

Record Relation := mkRelation {
  rd_relam : Z;
  rd_needswal : bool
}.

(** What a call can observe or change: the blocks of the index's main fork
    (the block number is the position), the buffer content locks this backend
    holds, each with its mode, most recent first, the relation-level locks
    held, the buffers marked dirty and the full-page images written to the
    log. *)
Record State := mkState {
  st_pages : list Page;
  st_held : list (Buffer * Z);
  st_rel_locks : list Z;
  st_dirty : list Buffer;
  st_wal : list Buffer
}.

Inductive errcode :=
| ERRCODE_INVALID_PARAMETER_VALUE
| ERRCODE_WRONG_OBJECT_TYPE
| ERRCODE_FEATURE_NOT_SUPPORTED
| ERRCODE_DATA_CORRUPTED.

(** A statement falls through to the next one, returns from the enclosing
    function, or raises an error ([ereport(ERROR, ...)]).  It can also fail
    to come back: [Blocked] is a backend waiting for a content lock it holds
    itself, which nobody will release.  The loops of the source that have no
    bound of their own take a number of iterations they may use; [OutOfFuel]
    says that this many did not end the loop. *)
Inductive outcome (R A : Type) :=
| Next (a : A) (s : State)
| Return (r : R) (s : State)
| Raise (e : errcode) (s : State)
| Blocked (s : State)
| OutOfFuel.
Arguments Next {R A} a s.
Arguments Return {R A} r s.
Arguments Raise {R A} e s.
Arguments Blocked {R A} s.
Arguments OutOfFuel {R A}.

Definition Stmt (R A : Type) := State -> outcome R A.

Definition ret {R A} (a : A) : Stmt R A := fun s => Next a s.
Definition return_ {R A} (r : R) : Stmt R A := fun s => Return r s.
Definition ereport {R A} (e : errcode) : Stmt R A := fun s => Raise e s.
Definition out_of_fuel {R A} : Stmt R A := fun _ => OutOfFuel.

Definition bind {R A B} (m : Stmt R A) (k : A -> Stmt R B) : Stmt R B :=
  fun s =>
    match m s with
    | Next a s' => k a s'
    | Return r s' => Return r s'
    | Raise e s' => Raise e s'
    | Blocked s' => Blocked s'
    | OutOfFuel => OutOfFuel
    end.

Declare Scope stmt_scope.
Delimit Scope stmt_scope with stmt.
Notation "x <- m ;; k" := (bind m (fun x => k))
  (at level 100, m at next level, right associativity) : stmt_scope.
Notation "m ;; k" := (bind m (fun _ => k))
  (at level 100, right associativity) : stmt_scope.
Local Open Scope stmt_scope.

(** [if (c) { body }] *)
Definition when {R} (c : bool) (body : Stmt R unit) : Stmt R unit :=
  if c then body else ret tt.

(** A call: what the callee returns is the value of the call. *)
Definition call {R R'} (f : Stmt R R) : Stmt R' R :=
  fun s =>
    match f s with
    | Next r s' => Next r s'
    | Return r s' => Next r s'
    | Raise e s' => Raise e s'
    | Blocked s' => Blocked s'
    | OutOfFuel => OutOfFuel
    end.

(** [for] over a list of values, the body falling through on each. *)
Fixpoint for_each {R A} (l : list A) (body : A -> Stmt R unit) : Stmt R unit :=
  match l with
  | [] => ret tt
  | x :: rest => body x ;; for_each rest body
  end.

(** *** Buffer manager *)

Definition RelationGetNumberOfBlocks {R} : Stmt R Z :=
  fun s => Next (Z.of_nat (length (st_pages s))) s.

(** [ReadBufferExtended(rel, MAIN_FORKNUM, blkno, RBM_NORMAL, ...)]: reading
    past the end of the relation is an error.  The block number [P_NEW]
    (0xFFFFFFFF), by which the buffer manager is asked for a new page at the
    end of the relation, is taken as any other block past the end. *)
Definition ReadBufferExtended {R} (blkno : BlockNumber) : Stmt R Buffer :=
  fun s =>
    if (0 <=? blkno) && (blkno <? Z.of_nat (length (st_pages s)))
    then Next blkno s else Raise ERRCODE_DATA_CORRUPTED s.

(** A content lock is not re-entrant: asking for a buffer held exclusively,
    or asking exclusively for a buffer held at all, waits for the holder. *)
Definition lock_conflict (mode : Z) (buf : Buffer) (held : list (Buffer * Z)) : bool :=
  existsb (fun '(b, m) => (b =? buf) && ((m =? BT_WRITE) || (mode =? BT_WRITE))) held.

(** [LockBuffer(buf, mode)].  Locks of other backends are released in the
    end and are not modelled; a conflicting lock of this backend never is,
    and the call does not come back. *)
Definition LockBuffer {R} (buf : Buffer) (mode : Z) : Stmt R unit :=
  fun s =>
    if lock_conflict mode buf (st_held s) then Blocked s
    else Next tt (mkState (st_pages s) ((buf, mode) :: st_held s) (st_rel_locks s)
                          (st_dirty s) (st_wal s)).

Fixpoint release (buf : Buffer) (held : list (Buffer * Z)) : list (Buffer * Z) :=
  match held with
  | [] => []
  | (b, m) :: rest => if b =? buf then rest else (b, m) :: release buf rest
  end.

Definition UnlockReleaseBuffer {R} (buf : Buffer) : Stmt R unit :=
  fun s => Next tt (mkState (st_pages s) (release buf (st_held s)) (st_rel_locks s)
                            (st_dirty s) (st_wal s)).

Definition empty_page : Page := mkPage 0 0 0 [] 0 0 0 0 0 0.

(** [BufferGetPage(buf)] yields a pointer into shared memory; reading through
    it sees the page as it is at that moment. *)
Definition BufferGetPage {R} (buf : Buffer) : Stmt R Page :=
  fun s => Next (nth (Z.to_nat buf) (st_pages s) empty_page) s.

(** A store through a page pointer. *)
Definition modify_page {R} (buf : Buffer) (f : Page -> Page) : Stmt R unit :=
  fun s => Next tt (mkState (alter f (Z.to_nat buf) (st_pages s)) (st_held s)
                            (st_rel_locks s) (st_dirty s) (st_wal s)).

Definition MarkBufferDirty {R} (buf : Buffer) : Stmt R unit :=
  fun s => Next tt (mkState (st_pages s) (st_held s) (st_rel_locks s)
                            (buf :: st_dirty s) (st_wal s)).

Definition log_newpage_buffer {R} (buf : Buffer) : Stmt R unit :=
  fun s => Next tt (mkState (st_pages s) (st_held s) (st_rel_locks s)
                            (st_dirty s) (st_wal s ++ [buf])).

Definition index_open {R} (lockmode : Z) : Stmt R unit :=
  fun s => Next tt (mkState (st_pages s) (st_held s) (lockmode :: st_rel_locks s)
                            (st_dirty s) (st_wal s)).

Fixpoint unlock_relation (lockmode : Z) (locks : list Z) : list Z :=
  match locks with
  | [] => []
  | m :: rest => if m =? lockmode then rest else m :: unlock_relation lockmode rest
  end.

Definition index_close {R} (lockmode : Z) : Stmt R unit :=
  fun s => Next tt (mkState (st_pages s) (st_held s)
                            (unlock_relation lockmode (st_rel_locks s))
                            (st_dirty s) (st_wal s)).

(** ** dump_page (lines 68-128)

    Debug output only: the page is read under a shared lock and released. *)
Definition dump_page (blkno : BlockNumber) : Stmt unit unit :=
  buf <- ReadBufferExtended blkno ;;
  LockBuffer buf BT_READ ;;
  page <- BufferGetPage buf ;;
  when (PageIsNew page) (UnlockReleaseBuffer buf ;; return_ tt) ;;
  UnlockReleaseBuffer buf ;;
  return_ tt.

(** ** execute_merge (lines 504-1097) *)

(** [InvalidBuffer] is [None]. *)
Definition UnlockReleaseIfValid {R} (buf : option Buffer) : Stmt R unit :=
  match buf with
  | Some b => UnlockReleaseBuffer b
  | None => ret tt
  end.

(** Lines 705-714 and 715-724: the aligned lengths of the used items at
    [first..maxoff], added to [total_used].  A length is a 15-bit field and
    a page has fewer than 2^14 line pointers, so the [Size] sum cannot wrap. *)
Definition add_used_sizes (page : Page) (first maxoff : OffsetNumber) (total_used : Z) : Z :=
  fold_left
    (fun total_used offnum =>
       let itemid := PageGetItemId page offnum in
       if negb (ItemIdIsUsed itemid) then total_used
       else total_used + MAXALIGN (ItemIdGetLength itemid))
    (offsets_from_to first maxoff) total_used.

(** Lines 774-785 (and 964-972): the offsets of the used items at
    [first..maxoff], in order. *)
Definition used_offsets (page : Page) (first maxoff : OffsetNumber) : list OffsetNumber :=
  List.filter (fun offnum => ItemIdIsUsed (PageGetItemId page offnum))
         (offsets_from_to first maxoff).

(** The zero-attribute high key of a half-dead page (lines 988-995). *)
Definition trunctuple : IndexTuple :=
  mkTuple InvalidBlockNumber (Z.lor sizeof_IndexTupleData INDEX_ALT_TID_MASK) 0.

Definition execute_merge (rel : Relation) (left_block right_block : BlockNumber)
  : Stmt bool bool :=
  let needswal := rd_needswal rel in
  call (dump_page left_block) ;;
  call (dump_page right_block) ;;
  (* Lock pages left-to-right *)
  left_buf <- ReadBufferExtended left_block ;;
  LockBuffer left_buf BT_WRITE ;;
  left_page <- BufferGetPage left_buf ;;
  when (PageIsNew left_page)
    (UnlockReleaseBuffer left_buf ;; return_ false) ;;
  when (negb (P_ISLEAF left_page))
    (UnlockReleaseBuffer left_buf ;; return_ false) ;;
  when (P_ISDELETED left_page)
    (UnlockReleaseBuffer left_buf ;; return_ false) ;;
  when (P_ISHALFDEAD left_page)
    (UnlockReleaseBuffer left_buf ;; return_ false) ;;
  right_buf <- ReadBufferExtended right_block ;;
  LockBuffer right_buf BT_WRITE ;;
  right_page <- BufferGetPage right_buf ;;
  when (PageIsNew right_page)
    (UnlockReleaseBuffer right_buf ;; UnlockReleaseBuffer left_buf ;; return_ false) ;;
  when (negb (P_ISLEAF right_page))
    (UnlockReleaseBuffer right_buf ;; UnlockReleaseBuffer left_buf ;; return_ false) ;;
  when (P_ISDELETED right_page)
    (UnlockReleaseBuffer right_buf ;; UnlockReleaseBuffer left_buf ;; return_ false) ;;
  when (P_ISHALFDEAD right_page)
    (UnlockReleaseBuffer right_buf ;; UnlockReleaseBuffer left_buf ;; return_ false) ;;
  when (negb (btpo_prev right_page =? left_block))
    (UnlockReleaseBuffer right_buf ;; UnlockReleaseBuffer left_buf ;; return_ false) ;;
  let leftsib := btpo_prev left_page in
  let rightsib := btpo_next right_page in
  let is_rightmost := P_RIGHTMOST right_page in
  (* Lock right sibling if it exists *)
  right_sibling_buf <-
    (if negb is_rightmost then
       buf <- ReadBufferExtended rightsib ;;
       LockBuffer buf BT_WRITE ;;
       right_sibling_page <- BufferGetPage buf ;;
       when (negb (btpo_prev right_sibling_page =? right_block))
         (UnlockReleaseBuffer buf ;;
          UnlockReleaseBuffer right_buf ;;
          UnlockReleaseBuffer left_buf ;;
          return_ false) ;;
       ret (Some buf)
     else ret None) ;;
  (* Lock left sibling if it exists *)
  left_sibling_buf <-
    (if negb (leftsib =? P_NONE) then
       buf <- ReadBufferExtended leftsib ;;
       LockBuffer buf BT_WRITE ;;
       left_sibling_page <- BufferGetPage buf ;;
       when (negb (btpo_next left_sibling_page =? left_block))
         (UnlockReleaseBuffer buf ;;
          UnlockReleaseIfValid right_sibling_buf ;;
          UnlockReleaseBuffer right_buf ;;
          UnlockReleaseBuffer left_buf ;;
          return_ false) ;;
       ret (Some buf)
     else ret None) ;;
  let left_maxoff := PageGetMaxOffsetNumber left_page in
  let right_maxoff := PageGetMaxOffsetNumber right_page in
  let left_firstdata := P_FIRSTDATAKEY left_page in
  let right_firstdata := P_FIRSTDATAKEY right_page in
  (* Check if we have space *)
  let total_used :=
    add_used_sizes right_page right_firstdata right_maxoff
      (add_used_sizes left_page left_firstdata left_maxoff 0) in
  let available_space := PageGetFreeSpace right_page in
  when (available_space <? total_used)
    (UnlockReleaseIfValid left_sibling_buf ;;
     UnlockReleaseIfValid right_sibling_buf ;;
     UnlockReleaseBuffer right_buf ;;
     UnlockReleaseBuffer left_buf ;;
     return_ false) ;;
  (* Allocate all memory before the critical section *)
  let nleft_items := left_maxoff - left_firstdata + 1 in
  when (nleft_items <=? 0)
    (UnlockReleaseIfValid left_sibling_buf ;;
     UnlockReleaseIfValid right_sibling_buf ;;
     UnlockReleaseBuffer right_buf ;;
     UnlockReleaseBuffer left_buf ;;
     return_ false) ;;
  let ndeletable := left_maxoff - left_firstdata + 1 in
  let left_offsets := used_offsets left_page left_firstdata left_maxoff in
  let nleft_items := Z.of_nat (length left_offsets) in
  when (nleft_items =? 0)
    (UnlockReleaseIfValid left_sibling_buf ;;
     UnlockReleaseIfValid right_sibling_buf ;;
     UnlockReleaseBuffer right_buf ;;
     UnlockReleaseBuffer left_buf ;;
     return_ false) ;;
  (* START_CRIT_SECTION *)
  (* Step 1: add items from left page to right page *)
  for_each left_offsets
    (fun offnum =>
       left_page <- BufferGetPage left_buf ;;
       let itemid := PageGetItemId left_page offnum in
       let itemsz := ItemIdGetLength itemid in
       let itup := lp_item itemid in
       modify_page right_buf
         (fun right_page => fst (PageAddItem right_page itup itemsz InvalidOffsetNumber))) ;;
  (* Step 2: the right page keeps its original high key *)
  (* Update sibling links *)
  modify_page right_buf (fun right_page => set_btpo_prev right_page leftsib) ;;
  match left_sibling_buf with
  | Some buf =>
      modify_page buf (fun left_sibling_page => set_btpo_next left_sibling_page right_block) ;;
      MarkBufferDirty buf
  | None => ret tt
  end ;;
  (* Delete all items from left page except high key *)
  when (0 <? ndeletable)
    (left_page <- BufferGetPage left_buf ;;
     let deletable := used_offsets left_page left_firstdata left_maxoff in
     when (0 <? Z.of_nat (length deletable))
       (modify_page left_buf (fun left_page => PageIndexMultiDelete left_page deletable))) ;;
  (* Mark page as half-dead *)
  modify_page left_buf
    (fun left_page => set_btpo_flags left_page (Z.lor (btpo_flags left_page) BTP_HALF_DEAD)) ;;
  (* Set up dummy high key for half-dead page *)
  left_page <- BufferGetPage left_buf ;;
  (if (P_HIKEY <=? PageGetMaxOffsetNumber left_page)
      && ItemIdIsUsed (PageGetItemId left_page P_HIKEY)
   then
     modify_page left_buf
       (fun left_page =>
          fst (PageIndexTupleOverwrite left_page P_HIKEY trunctuple sizeof_IndexTupleData))
   else
     modify_page left_buf
       (fun left_page =>
          fst (PageAddItem left_page trunctuple sizeof_IndexTupleData P_HIKEY))) ;;
  modify_page left_buf (fun left_page => set_btpo_cycleid left_page 0) ;;
  MarkBufferDirty left_buf ;;
  MarkBufferDirty right_buf ;;
  when needswal
    (log_newpage_buffer left_buf ;;
     log_newpage_buffer right_buf ;;
     match left_sibling_buf with
     | Some buf => log_newpage_buffer buf
     | None => ret tt
     end) ;;
  (* END_CRIT_SECTION *)
  (* Release locks *)
  UnlockReleaseIfValid left_sibling_buf ;;
  UnlockReleaseIfValid right_sibling_buf ;;
  UnlockReleaseBuffer right_buf ;;
  UnlockReleaseBuffer left_buf ;;
  call (dump_page left_block) ;;
  call (dump_page right_block) ;;
  when (negb (rightsib =? P_NONE)) (call (dump_page rightsib)) ;;
  return_ true.

(** ** Analysis records *)

(** C [double]: IEEE 754 binary64 with round-to-nearest-even. *)
Definition double := spec_float.
Definition double_of_Z (z : Z) : double := binary_normalize 53 1024 z 0 false.
Definition double_mul : double -> double -> double := SFmul 53 1024.
Definition double_div : double -> double -> double := SFdiv 53 1024.
(** [a > b] and [a <= b] on doubles. *)
Definition double_gt (a b : double) : bool := SFltb b a.
Definition double_le (a b : double) : bool := SFleb a b.
(** The literal [0.9]: the double nearest to nine tenths. *)
Definition double_0_9 : double := S754_finite false 8106479329266893 (-53).

Record PageAnalysis := mkPageAnalysis {
  blockno : BlockNumber;
  is_leaf : bool;
  is_rightmost : bool;
  is_deleted : bool;
  is_halfdead : bool;
  used_space : Z;
  free_space : Z;
  item_count : Z;
  usage_pct : double
}.

Record MergeCandidate := mkMergeCandidate {
  left_page : BlockNumber;
  right_page : BlockNumber;
  left_usage_pct : double;
  right_usage_pct : double;
  total_items : Z;
  estimated_space : Z;
  can_merge : bool
}.

(** ** find_leftmost_leaf (lines 133-225) *)

Definition BlockNumberIsValid (b : BlockNumber) : bool := negb (b =? InvalidBlockNumber).

(** The [for (;;)] descent of lines 163-224, from [blkno]. *)
Fixpoint descend_to_leaf (fuel : nat) (blkno : BlockNumber) : Stmt BlockNumber BlockNumber :=
  match fuel with
  | O => out_of_fuel
  | S fuel =>
      buf <- ReadBufferExtended blkno ;;
      LockBuffer buf BT_READ ;;
      page <- BufferGetPage buf ;;
      when (PageIsNew page || P_ISDELETED page)
        (UnlockReleaseBuffer buf ;; return_ P_NONE) ;;
      when (P_ISLEAF page)
        (UnlockReleaseBuffer buf ;; return_ blkno) ;;
      let maxoff := PageGetMaxOffsetNumber page in
      let firstdata := P_FIRSTDATAKEY page in
      when (maxoff <? firstdata)
        (UnlockReleaseBuffer buf ;; return_ P_NONE) ;;
      let itemid := PageGetItemId page firstdata in
      when (negb (ItemIdIsUsed itemid))
        (UnlockReleaseBuffer buf ;; return_ P_NONE) ;;
      let child := t_tid (lp_item itemid) in
      when (negb (BlockNumberIsValid child))
        (UnlockReleaseBuffer buf ;; return_ P_NONE) ;;
      UnlockReleaseBuffer buf ;;
      descend_to_leaf fuel child
  end.

Definition find_leftmost_leaf (fuel : nat) : Stmt BlockNumber BlockNumber :=
  metabuf <- ReadBufferExtended BTREE_METAPAGE ;;
  LockBuffer metabuf BT_READ ;;
  metad <- BufferGetPage metabuf ;;
  when (btm_root metad =? P_NONE)
    (UnlockReleaseBuffer metabuf ;; return_ P_NONE) ;;
  let blkno := btm_root metad in
  UnlockReleaseBuffer metabuf ;;
  descend_to_leaf fuel blkno.

(** ** analyze_index_pages (lines 231-490) *)

(** [BLCKSZ - SizeOfPageHeaderData - MAXALIGN(sizeof(BTPageOpaqueData))] *)
Definition total_space : Z :=
  BLCKSZ - SizeOfPageHeaderData - MAXALIGN sizeof_BTPageOpaqueData.

(** Lines 345-352: every line pointer at [first..maxoff] is counted, used or
    not. *)
Definition sum_item_sizes (page : Page) (first maxoff : OffsetNumber) : Z * Z :=
  fold_left
    (fun '(used_space, item_count) offnum =>
       let itemid := PageGetItemId page offnum in
       let itemsize := MAXALIGN (ItemIdGetLength itemid) in
       (used_space + itemsize, item_count + 1))
    (offsets_from_to first maxoff) (0, 0).

(** Lines 338-373: the statistics of one live leaf page. *)
Definition analyze_page (blkno : BlockNumber) (page : Page) : PageAnalysis :=
  let maxoff := PageGetMaxOffsetNumber page in
  let free_space := PageGetFreeSpace page in
  let '(used_space, item_count) := sum_item_sizes page (P_FIRSTDATAKEY page) maxoff in
  mkPageAnalysis blkno true (P_RIGHTMOST page) false false
    used_space free_space item_count
    (if 0 <? total_space
     then double_mul (double_div (double_of_Z used_space) (double_of_Z total_space))
                     (double_of_Z 100)
     else double_of_Z 0).

(** The [while (blkno != P_NONE && total_pages < num_pages)] loop of lines
    272-385; [pages] holds the entries stored so far, so [total_pages] is its
    length.  [break] ends the loop with [pages]; [continue] goes round
    again. *)
Fixpoint scan_leaf_pages {R} (fuel : nat) (num_pages : Z) (blkno : BlockNumber)
    (pages : list PageAnalysis) : Stmt R (list PageAnalysis) :=
  match fuel with
  | O => out_of_fuel
  | S fuel =>
      let total_pages := Z.of_nat (length pages) in
      if negb (negb (blkno =? P_NONE) && (total_pages <? num_pages)) then ret pages
      else
        buf <- ReadBufferExtended blkno ;;
        LockBuffer buf BT_READ ;;
        page <- BufferGetPage buf ;;
        if PageIsNew page then
          UnlockReleaseBuffer buf ;; ret pages
        else if negb (PageGetPageSize page =? BLCKSZ) then
          UnlockReleaseBuffer buf ;; ret pages
        else if P_ISDELETED page then
          let next_blkno := btpo_next page in
          UnlockReleaseBuffer buf ;;
          scan_leaf_pages fuel num_pages next_blkno pages
        else if negb (P_ISLEAF page) then
          UnlockReleaseBuffer buf ;; ret pages
        else if P_ISHALFDEAD page then
          let next_blkno := btpo_next page in
          UnlockReleaseBuffer buf ;;
          scan_leaf_pages fuel num_pages next_blkno pages
        else
          let next_blkno := btpo_next page in
          let pages := pages ++ [analyze_page blkno page] in
          UnlockReleaseBuffer buf ;;
          scan_leaf_pages fuel num_pages next_blkno pages
  end.

(** Lines 455-470: the feasibility estimate. *)
Definition estimate_can_merge (left_page right_page : PageAnalysis) : bool :=
  let combined_used := wrap_Size (used_space left_page + used_space right_page) in
  let total_available := total_space in
  let total_available :=
    if negb (is_rightmost right_page) then
      let avg_item_size :=
        if 0 <? item_count right_page
        then used_space right_page / item_count right_page else 0 in
      wrap_Size (total_available - MAXALIGN avg_item_size)
    else total_available in
  double_le (double_of_Z combined_used)
            (double_mul (double_of_Z total_available) double_0_9).

(** Lines 431-440: the first analysed page with this block number. *)
Definition find_analysis (pages : list PageAnalysis) (blkno : BlockNumber)
  : option PageAnalysis :=
  List.find (fun p => blockno p =? blkno) pages.

(** The body of the [for] loop of lines 404-486 as a function of the left
    page: [continue] returns [None], reaching the end of the body returns the
    candidate that is appended. *)
Definition candidate_for (pages : list PageAnalysis) (max_pct_to_merge : Z)
    (left_page : PageAnalysis) : Stmt (option MergeCandidate) (option MergeCandidate) :=
  when (is_rightmost left_page) (return_ None) ;;
  left_buf <- ReadBufferExtended (blockno left_page) ;;
  LockBuffer left_buf BT_READ ;;
  left_page_ptr <- BufferGetPage left_buf ;;
  when (PageIsNew left_page_ptr)
    (UnlockReleaseBuffer left_buf ;; return_ None) ;;
  let right_blockno := btpo_next left_page_ptr in
  UnlockReleaseBuffer left_buf ;;
  when (right_blockno =? P_NONE) (return_ None) ;;
  match find_analysis pages right_blockno with
  | None => return_ None
  | Some right_page =>
      when (is_deleted left_page || is_halfdead left_page ||
            is_deleted right_page || is_halfdead right_page)
        (return_ None) ;;
      when (double_gt (usage_pct left_page) (double_of_Z max_pct_to_merge) &&
            double_gt (usage_pct right_page) (double_of_Z max_pct_to_merge))
        (return_ None) ;;
      let combined_used := wrap_Size (used_space left_page + used_space right_page) in
      let can_merge := estimate_can_merge left_page right_page in
      return_ (Some (mkMergeCandidate
                       (blockno left_page) (blockno right_page)
                       (usage_pct left_page) (usage_pct right_page)
                       (item_count left_page + item_count right_page)
                       combined_used can_merge))
  end.

Fixpoint find_candidates {R} (pages todo : list PageAnalysis) (max_pct_to_merge : Z)
    (merge_candidates : list MergeCandidate) : Stmt R (list MergeCandidate) :=
  match todo with
  | [] => ret merge_candidates
  | left_page :: rest =>
      c <- call (candidate_for pages max_pct_to_merge left_page) ;;
      find_candidates pages rest max_pct_to_merge
        (match c with Some c => merge_candidates ++ [c] | None => merge_candidates end)
  end.

(** The function appends to [*merge_candidates], which both callers pass
    empty; the list is its result here. *)
Definition analyze_index_pages (fuel : nat) (max_pct_to_merge : Z)
  : Stmt (list MergeCandidate) (list MergeCandidate) :=
  num_pages <- RelationGetNumberOfBlocks ;;
  when (num_pages <=? 1) (return_ []) ;;
  leftmost_leaf <- call (find_leftmost_leaf fuel) ;;
  when (leftmost_leaf =? P_NONE) (return_ []) ;;
  pages <- scan_leaf_pages fuel num_pages leftmost_leaf [] ;;
  merge_candidates <- find_candidates pages pages max_pct_to_merge [] ;;
  return_ merge_candidates.

(** ** pg_index_reclaim_execute (lines 1103-1252) *)

Definition MAX_MERGES_PER_EXECUTION : Z := 1.

(** The [foreach] loop of lines 1172-1230.  An error raised by
    [execute_merge] is reported and re-thrown, so it ends the function. *)
Fixpoint merge_candidates_loop {R} (rel : Relation) (merge_candidates : list MergeCandidate)
    (merges_attempted pages_merged space_reclaimed : Z) : Stmt R (Z * Z) :=
  match merge_candidates with
  | [] => ret (pages_merged, space_reclaimed)
  | candidate :: rest =>
      if MAX_MERGES_PER_EXECUTION <=? merges_attempted then
        ret (pages_merged, space_reclaimed)
      else if can_merge candidate then
        let merges_attempted := merges_attempted + 1 in
        merged <- call (execute_merge rel (left_page candidate) (right_page candidate)) ;;
        if merged then
          merge_candidates_loop rel rest merges_attempted (pages_merged + 1)
            (space_reclaimed + (BLCKSZ - estimated_space candidate))
        else
          merge_candidates_loop rel rest merges_attempted pages_merged space_reclaimed
      else
        merge_candidates_loop rel rest merges_attempted pages_merged space_reclaimed
  end.

(** [rel] is the relation [index_open] yields for the index argument,
    [rsinfo_ok] says whether the caller accepts a set; the value returned is
    the row [(pages_merged, space_reclaimed)] put in the tuple store. *)
Definition pg_index_reclaim_execute (fuel : nat) (rel : Relation) (max_pct_to_merge : Z)
    (rsinfo_ok : bool) : Stmt (Z * Z) (Z * Z) :=
  when ((max_pct_to_merge <? 1) || (100 <? max_pct_to_merge))
    (ereport ERRCODE_INVALID_PARAMETER_VALUE) ;;
  index_open ShareUpdateExclusiveLock ;;
  when (negb (rd_relam rel =? BTREE_AM_OID))
    (ereport ERRCODE_WRONG_OBJECT_TYPE) ;;
  when (negb rsinfo_ok)
    (ereport ERRCODE_FEATURE_NOT_SUPPORTED) ;;
  merge_candidates <- call (analyze_index_pages fuel max_pct_to_merge) ;;
  row <- merge_candidates_loop rel merge_candidates 0 0 0 ;;
  index_close ShareUpdateExclusiveLock ;;
  return_ row.

(** ** pg_index_reclaim_analyze (lines 1258-1349) *)

Record AnalyzeRow := mkAnalyzeRow {
  left_page_block : Z;
  right_page_block : Z;
  left_page_usage_pct : double;
  right_page_usage_pct : double;
  total_items_to_move : Z;
  estimated_space_reclaimed : Z;
  row_can_merge : bool
}.

Definition analyze_row (candidate : MergeCandidate) : AnalyzeRow :=
  mkAnalyzeRow (left_page candidate) (right_page candidate)
    (left_usage_pct candidate) (right_usage_pct candidate)
    (total_items candidate) (BLCKSZ - estimated_space candidate)
    (can_merge candidate).

Definition pg_index_reclaim_analyze (fuel : nat) (rel : Relation) (max_pct_to_merge : Z)
    (rsinfo_ok : bool) : Stmt (list AnalyzeRow) (list AnalyzeRow) :=
  when ((max_pct_to_merge <? 1) || (100 <? max_pct_to_merge))
    (ereport ERRCODE_INVALID_PARAMETER_VALUE) ;;
  index_open AccessShareLock ;;
  when (negb (rd_relam rel =? BTREE_AM_OID))
    (ereport ERRCODE_WRONG_OBJECT_TYPE) ;;
  when (negb rsinfo_ok)
    (ereport ERRCODE_FEATURE_NOT_SUPPORTED) ;;
  merge_candidates <- call (analyze_index_pages fuel max_pct_to_merge) ;;
  index_close AccessShareLock ;;
  return_ (map analyze_row merge_candidates).

(** * Specification

    The vocabulary of the claims: states and pages as the claims see them,
    the conditions under which [execute_merge] gives up, the shape of a
    merged page, the feasibility estimate in exact arithmetic, and the
    example indexes the claims are tried on. *)

(** ** States and their pages *)

Definition page_at (s : State) (blkno : BlockNumber) : Page :=
  nth (Z.to_nat blkno) (st_pages s) empty_page.

Definition readable (s : State) (blkno : BlockNumber) : bool :=
  (0 <=? blkno) && (blkno <? Z.of_nat (length (st_pages s))).

Definition hold (buf : Buffer) (mode : Z) (s : State) : State :=
  mkState (st_pages s) ((buf, mode) :: st_held s) (st_rel_locks s) (st_dirty s) (st_wal s).

Definition unhold (buf : Buffer) (s : State) : State :=
  mkState (st_pages s) (release buf (st_held s)) (st_rel_locks s) (st_dirty s) (st_wal s).

Definition unhold_valid (buf : option Buffer) (s : State) : State :=
  match buf with Some b => unhold b s | None => s end.

Definition store (buf : Buffer) (f : Page -> Page) (s : State) : State :=
  mkState (alter f (Z.to_nat buf) (st_pages s)) (st_held s) (st_rel_locks s)
          (st_dirty s) (st_wal s).

(** ** Why a merge is given up *)

(** Lines 551-579 (and 590-622): what makes a page unfit for a merge. *)
Definition unfit (page : Page) : bool :=
  PageIsNew page || negb (P_ISLEAF page) || P_ISDELETED page || P_ISHALFDEAD page.

(** The aligned bytes of the used data items of a page. *)
Definition live_data_size (page : Page) : Z :=
  add_used_sizes page (P_FIRSTDATAKEY page) (PageGetMaxOffsetNumber page) 0.

(** The used data items of a page, in order. *)
Definition live_data_items (page : Page) : list ItemId :=
  List.filter ItemIdIsUsed (drop (Z.to_nat (P_FIRSTDATAKEY page - 1)) (pd_linp page)).

(** The neighbours that [execute_merge] locks exist and are pages of their
    own: the right page's right sibling, when it has one, is neither of the
    two pages, and the left page's left sibling, when it has one, is neither
    of these three. *)
Definition right_neighbour_lockable (s : State) (left_block right_block : BlockNumber)
  : Prop :=
  P_RIGHTMOST (page_at s right_block) = false ->
  readable s (btpo_next (page_at s right_block)) = true /\
  btpo_next (page_at s right_block) <> left_block /\
  btpo_next (page_at s right_block) <> right_block.

Definition left_neighbour_lockable (s : State) (left_block right_block : BlockNumber)
  : Prop :=
  btpo_prev (page_at s left_block) <> P_NONE ->
  readable s (btpo_prev (page_at s left_block)) = true /\
  btpo_prev (page_at s left_block) <> left_block /\
  btpo_prev (page_at s left_block) <> right_block /\
  (P_RIGHTMOST (page_at s right_block) = false ->
   btpo_prev (page_at s left_block) <> btpo_next (page_at s right_block)).

(** What makes [execute_merge] give up before its critical section, each
    with what it takes to get as far as finding out. *)
Inductive abort_cause (s : State) (left_block right_block : BlockNumber) : Prop :=
| left_unfit :
    unfit (page_at s left_block) = true ->
    abort_cause s left_block right_block
| right_unfit :
    unfit (page_at s right_block) = true ->
    abort_cause s left_block right_block
| right_prev_differs :
    left_block <> right_block ->
    btpo_prev (page_at s right_block) <> left_block ->
    abort_cause s left_block right_block
| right_neighbour_differs :
    left_block <> right_block ->
    right_neighbour_lockable s left_block right_block ->
    P_RIGHTMOST (page_at s right_block) = false ->
    btpo_prev (page_at s (btpo_next (page_at s right_block))) <> right_block ->
    abort_cause s left_block right_block
| left_neighbour_differs :
    left_block <> right_block ->
    right_neighbour_lockable s left_block right_block ->
    left_neighbour_lockable s left_block right_block ->
    btpo_prev (page_at s left_block) <> P_NONE ->
    btpo_next (page_at s (btpo_prev (page_at s left_block))) <> left_block ->
    abort_cause s left_block right_block
| no_room :
    left_block <> right_block ->
    right_neighbour_lockable s left_block right_block ->
    left_neighbour_lockable s left_block right_block ->
    PageGetFreeSpace (page_at s right_block)
      < live_data_size (page_at s left_block) + live_data_size (page_at s right_block) ->
    abort_cause s left_block right_block
| nothing_to_move :
    left_block <> right_block ->
    right_neighbour_lockable s left_block right_block ->
    left_neighbour_lockable s left_block right_block ->
    live_data_items (page_at s left_block) = [] ->
    abort_cause s left_block right_block.



(** ** The right page after a merge *)

(** The line pointer [PageAddItem] writes for a copy of [itemid]. *)
Definition normal_copy (itemid : ItemId) : ItemId :=
  mkItemId LP_NORMAL (ItemIdGetLength itemid) (lp_item itemid).

(** Bytes an appended copy takes: the aligned tuple and a line pointer. *)
Definition footprint (itemid : ItemId) : Z :=
  MAXALIGN (ItemIdGetLength itemid) + sizeof_ItemIdData.

(** Every copy, appended in turn, finds room between the line pointer array
    and the tuples, [gap] bytes to start with. *)
Fixpoint all_fit (gap : Z) (items : list ItemId) : bool :=
  match items with
  | [] => true
  | itemid :: rest => (footprint itemid <=? gap) && all_fit (gap - footprint itemid) rest
  end.

(** A statement that leaves the line pointers of block [b] as they are. *)
Definition keeps_linp {R A} (b : Buffer) (m : Stmt R A) : Prop :=
  forall s,
    match m s with
    | Next _ s' | Return _ s' => pd_linp (page_at s' b) = pd_linp (page_at s b)
    | Raise _ _ | Blocked _ | OutOfFuel => True
    end.

(** ** Doubles and the integers they stand for *)

(** [f] is zero or a positive normalised double whose value lies in
    [[lo, lo + 1)]; [exact] asks for the value [lo] itself. *)
Definition double_within (exact : bool) (lo : Z) (f : double) : bool :=
  match f with
  | S754_zero false => lo =? 0
  | S754_finite false m e =>
      (Z.pos (digits2_pos m) =? 53) && (e <=? 0) &&
      (lo * 2 ^ (- e) <=? Z.pos m) &&
      (if exact then Z.pos m =? lo * 2 ^ (- e) else Z.pos m <? (lo + 1) * 2 ^ (- e))
  | _ => false
  end.

(** [P] holds of the [count] integers from [start] on. *)
Fixpoint holds_from (P : Z -> bool) (start : Z) (count : nat) : bool :=
  match count with
  | O => true
  | S count => P start && holds_from P (start + 1) count
  end.

(** ** Candidates *)

(** Lines 464-465. *)
Definition average_item_size (page : PageAnalysis) : Z :=
  if 0 <? item_count page then used_space page / item_count page else 0.

(** The capacity the estimate compares with: what a page can hold, less the
    aligned average item size of the right page when that page has a high
    key. *)
Definition available_capacity (right_page : PageAnalysis) : Z :=
  total_space -
  (if is_rightmost right_page then 0 else MAXALIGN (average_item_size right_page)).

(** Whether the selector emits a candidate for [left_page]. *)
Definition emits_candidate (pages : list PageAnalysis) (max_pct_to_merge : Z)
    (left_page : PageAnalysis) (s : State) : bool :=
  match call (R' := unit) (candidate_for pages max_pct_to_merge left_page) s with
  | Next (Some _) _ => true
  | _ => false
  end.

(** What the loop over the candidates comes to: the first candidate with
    [can_merge] set, if there is one, is handed to [execute_merge], and no
    other. *)
Definition merge_first_feasible {R} (rel : Relation) (merge_candidates : list MergeCandidate)
  : Stmt R (Z * Z) :=
  match List.find can_merge merge_candidates with
  | None => ret (0, 0)
  | Some candidate =>
      merged <- call (execute_merge rel (left_page candidate) (right_page candidate)) ;;
      ret (if merged : bool then (1, BLCKSZ - estimated_space candidate) else (0, 0))
  end.

(** ** Example indexes *)

Definition BTP_ROOT : Z := 2.
Definition BTP_META : Z := 8.

(** [pd_special] of a B-tree page. *)
Definition pd_special : Z := BLCKSZ - MAXALIGN sizeof_BTPageOpaqueData.

Definition stored_bytes (linp : list ItemId) : Z :=
  fold_right (fun itemid acc => MAXALIGN (lp_len itemid) + acc) 0 linp.

(** A tuple of [len] bytes with key [key]. *)
Definition sized_item (len key : Z) : ItemId := mkItemId LP_NORMAL len (mkTuple 0 len key).
Definition data_item (key : Z) : ItemId := sized_item 16 key.
Definition downlink (child : BlockNumber) : ItemId :=
  mkItemId LP_NORMAL 16 (mkTuple child 16 0).

Definition leaf_page (prev next : BlockNumber) (linp : list ItemId) : Page :=
  mkPage 0 (pd_special - stored_bytes linp) BLCKSZ linp prev next 0 BTP_LEAF 0 0.

Definition half_dead_page (prev next : BlockNumber) : Page :=
  mkPage 0 (pd_special - 8) BLCKSZ [mkItemId LP_NORMAL sizeof_IndexTupleData trunctuple]
         prev next 0 (Z.lor BTP_LEAF BTP_HALF_DEAD) 0 0.

Definition root_page (children : list BlockNumber) : Page :=
  mkPage 0 (pd_special - stored_bytes (map downlink children)) BLCKSZ
         (map downlink children) P_NONE P_NONE 1 BTP_ROOT 0 0.

Definition meta_page (root : BlockNumber) : Page :=
  mkPage 0 pd_special BLCKSZ [] 0 0 0 BTP_META 0 root.

Definition index_of (pages : list Page) : State := mkState pages [] [] [] [].

Definition btree : Relation := mkRelation BTREE_AM_OID true.

(** Two leaves: a left one with a high key and two items, and the rightmost
    one with two items. *)
Definition small_index : State :=
  index_of [meta_page 3;
            leaf_page 0 2 [data_item 100; data_item 1; data_item 2];
            leaf_page 1 0 [data_item 7; data_item 8];
            root_page [1; 2]].


(** A full left leaf, 406 items of 16 bytes under its high key, next to a
    rightmost leaf with two items. *)
Definition full_left_index : State :=
  index_of [meta_page 3;
            leaf_page 0 2 (data_item 1000 :: map (fun k => data_item (Z.of_nat k)) (seq 1 406));
            leaf_page 1 0 [data_item 2001; data_item 2002];
            root_page [1; 2]].

(** A leaf followed by a half-dead page whose right link points to
    itself. *)
Definition cyclic_index : State :=
  index_of [meta_page 3;
            leaf_page 0 2 [data_item 100; data_item 1];
            half_dead_page 1 2;
            root_page [1]].

(** A left leaf with four large items, a right leaf with items of 16, 16 and
    24 bytes under its high key, and a rightmost leaf. *)
Definition uneven_index : State :=
  index_of [meta_page 4;
            leaf_page 0 2 [data_item 100; sized_item 1816 1; sized_item 1816 2;
                           sized_item 1816 3; sized_item 1816 4];
            leaf_page 1 3 [data_item 200; sized_item 16 5; sized_item 16 6; sized_item 24 7];
            leaf_page 2 0 [data_item 8];
            root_page [1; 2; 3]].

(** A left leaf holding its high key only. *)
Definition empty_left_index : State :=
  index_of [meta_page 3;
            leaf_page 0 2 [data_item 100];
            leaf_page 1 0 [data_item 7; data_item 8];
            root_page [1; 2]].

(** Two leaves of 300 items each. *)
Definition crowded_index : State :=
  index_of [meta_page 3;
            leaf_page 0 2 (data_item 1000 :: map (fun k => data_item (Z.of_nat k)) (seq 1 300));
            leaf_page 1 0 (map (fun k => data_item (Z.of_nat k)) (seq 301 300));
            root_page [1; 2]].

(** The state an outcome ends in. *)
Definition final_state {R A} (o : outcome R A) (otherwise : State) : State :=
  match o with
  | Next _ s | Return _ s | Raise _ s | Blocked s => s
  | OutOfFuel => otherwise
  end.

Definition merged_small_index : State :=
  Eval vm_compute in final_state (execute_merge btree 1 2 small_index) small_index.

(** The used data items on the leaf pages that are neither half-dead nor
    deleted. *)
Definition live_entry_count (s : State) : Z :=
  fold_right
    (fun page acc =>
       if P_ISLEAF page && negb (P_ISHALFDEAD page) && negb (P_ISDELETED page)
       then Z.of_nat (length (live_data_items page)) + acc else acc)
    0 (st_pages s).

(** The order the claim states: the non-high-key tuples of the left page,
    then the original tuples of the right page. *)
Definition left_entries_first (s s' : State) (left_block right_block : BlockNumber) : Prop :=
  map lp_item (pd_linp (page_at s' right_block))
  = map lp_item (drop (Z.to_nat (P_FIRSTDATAKEY (page_at s left_block) - 1))
                      (pd_linp (page_at s left_block)))
    ++ map lp_item (pd_linp (page_at s right_block)).

(** The claim takes the average item size itself off the capacity. *)
Definition claimed_can_merge (left_page right_page : PageAnalysis) : bool :=
  10 * (used_space left_page + used_space right_page)
  <=? 9 * (total_space -
           (if is_rightmost right_page then 0 else average_item_size right_page)).

Definition uneven_candidates : list MergeCandidate :=
  Eval vm_compute in
    match call (R' := unit) (analyze_index_pages 10 50) uneven_index with
    | Next merge_candidates _ => merge_candidates
    | _ => []
    end.

Definition small_stats : list PageAnalysis :=
  [analyze_page 1 (page_at small_index 1); analyze_page 2 (page_at small_index 2)].

Definition small_candidate : MergeCandidate :=
  Eval vm_compute in
    match call (R' := unit)
            (candidate_for small_stats 50 (analyze_page 1 (page_at small_index 1)))
            small_index with
    | Next (Some c) _ => c
    | _ => mkMergeCandidate 0 0 (double_of_Z 0) (double_of_Z 0) 0 0 false
    end.


(** ** What a merge leaves behind *)

Definition mark_dirty (buf : Buffer) (s : State) : State :=
  mkState (st_pages s) (st_held s) (st_rel_locks s) (buf :: st_dirty s) (st_wal s).

Definition log_page (buf : Buffer) (s : State) : State :=
  mkState (st_pages s) (st_held s) (st_rel_locks s) (st_dirty s) (st_wal s ++ [buf]).

(** The left sibling that [execute_merge] locks and relinks, if the left page
    has one (lines 667-689). *)
Definition left_sibling (left_page : Page) : list BlockNumber :=
  if btpo_prev left_page =? P_NONE then [] else [btpo_prev left_page].

(** Lines 826-858: the items of [left_page] at [offs], added in turn to the
    right page. *)
Definition add_items (left_page : Page) (offs : list OffsetNumber) (right_page : Page) : Page :=
  fold_left
    (fun right_page offnum =>
       fst (PageAddItem right_page
              (lp_item (PageGetItemId left_page offnum))
              (ItemIdGetLength (PageGetItemId left_page offnum))
              InvalidOffsetNumber))
    offs right_page.

(** The right page after a merge (lines 826-858 and 930). *)
Definition right_after (left_page right_page : Page) : Page :=
  set_btpo_prev
    (add_items left_page
       (used_offsets left_page (P_FIRSTDATAKEY left_page) (PageGetMaxOffsetNumber left_page))
       right_page)
    (btpo_prev left_page).

(** Lines 998-1016: the high key of the half-dead page, overwritten or
    added. *)
Definition set_dummy_high_key (page : Page) : Page :=
  if (P_HIKEY <=? PageGetMaxOffsetNumber page) && ItemIdIsUsed (PageGetItemId page P_HIKEY)
  then fst (PageIndexTupleOverwrite page P_HIKEY trunctuple sizeof_IndexTupleData)
  else fst (PageAddItem page trunctuple sizeof_IndexTupleData P_HIKEY).

(** The left page after a merge (lines 955-1019). *)
Definition left_after (left_page : Page) : Page :=
  let deleted :=
    PageIndexMultiDelete left_page
      (used_offsets left_page (P_FIRSTDATAKEY left_page) (PageGetMaxOffsetNumber left_page)) in
  let half_dead := set_btpo_flags deleted (Z.lor (btpo_flags deleted) BTP_HALF_DEAD) in
  set_btpo_cycleid (set_dummy_high_key half_dead) 0.

(** What [execute_merge] has checked when it enters its critical section. *)
Record merge_ready (s : State) (left_block right_block : BlockNumber) : Prop := {
  ready_distinct : left_block <> right_block;
  ready_left : readable s left_block = true /\ unfit (page_at s left_block) = false;
  ready_right : readable s right_block = true /\ unfit (page_at s right_block) = false;
  ready_link : btpo_prev (page_at s right_block) = left_block;
  ready_right_sibling :
    P_RIGHTMOST (page_at s right_block) = false ->
    readable s (btpo_next (page_at s right_block)) = true /\
    btpo_next (page_at s right_block) <> left_block /\
    btpo_next (page_at s right_block) <> right_block /\
    btpo_prev (page_at s (btpo_next (page_at s right_block))) = right_block;
  ready_left_sibling :
    btpo_prev (page_at s left_block) <> P_NONE ->
    readable s (btpo_prev (page_at s left_block)) = true /\
    btpo_prev (page_at s left_block) <> left_block /\
    btpo_prev (page_at s left_block) <> right_block /\
    btpo_next (page_at s (btpo_prev (page_at s left_block))) = left_block;
  ready_room :
    live_data_size (page_at s left_block) + live_data_size (page_at s right_block)
    <= PageGetFreeSpace (page_at s right_block);
  ready_items : live_data_items (page_at s left_block) <> []
}.

(** The state [s'] a successful merge of [left_block] into [right_block]
    ends in, from [s]. *)
Record merged (rel : Relation) (s : State) (left_block right_block : BlockNumber)
    (s' : State) : Prop := {
  merged_held : st_held s' = st_held s;
  merged_rel_locks : st_rel_locks s' = st_rel_locks s;
  merged_dirty :
    st_dirty s'
    = right_block :: left_block :: left_sibling (page_at s left_block) ++ st_dirty s;
  merged_wal :
    st_wal s'
    = st_wal s ++ (if rd_needswal rel
                   then left_block :: right_block :: left_sibling (page_at s left_block)
                   else []);
  merged_length : length (st_pages s') = length (st_pages s);
  merged_left : page_at s' left_block = left_after (page_at s left_block);
  merged_right :
    page_at s' right_block = right_after (page_at s left_block) (page_at s right_block);
  merged_left_sibling :
    btpo_prev (page_at s left_block) <> P_NONE ->
    page_at s' (btpo_prev (page_at s left_block))
    = set_btpo_next (page_at s (btpo_prev (page_at s left_block))) right_block;
  merged_others :
    forall b, 0 <= b -> b <> left_block -> b <> right_block ->
              ~ In b (left_sibling (page_at s left_block)) ->
              page_at s' b = page_at s b
}.

(** What a page counts for in [live_entry_count]. *)
Definition entry_weight (page : Page) : Z :=
  if P_ISLEAF page && negb (P_ISHALFDEAD page) && negb (P_ISDELETED page)
  then Z.of_nat (length (live_data_items page)) else 0.

Definition total_weight (pages : list Page) : Z :=
  fold_right (fun page acc => entry_weight page + acc) 0 pages.

(** A page that is not rightmost holds its high key. *)
Definition has_high_key (page : Page) : Prop :=
  P_RIGHTMOST page = false -> pd_linp page <> [].

(** ** What the analysis hands on *)

(** A block [find_leftmost_leaf] can hand to the scan. *)
Definition leaf_found (s : State) (blkno : BlockNumber) : Prop :=
  blkno = P_NONE \/
  (readable s blkno = true /\ PageIsNew (page_at s blkno) = false /\
   P_ISDELETED (page_at s blkno) = false /\ P_ISLEAF (page_at s blkno) = true).

(** An entry of the analysis array: the statistics of a live leaf page of
    the index. *)
Definition scanned (s : State) (p : PageAnalysis) : Prop :=
  p = analyze_page (blockno p) (page_at s (blockno p)) /\
  blockno p <> P_NONE /\
  readable s (blockno p) = true /\
  PageGetPageSize (page_at s (blockno p)) = BLCKSZ /\
  unfit (page_at s (blockno p)) = false.

(** What a candidate says about the pages it names: the right page is the
    one the left page's right link names, and both were analysed. *)
Definition names_siblings (s : State) (pages : list PageAnalysis) (c : MergeCandidate) : Prop :=
  btpo_next (page_at s (left_page c)) = right_page c /\
  right_page c <> P_NONE /\
  (exists left_stat, In left_stat pages /\ blockno left_stat = left_page c) /\
  (exists right_stat, In right_stat pages /\ blockno right_stat = right_page c).

(** The candidates of an analysis of [s]: they name pages of the array the
    scan built from [s]. *)
Definition analysed (s : State) (merge_candidates : list MergeCandidate) : Prop :=
  exists pages,
    Forall (scanned s) pages /\
    Z.of_nat (length pages) <= Z.max 0 (Z.of_nat (length (st_pages s))) /\
    Forall (names_siblings s pages) merge_candidates /\
    (length merge_candidates <= length pages)%nat.

(** The pages a candidate names are live leaf pages of the index, the right
    one being the right sibling the left one names. *)
Definition live_siblings (s : State) (c : MergeCandidate) : Prop :=
  readable s (left_page c) = true /\ unfit (page_at s (left_page c)) = false /\
  readable s (right_page c) = true /\ unfit (page_at s (right_page c)) = false /\
  btpo_next (page_at s (left_page c)) = right_page c /\
  right_page c <> P_NONE.

(** ** Well-formed trees *)

(** The child [find_leftmost_leaf] goes to from an internal page (lines
    201-210). *)
Definition first_downlink (page : Page) : BlockNumber :=
  t_tid (lp_item (PageGetItemId page (P_FIRSTDATAKEY page))).

(** Going down the first downlink of an internal page that has one lowers
    the level. *)
Definition levels_decrease (s : State) : Prop :=
  forall blkno,
    readable s blkno = true ->
    P_ISLEAF (page_at s blkno) = false ->
    P_FIRSTDATAKEY (page_at s blkno) <= PageGetMaxOffsetNumber (page_at s blkno) ->
    0 <= btpo_level (page_at s (first_downlink (page_at s blkno)))
      < btpo_level (page_at s blkno).

(** No page of the index is deleted or half-dead. *)
Definition all_pages_live (s : State) : Prop :=
  forall blkno,
    P_ISDELETED (page_at s blkno) = false /\ P_ISHALFDEAD (page_at s blkno) = false.

(** An internal page from which the descent goes on to its first
    downlink. *)
Definition descends (s : State) (blkno : BlockNumber) : Prop :=
  readable s blkno = true /\
  lock_conflict BT_READ blkno (st_held s) = false /\
  PageIsNew (page_at s blkno) = false /\
  P_ISDELETED (page_at s blkno) = false /\
  P_ISLEAF (page_at s blkno) = false /\
  P_FIRSTDATAKEY (page_at s blkno) <= PageGetMaxOffsetNumber (page_at s blkno) /\
  ItemIdIsUsed (PageGetItemId (page_at s blkno) (P_FIRSTDATAKEY (page_at s blkno))) = true /\
  first_downlink (page_at s blkno) <> InvalidBlockNumber.

(** A statement that comes back to its caller: it goes on, returns or
    raises; it neither waits for a lock nor runs out of loop rounds. *)
Definition comes_back {R A} (o : outcome R A) : Prop :=
  match o with
  | Next _ _ | Return _ _ | Raise _ _ => True
  | Blocked _ | OutOfFuel => False
  end.

(** ** The entry points *)

(** The state with the relation lock [index_open] takes, and with it given
    back by [index_close]. *)
Definition relation_locked (lockmode : Z) (s : State) : State :=
  mkState (st_pages s) (st_held s) (lockmode :: st_rel_locks s) (st_dirty s) (st_wal s).

Definition relation_unlocked (lockmode : Z) (s : State) : State :=
  mkState (st_pages s) (st_held s) (unlock_relation lockmode (st_rel_locks s))
          (st_dirty s) (st_wal s).

(** The arguments an entry point accepts. *)
Definition valid_call (rel : Relation) (max_pct_to_merge : Z) (rsinfo_ok : bool) : Prop :=
  1 <= max_pct_to_merge <= 100 /\ rd_relam rel = BTREE_AM_OID /\ rsinfo_ok = true.


(** ** More example indexes *)

(** [uneven_index] after the merge of block 2 into block 3. *)
Definition merged_uneven_index : State :=
  Eval vm_compute in final_state (execute_merge btree 2 3 uneven_index) uneven_index.

(** A root whose first downlink names the root itself. *)
Definition looping_index : State := index_of [meta_page 1; root_page [1]].

(** An index of the metapage alone. *)
Definition metapage_only_index : State := index_of [meta_page 0].

(** An index that is not a B-tree. *)
Definition hash_index : Relation := mkRelation 405 true.

Definition uneven_rows : list AnalyzeRow :=
  Eval vm_compute in map analyze_row uneven_candidates.



(** Four sparse leaves: each of the three pairs of neighbours is a feasible
    candidate. *)
Definition four_leaf_index : State :=
  index_of [meta_page 5;
            leaf_page 0 2 [data_item 100; data_item 1; data_item 2];
            leaf_page 1 3 [data_item 200; data_item 3];
            leaf_page 2 4 [data_item 300; data_item 5];
            leaf_page 3 0 [data_item 7; data_item 8];
            root_page [1; 2; 3; 4]].

(** [four_leaf_index] after a call of the execute entry point. *)
Definition executed_four_leaf_index : State :=
  Eval vm_compute in
    final_state (pg_index_reclaim_execute 10 btree 50 true four_leaf_index) four_leaf_index.

(** * Proofs *)

(** ** Arithmetic of the page macros *)

Lemma MAXALIGN_eq (len : Z) : MAXALIGN len = 8 * ((len + 7) / 8).
Proof.
  unfold MAXALIGN.
  change (Z.lnot 7) with (Z.lnot (Z.ones 3)).
  rewrite <- Z.ldiff_land, Z.ldiff_ones_r by lia.
  rewrite Z.shiftl_mul_pow2, Z.shiftr_div_pow2 by lia.
  change (2 ^ 3) with 8. lia.
Qed.

Lemma MAXALIGN_bounds (len : Z) : len <= MAXALIGN len < len + 8.
Proof.
  rewrite MAXALIGN_eq.
  pose proof (Z.div_mod (len + 7) 8 ltac:(lia)).
  pose proof (Z.mod_pos_bound (len + 7) 8 ltac:(lia)).
  lia.
Qed.

Lemma PageGetMaxOffsetNumber_length (page : Page) :
  PageGetMaxOffsetNumber page = Z.of_nat (length (pd_linp page)).
Proof.
  unfold PageGetMaxOffsetNumber, pd_lower, SizeOfPageHeaderData, sizeof_ItemIdData.
  destruct (Z.leb_spec (24 + 4 * Z.of_nat (length (pd_linp page))) 24); [lia|].
  replace (24 + 4 * Z.of_nat (length (pd_linp page)) - 24)
    with (Z.of_nat (length (pd_linp page)) * 4) by lia.
  apply Z.div_mul. lia.
Qed.

Lemma map_nth_seq_drop {A} (d : A) (l : list A) (n : nat) :
  map (fun i => nth (n + i) l d) (seq 0 (length l - n)) = drop n l.
Proof.
  revert n. induction l as [|x l IH]; intros n.
  - destruct n; reflexivity.
  - destruct n as [|n].
    + cbn [length drop Nat.sub seq map Nat.add nth]. f_equal.
      rewrite <- seq_shift, map_map.
      specialize (IH 0%nat). rewrite Nat.sub_0_r in IH. exact IH.
    + cbn [length drop Nat.sub]. rewrite <- (IH n).
      apply map_ext. intros i. reflexivity.
Qed.

(** The [for] loop over [first..maxoff] reads the line pointers after the
    first [first - 1], in order. *)
Lemma items_at_offsets (page : Page) (first : OffsetNumber) :
  1 <= first ->
  map (PageGetItemId page) (offsets_from_to first (PageGetMaxOffsetNumber page))
  = drop (Z.to_nat (first - 1)) (pd_linp page).
Proof.
  intros Hfirst. rewrite PageGetMaxOffsetNumber_length.
  unfold offsets_from_to, PageGetItemId. rewrite map_map.
  rewrite <- (map_nth_seq_drop unused_ItemId).
  replace (Z.to_nat (Z.of_nat (length (pd_linp page)) - first + 1))
    with (length (pd_linp page) - Z.to_nat (first - 1))%nat by lia.
  apply map_ext. intros i. f_equal. lia.
Qed.

(** ** Running statements

    One equation per statement form: what [bind m k] does in a state. *)

Lemma unhold_hold (buf : Buffer) (mode : Z) (s : State) :
  unhold buf (hold buf mode s) = s.
Proof.
  destruct s as [pages held rl d w]. unfold unhold, hold.
  cbn [st_pages st_held st_rel_locks st_dirty st_wal release].
  rewrite Z.eqb_refl. reflexivity.
Qed.

Lemma page_at_hold buf mode s b : page_at (hold buf mode s) b = page_at s b.
Proof. reflexivity. Qed.

Lemma readable_hold buf mode s b : readable (hold buf mode s) b = readable s b.
Proof. reflexivity. Qed.

Lemma st_held_hold buf mode s : st_held (hold buf mode s) = (buf, mode) :: st_held s.
Proof. reflexivity. Qed.

Section Run.
Context {R A B : Type}.
Implicit Types (k : A -> Stmt R B) (s : State).

Lemma run_bind_bind {C} (m : Stmt R C) (f : C -> Stmt R A) k s :
  bind (bind m f) k s = bind m (fun x => bind (f x) k) s.
Proof. unfold bind. destruct (m s); reflexivity. Qed.

Lemma run_ret (a : A) k s : bind (ret a) k s = k a s.
Proof. reflexivity. Qed.

Lemma run_return (r : R) k s : bind (return_ r) k s = Return r s.
Proof. reflexivity. Qed.

Lemma run_ereport (e : errcode) k s : bind (ereport e) k s = Raise e s.
Proof. reflexivity. Qed.

Lemma run_read (blkno : BlockNumber) (k : Buffer -> Stmt R B) s :
  bind (ReadBufferExtended blkno) k s
  = if readable s blkno then k blkno s else Raise ERRCODE_DATA_CORRUPTED s.
Proof.
  unfold bind, ReadBufferExtended, readable. destruct (_ && _); reflexivity.
Qed.

Lemma run_lock (buf : Buffer) (mode : Z) (k : unit -> Stmt R B) s :
  bind (LockBuffer buf mode) k s
  = if lock_conflict mode buf (st_held s) then Blocked s else k tt (hold buf mode s).
Proof. unfold bind, LockBuffer. destruct (lock_conflict _ _ _); reflexivity. Qed.

Lemma run_unlock (buf : Buffer) (k : unit -> Stmt R B) s :
  bind (UnlockReleaseBuffer buf) k s = k tt (unhold buf s).
Proof. reflexivity. Qed.

Lemma run_unlock_valid (buf : option Buffer) (k : unit -> Stmt R B) s :
  bind (UnlockReleaseIfValid buf) k s = k tt (unhold_valid buf s).
Proof. destruct buf; reflexivity. Qed.

Lemma run_getpage (buf : Buffer) (k : Page -> Stmt R B) s :
  bind (BufferGetPage buf) k s = k (page_at s buf) s.
Proof. reflexivity. Qed.

Lemma run_modify (buf : Buffer) (f : Page -> Page) (k : unit -> Stmt R B) s :
  bind (modify_page buf f) k s = k tt (store buf f s).
Proof. reflexivity. Qed.

Lemma run_when (c : bool) (body : Stmt R unit) (k : unit -> Stmt R B) s :
  bind (when c body) k s = if c then bind body k s else k tt s.
Proof. destruct c; reflexivity. Qed.

Lemma run_if {C} (c : bool) (m1 m2 : Stmt R C) (k' : C -> Stmt R B) s :
  bind (if c then m1 else m2) k' s = if c then bind m1 k' s else bind m2 k' s.
Proof. destruct c; reflexivity. Qed.

End Run.

Lemma run_dump {R B} (blkno : BlockNumber) (k : unit -> Stmt R B) (s : State) :
  bind (call (dump_page blkno)) k s
  = if readable s blkno
    then if lock_conflict BT_READ blkno (st_held s) then Blocked s else k tt s
    else Raise ERRCODE_DATA_CORRUPTED s.
Proof.
  unfold bind at 1, call, dump_page. rewrite run_read.
  destruct (readable s blkno); [|reflexivity].
  rewrite run_lock. destruct (lock_conflict _ _ _); [reflexivity|].
  rewrite run_getpage, run_when.
  destruct (PageIsNew _).
  - rewrite run_bind_bind, run_unlock.
    unfold bind, return_. rewrite unhold_hold. reflexivity.
  - rewrite run_unlock. unfold return_. rewrite unhold_hold. reflexivity.
Qed.

(** Runs the statement at the head of the goal as far as the equations go,
    leaving the conditions it meets as [if]s. *)
Ltac run_step :=
  first [ rewrite run_bind_bind | rewrite run_ret | rewrite run_return | rewrite run_ereport
        | rewrite run_read | rewrite run_lock | rewrite run_unlock | rewrite run_unlock_valid
        | rewrite run_getpage | rewrite run_when | rewrite run_if | rewrite run_dump ].

Ltac run :=
  repeat (cbv beta zeta; run_step);
  cbv beta zeta;
  rewrite ?page_at_hold, ?readable_hold, ?st_held_hold.

(** ** The checks of execute_merge before its critical section *)

Lemma add_used_sizes_acc page first maxoff acc :
  add_used_sizes page first maxoff acc = acc + add_used_sizes page first maxoff 0.
Proof.
  unfold add_used_sizes. generalize (offsets_from_to first maxoff) as l. intros l.
  revert acc. induction l as [|x l IH]; intros acc; cbn [fold_left].
  - lia.
  - rewrite IH. symmetry. rewrite IH.
    destruct (negb _); lia.
Qed.

Lemma P_FIRSTDATAKEY_pos page : 1 <= P_FIRSTDATAKEY page <= 2.
Proof. unfold P_FIRSTDATAKEY, P_HIKEY, P_FIRSTKEY. destruct (P_RIGHTMOST page); lia. Qed.

Lemma used_offsets_items page :
  map (PageGetItemId page)
      (used_offsets page (P_FIRSTDATAKEY page) (PageGetMaxOffsetNumber page))
  = live_data_items page.
Proof.
  unfold used_offsets, live_data_items.
  rewrite <- items_at_offsets by apply P_FIRSTDATAKEY_pos.
  generalize (offsets_from_to (P_FIRSTDATAKEY page) (PageGetMaxOffsetNumber page)) as l.
  intros l. induction l as [|x l IH]; [reflexivity|].
  cbn [List.filter map]. rewrite <- IH. destruct (ItemIdIsUsed _); reflexivity.
Qed.

(** The critical section plays no part on the abort paths. *)
Ltac forget_critical_section :=
  repeat match goal with
         | |- context [bind (for_each ?l ?body) ?k ?st] =>
             generalize (bind (for_each l body) k st); intro
         end.

Ltac split_if :=
  match goal with
  | |- context [if ?c then _ else _] => destruct c eqn:?
  end.

Ltac split_ifs_with tac :=
  repeat (split_if; try reflexivity); try solve [tac].

Lemma lock_conflict_cons mode buf b m held :
  lock_conflict mode buf ((b, m) :: held)
  = (b =? buf) && ((m =? BT_WRITE) || (mode =? BT_WRITE)) || lock_conflict mode buf held.
Proof. reflexivity. Qed.

Lemma lock_conflict_nil mode buf : lock_conflict mode buf [] = false.
Proof. reflexivity. Qed.

(** Puts the lock conflicts met by a call that starts without a lock into
    the form of equalities between block numbers. *)
Ltac simpl_conflicts Hheld :=
  rewrite ?Hheld, ?lock_conflict_cons, ?lock_conflict_nil;
  change (BT_WRITE =? BT_WRITE) with true;
  change (BT_READ =? BT_WRITE) with false;
  cbn [orb andb];
  rewrite ?andb_true_r, ?orb_false_r.

(** Closes a path the cause of the abort rules out: the facts met on the
    path are put as propositions and confronted with the premises. *)
Ltac path_absurd :=
  exfalso;
  repeat match goal with
         | E : _ || _ = true |- _ => apply orb_prop in E; destruct E as [E|E]
         | E : (_ =? _) = true |- _ => apply Z.eqb_eq in E
         | E : (_ =? _) = false |- _ => apply Z.eqb_neq in E
         | E : (_ <? _) = false |- _ => apply Z.ltb_ge in E
         | E : negb _ = true |- _ => apply negb_true_iff in E
         | E : negb _ = false |- _ => apply negb_false_iff in E
         end;
  repeat match goal with
         | Hn : ?P -> _, E : ?P |- _ => specialize (Hn E)
         | Hn : _ /\ _ |- _ => destruct Hn
         end;
  first [congruence | lia].

(** Every abort cause ends a call that starts without a buffer lock with
    [false], in the state it started from. *)
Lemma execute_merge_abort rel s l r :
  st_held s = [] ->
  readable s l = true -> readable s r = true ->
  abort_cause s l r ->
  execute_merge rel l r s = Return false s.
Proof.
  intros Hheld Hl Hr H. unfold execute_merge. run.
  forget_critical_section.
  cbn [unhold_valid]. rewrite !unhold_hold. rewrite Hl, Hr.
  simpl_conflicts Hheld.
  rewrite (add_used_sizes_acc (page_at s r)).
  change (add_used_sizes (page_at s l) _ _ 0) with (live_data_size (page_at s l)).
  change (add_used_sizes (page_at s r) _ _ 0) with (live_data_size (page_at s r)).
  destruct H as [H|H|Hne H|Hne Hrn Hrm H|Hne Hrn Hln Hlp H|Hne Hrn Hln H|Hne Hrn Hln H].
  - unfold unfit in H.
    split_ifs_with ltac:(cbn [orb] in H; discriminate H).
  - unfold unfit in H.
    repeat (split_if; try reflexivity); try (cbn [orb] in H; discriminate H).
    match goal with E : (l =? r) = true |- _ => apply Z.eqb_eq in E; subst r end.
    repeat match goal with
           | E : ?c = false |- _ =>
               lazymatch type of H with context [c] => rewrite E in H end
           end.
    discriminate H.
  - apply Z.eqb_neq in Hne, H. rewrite Hne, H. cbn [negb].
    split_ifs_with fail.
  - destruct (Hrn Hrm) as (Hrr & Hrl & Hrs).
    apply Z.eqb_neq in Hne, H. apply not_eq_sym in Hrl, Hrs. apply Z.eqb_neq in Hrl, Hrs.
    rewrite Hne, Hrm, Hrr, Hrl, Hrs, H. cbn [negb orb].
    split_ifs_with fail.
  - unfold right_neighbour_lockable in Hrn. unfold left_neighbour_lockable in Hln.
    repeat (split_if; try reflexivity); path_absurd.
  - unfold right_neighbour_lockable in Hrn. unfold left_neighbour_lockable in Hln.
    repeat (split_if; try reflexivity); path_absurd.
  - assert (Hnone : used_offsets (page_at s l) (P_FIRSTDATAKEY (page_at s l))
                      (PageGetMaxOffsetNumber (page_at s l)) = []).
    { apply (map_eq_nil (PageGetItemId (page_at s l))).
      rewrite used_offsets_items. exact H. }
    rewrite Hnone. cbn [length Z.of_nat Z.eqb].
    unfold right_neighbour_lockable in Hrn. unfold left_neighbour_lockable in Hln.
    repeat (split_if; try reflexivity); path_absurd.
Qed.

(** ** Claims about the abort paths *)

(** X8: asked to merge a page that passes the checks of a left page into
    itself, by a caller that holds no buffer lock, the call waits for the
    lock it took on the page as the left one and does not come back. *)
Lemma execute_merge_same_page rel s b :
  st_held s = [] ->
  readable s b = true ->
  unfit (page_at s b) = false ->
  execute_merge rel b b s = Blocked (hold b BT_WRITE s).
Proof.
  intros Hheld Hb H. unfold execute_merge. run.
  forget_critical_section.
  rewrite Hb. simpl_conflicts Hheld. rewrite Z.eqb_refl.
  unfold unfit in H.
  apply orb_false_elim in H as [H H4]. apply orb_false_elim in H as [H H3].
  apply orb_false_elim in H as [H1 H2].
  rewrite H1, H2, H3, H4. reflexivity.
Qed.


(** C8: before the critical section the executor adds up the aligned sizes of
    the used data items of both pages as they are now and compares the sum
    with the free space of the right page as it is now; when the sum is
    larger it returns [false] and leaves the state as it was. *)
Theorem execute_merge_capacity_recheck rel s left_block right_block :
  st_held s = [] ->
  readable s left_block = true ->
  readable s right_block = true ->
  left_block <> right_block ->
  right_neighbour_lockable s left_block right_block ->
  left_neighbour_lockable s left_block right_block ->
  PageGetFreeSpace (page_at s right_block)
    < live_data_size (page_at s left_block) + live_data_size (page_at s right_block) ->
  execute_merge rel left_block right_block s = Return false s.
Proof.
  intros Hheld Hl Hr Hne Hrn Hln H. apply execute_merge_abort; [assumption..|].
  apply no_room; assumption.
Qed.

(** C10: a left page without a used data item (no slot after the high key, or
    only unused ones) is never merged: [execute_merge] returns [false] and
    leaves the state as it was, pages and locks. *)
Theorem execute_merge_empty_left rel s left_block right_block :
  st_held s = [] ->
  readable s left_block = true ->
  readable s right_block = true ->
  left_block <> right_block ->
  right_neighbour_lockable s left_block right_block ->
  left_neighbour_lockable s left_block right_block ->
  live_data_items (page_at s left_block) = [] ->
  execute_merge rel left_block right_block s = Return false s.
Proof.
  intros Hheld Hl Hr Hne Hrn Hln H. apply execute_merge_abort; [assumption..|].
  apply nothing_to_move; assumption.
Qed.

(** ** The items moved by a successful merge *)

Lemma PageAddItem_append page item size :
  PageHasFreeLinePointers page = false ->
  pd_lower page + sizeof_ItemIdData <= pd_upper page - MAXALIGN size ->
  fst (PageAddItem page item size InvalidOffsetNumber)
  = set_linp page (pd_linp page ++ [mkItemId LP_NORMAL size item])
             (pd_upper page - MAXALIGN size).
Proof.
  intros Hfree Hfit. unfold PageAddItem.
  rewrite Z.eqb_refl. cbn [negb]. rewrite Hfree.
  rewrite (proj2 (Z.ltb_ge _ _)) by lia.
  rewrite Z.eqb_refl. cbn [orb].
  rewrite (proj2 (Z.ltb_ge _ _)) by lia.
  cbn [fst]. f_equal.
  rewrite PageGetMaxOffsetNumber_length.
  replace (Z.to_nat (Z.of_nat (length (pd_linp page)) + 1 - 1)) with (length (pd_linp page)) by lia.
  rewrite firstn_all, skipn_all. reflexivity.
Qed.

Lemma readable_bounds s buf :
  readable s buf = true -> (Z.to_nat buf < length (st_pages s))%nat /\ 0 <= buf.
Proof.
  unfold readable. intros H.
  apply andb_prop in H as [H1 H2]. apply Z.leb_le in H1. apply Z.ltb_lt in H2. lia.
Qed.

Lemma page_at_store_eq s buf f :
  readable s buf = true -> page_at (store buf f s) buf = f (page_at s buf).
Proof.
  intros H. apply readable_bounds in H as [H _].
  unfold page_at, store. cbn [st_pages].
  rewrite !nth_lookup, list_lookup_alter_eq.
  destruct (lookup_lt_is_Some_2 _ _ H) as [p ->]. reflexivity.
Qed.

Lemma page_at_store_ne s buf f b :
  Z.to_nat buf <> Z.to_nat b -> page_at (store buf f s) b = page_at s b.
Proof.
  intros H. unfold page_at, store. cbn [st_pages].
  rewrite !nth_lookup, list_lookup_alter_ne by exact H. reflexivity.
Qed.

Lemma readable_store s buf f b : readable (store buf f s) b = readable s b.
Proof. unfold readable, store. cbn [st_pages]. rewrite length_alter. reflexivity. Qed.

Lemma pd_linp_store_same s buf f b :
  (forall page, pd_linp (f page) = pd_linp page) ->
  pd_linp (page_at (store buf f s) b) = pd_linp (page_at s b).
Proof.
  intros Hf. unfold page_at, store. cbn [st_pages].
  rewrite !nth_lookup.
  destruct (decide (Z.to_nat buf = Z.to_nat b)) as [E|E].
  - rewrite E, list_lookup_alter_eq.
    destruct (st_pages s !! Z.to_nat b); cbn; [apply Hf | reflexivity].
  - rewrite list_lookup_alter_ne by exact E. reflexivity.
Qed.

(** The loop of lines 826-858 when every item fits: the copies are appended
    to the right page in order. *)
Lemma add_items_run (l r : Buffer) (offs : list OffsetNumber) (s : State) :
  l <> r -> readable s l = true -> readable s r = true ->
  PageHasFreeLinePointers (page_at s r) = false ->
  all_fit (pd_upper (page_at s r) - pd_lower (page_at s r))
          (map (PageGetItemId (page_at s l)) offs) = true ->
  exists s1,
    for_each (R := bool) offs
      (fun offnum =>
         left_page <- BufferGetPage l ;;
         modify_page r
           (fun right_page =>
              fst (PageAddItem right_page (lp_item (PageGetItemId left_page offnum))
                     (ItemIdGetLength (PageGetItemId left_page offnum))
                     InvalidOffsetNumber))) s
    = Next tt s1
    /\ pd_linp (page_at s1 r)
       = pd_linp (page_at s r) ++ map normal_copy (map (PageGetItemId (page_at s l)) offs).
Proof.
  intros Hne. revert s. induction offs as [|off offs IH]; intros s Hl Hr Hfree Hfit.
  - exists s. split; [reflexivity|]. cbn [map]. rewrite app_nil_r. reflexivity.
  - cbn [map all_fit] in Hfit. apply andb_prop in Hfit as [Hfit1 Hfit].
    apply Z.leb_le in Hfit1. unfold footprint in Hfit1, Hfit.
    cbn [for_each]. rewrite run_bind_bind, run_getpage, run_modify.
    set (itemid := PageGetItemId (page_at s l) off) in *.
    set (s1 := store r _ s).
    assert (Hnat : Z.to_nat r <> Z.to_nat l).
    { apply readable_bounds in Hl, Hr. lia. }
    assert (Hadd : page_at s1 r
                   = set_linp (page_at s r)
                       (pd_linp (page_at s r) ++ [normal_copy itemid])
                       (pd_upper (page_at s r) - MAXALIGN (ItemIdGetLength itemid))).
    { unfold s1. rewrite page_at_store_eq by exact Hr.
      apply PageAddItem_append; [exact Hfree|]. lia. }
    assert (Hleft : page_at s1 l = page_at s l).
    { unfold s1. apply page_at_store_ne. exact Hnat. }
    destruct (IH s1) as (s2 & Hrun & Hlinp).
    + unfold s1. rewrite readable_store. exact Hl.
    + unfold s1. rewrite readable_store. exact Hr.
    + rewrite Hadd. exact Hfree.
    + rewrite Hleft, Hadd. unfold pd_lower, set_linp. cbn [pd_linp pd_upper].
      rewrite length_app. cbn [length].
      unfold pd_lower in Hfit.
      replace (pd_upper (page_at s r) - MAXALIGN (ItemIdGetLength itemid) -
               (SizeOfPageHeaderData +
                sizeof_ItemIdData * Z.of_nat (length (pd_linp (page_at s r)) + 1)))
        with (pd_upper (page_at s r) -
              (SizeOfPageHeaderData + sizeof_ItemIdData * Z.of_nat (length (pd_linp (page_at s r)))) -
              (MAXALIGN (ItemIdGetLength itemid) + sizeof_ItemIdData))
        by (unfold sizeof_ItemIdData; lia).
      exact Hfit.
    + exists s2. split; [exact Hrun|].
      rewrite Hlinp, Hleft, Hadd. unfold set_linp. cbn [pd_linp map].
      rewrite <- app_assoc. reflexivity.
Qed.

Section KeepsLinp.
Context {R : Type} (b : Buffer).

Lemma keeps_bind {A B} (m : Stmt R A) (k : A -> Stmt R B) :
  keeps_linp b m -> (forall a, keeps_linp b (k a)) -> keeps_linp b (bind m k).
Proof.
  intros Hm Hk s. unfold bind. specialize (Hm s).
  destruct (m s) as [a s1|r s1|e s1|s1|]; try exact Hm; try exact I.
  specialize (Hk a s1). destruct (k a s1); try exact I; congruence.
Qed.

Lemma keeps_ret {A} (a : A) : keeps_linp (R := R) b (ret a).
Proof. intros s. reflexivity. Qed.

Lemma keeps_return {A} (r : R) : keeps_linp (A := A) b (return_ r).
Proof. intros s. reflexivity. Qed.

Lemma keeps_when (c : bool) (body : Stmt R unit) :
  keeps_linp b body -> keeps_linp b (when c body).
Proof. intros H. destruct c; [exact H | apply keeps_ret]. Qed.

Lemma keeps_read blkno : keeps_linp (R := R) b (ReadBufferExtended blkno).
Proof. intros s. unfold ReadBufferExtended. destruct (_ && _); [reflexivity | exact I]. Qed.

Lemma keeps_lock buf mode : keeps_linp (R := R) b (LockBuffer buf mode).
Proof. intros s. unfold LockBuffer. destruct (lock_conflict _ _ _); [exact I | reflexivity]. Qed.

Lemma keeps_unlock buf : keeps_linp (R := R) b (UnlockReleaseBuffer buf).
Proof. intros s. reflexivity. Qed.

Lemma keeps_unlock_valid buf : keeps_linp (R := R) b (UnlockReleaseIfValid buf).
Proof. destruct buf; [apply keeps_unlock | apply keeps_ret]. Qed.

Lemma keeps_getpage buf : keeps_linp (R := R) b (BufferGetPage buf).
Proof. intros s. reflexivity. Qed.

Lemma keeps_dirty buf : keeps_linp (R := R) b (MarkBufferDirty buf).
Proof. intros s. reflexivity. Qed.

Lemma keeps_log buf : keeps_linp (R := R) b (log_newpage_buffer buf).
Proof. intros s. reflexivity. Qed.

Lemma keeps_modify_other buf f :
  Z.to_nat buf <> Z.to_nat b -> keeps_linp (R := R) b (modify_page buf f).
Proof. intros H s. cbn. apply (f_equal pd_linp). apply (page_at_store_ne s buf f b H). Qed.

Lemma keeps_modify_same buf f :
  (forall page, pd_linp (f page) = pd_linp page) ->
  keeps_linp (R := R) b (modify_page buf f).
Proof. intros H s. cbn. apply (pd_linp_store_same s buf f b H). Qed.

Lemma keeps_call {R'} (f : Stmt R' R') : keeps_linp b f -> keeps_linp (R := R) b (call f).
Proof. intros H s. unfold call. specialize (H s). destruct (f s); exact H. Qed.

End KeepsLinp.

Lemma keeps_dump_page b blkno : keeps_linp b (dump_page blkno).
Proof.
  unfold dump_page.
  repeat first [ apply keeps_bind; [|intros ?] | apply keeps_when | apply keeps_read
               | apply keeps_lock | apply keeps_unlock | apply keeps_getpage
               | apply keeps_return ].
Qed.

(** The same in a hypothesis. *)
Ltac run_step_in H :=
  first [ rewrite run_bind_bind in H | rewrite run_ret in H | rewrite run_return in H
        | rewrite run_ereport in H
        | rewrite run_read in H | rewrite run_lock in H | rewrite run_unlock in H
        | rewrite run_unlock_valid in H
        | rewrite run_getpage in H
        | rewrite run_when in H | rewrite run_if in H | rewrite run_dump in H ].

Ltac run_in H :=
  repeat (cbv beta zeta in H; run_step_in H);
  cbv beta zeta in H;
  rewrite ?page_at_hold, ?readable_hold, ?st_held_hold in H.

Ltac split_if_in H :=
  match type of H with
  | context [if ?c then _ else _] => destruct c eqn:?
  end.

Lemma bind_Next {R A B} (m : Stmt R A) (k : A -> Stmt R B) s a s1 :
  m s = Next a s1 -> bind m k s = k a s1.
Proof. intros H. unfold bind. rewrite H. reflexivity. Qed.

(** A write lock is granted only on a buffer that is not held. *)
Lemma write_lock_excludes buf b m held :
  lock_conflict BT_WRITE buf ((b, m) :: held) = false -> b <> buf.
Proof.
  rewrite lock_conflict_cons. intros H ->. rewrite Z.eqb_refl in H.
  change (BT_WRITE =? BT_WRITE) with true in H. rewrite orb_true_r in H.
  discriminate H.
Qed.

(** C1 (as the code has it): after a successful merge into a right page that
    carries no free-line-pointer hint, when every copy found room on the
    right page, the line pointers of the right page are its original ones, in
    their order, followed by copies of the used data items of the left page
    (the items after its high key), in their order. *)
Theorem execute_merge_appends_left_items rel s l r s' :
  PageHasFreeLinePointers (page_at s r) = false ->
  all_fit (pd_upper (page_at s r) - pd_lower (page_at s r))
          (live_data_items (page_at s l)) = true ->
  execute_merge rel l r s = Return true s' ->
  pd_linp (page_at s' r)
  = pd_linp (page_at s r) ++ map normal_copy (live_data_items (page_at s l)).
Proof.
  intros Hfree Hfit H.
  unfold execute_merge in H. run_in H.
  repeat (split_if_in H; try discriminate H).
  all: assert (Hne : l <> r)
         by (match goal with
             | E : lock_conflict _ _ ((_, _) :: _) = false |- _ =>
                 exact (write_lock_excludes _ _ _ _ E)
             end).
  all: match type of H with
       | bind (for_each ?offs ?body) ?k ?st = _ =>
           destruct (add_items_run l r offs st Hne) as (s1 & Hrun & Hlinp);
           rewrite ?readable_hold, ?page_at_hold; try assumption;
           [ rewrite used_offsets_items; exact Hfit
           | rewrite (bind_Next _ _ _ _ _ Hrun) in H ]
       end.
  all: assert (Hnat : Z.to_nat l <> Z.to_nat r)
         by (repeat match goal with
                    | E : readable _ _ = true |- _ => apply readable_bounds in E
                    end; lia).
  all: match type of H with
       | ?m ?st = _ =>
           assert (Hk : keeps_linp r m)
             by (repeat first
                   [ apply keeps_bind; [|intros ?] | apply keeps_when | apply keeps_ret
                   | apply keeps_return | apply keeps_read | apply keeps_lock
                   | apply keeps_unlock | apply keeps_unlock_valid | apply keeps_getpage
                   | apply keeps_dirty | apply keeps_log
                   | apply keeps_call; apply keeps_dump_page
                   | apply keeps_modify_same; intros ?; reflexivity
                   | apply keeps_modify_other; assumption
                   | match goal with
                     | |- keeps_linp _ (if ?c then _ else _) => destruct c
                     end ]);
           specialize (Hk st); rewrite H in Hk;
           rewrite Hk
       end.
  all: match goal with
       | E : pd_linp _ = _ ++ _ |- _ =>
           rewrite E, ?page_at_hold, used_offsets_items; reflexivity
       end.
Qed.

(** ** Doubles of small integers *)

Lemma digits2_pos_bounds (m : positive) :
  2 ^ (Z.pos (digits2_pos m) - 1) <= Z.pos m < 2 ^ Z.pos (digits2_pos m).
Proof.
  induction m as [m IH|m IH|]; cbn [digits2_pos].
  - rewrite Pos2Z.inj_succ.
    replace (Z.succ (Z.pos (digits2_pos m)) - 1) with (Z.succ (Z.pos (digits2_pos m) - 1)) by lia.
    rewrite !Z.pow_succ_r by lia.
    generalize dependent (2 ^ (Z.pos (digits2_pos m) - 1)).
    generalize dependent (2 ^ Z.pos (digits2_pos m)). intros; lia.
  - rewrite Pos2Z.inj_succ.
    replace (Z.succ (Z.pos (digits2_pos m)) - 1) with (Z.succ (Z.pos (digits2_pos m) - 1)) by lia.
    rewrite !Z.pow_succ_r by lia.
    generalize dependent (2 ^ (Z.pos (digits2_pos m) - 1)).
    generalize dependent (2 ^ Z.pos (digits2_pos m)). intros; lia.
  - cbn. lia.
Qed.

Lemma double_within_finite (exact : bool) (lo : Z) (m : positive) (e : Z) :
  double_within exact lo (S754_finite false m e) = true ->
  4503599627370496 <= Z.pos m < 9007199254740992 /\ e <= 0 /\
  lo * 2 ^ (- e) <= Z.pos m /\
  (if exact then Z.pos m = lo * 2 ^ (- e) else Z.pos m < (lo + 1) * 2 ^ (- e)).
Proof.
  cbn [double_within]. intros H.
  apply andb_prop in H as [H H4]. apply andb_prop in H as [H H3].
  apply andb_prop in H as [H1 H2].
  apply Z.eqb_eq in H1. apply Z.leb_le in H2, H3.
  pose proof (digits2_pos_bounds m) as B. rewrite H1 in B.
  change (2 ^ (53 - 1)) with 4503599627370496 in B.
  change (2 ^ 53) with 9007199254740992 in B.
  repeat split; try lia.
  destruct exact; [apply Z.eqb_eq | apply Z.ltb_lt]; exact H4.
Qed.

Lemma pow2_split (d1 d2 : Z) :
  0 <= d2 < d1 -> exists q, 2 <= q /\ 2 ^ d1 = 2 ^ d2 * q.
Proof.
  intros H. exists (2 ^ (d1 - d2)). split.
  - change 2 with (2 ^ 1) at 1. apply Z.pow_le_mono_r; lia.
  - rewrite <- Z.pow_add_r by lia. f_equal. lia.
Qed.

(** Comparing the double of an integer [c] with a double between [k] and
    [k + 1] is comparing [c] with [k]. *)
Lemma double_le_within (c k : Z) (f t : double) :
  0 <= c -> 0 <= k ->
  double_within true c f = true ->
  double_within false k t = true ->
  double_le f t = (c <=? k).
Proof.
  intros Hc Hk Hf Ht. unfold double_le, SFleb, SFcompare.
  destruct f as [[|]| | |[|] m1 e1]; try discriminate Hf;
  destruct t as [[|]| | |[|] m2 e2]; try discriminate Ht.
  - cbn [double_within] in Hf, Ht. apply Z.eqb_eq in Hf, Ht. subst. reflexivity.
  - cbn [double_within] in Hf. apply Z.eqb_eq in Hf. subst.
    symmetry. apply Z.leb_le. exact Hk.
  - cbn [double_within] in Ht. apply Z.eqb_eq in Ht. subst k.
    apply double_within_finite in Hf as (B1 & He1 & _ & V1).
    symmetry. apply Z.leb_gt.
    assert (0 < 2 ^ (- e1)) by (apply Z.pow_pos_nonneg; lia). nia.
  - apply double_within_finite in Hf as (B1 & He1 & _ & V1).
    apply double_within_finite in Ht as (B2 & He2 & L2 & U2).
    assert (Hp1 : 0 < 2 ^ (- e1)) by (apply Z.pow_pos_nonneg; lia).
    assert (Hp2 : 0 < 2 ^ (- e2)) by (apply Z.pow_pos_nonneg; lia).
    destruct (Z.compare_spec e1 e2) as [E|E|E].
    + subst e2.
      change (Pos.compare_cont Eq m1 m2) with (Pos.compare m1 m2).
      rewrite Pos2Z.inj_compare.
      generalize dependent (2 ^ (- e1)). intros p V1 Hp1 L2 U2 _.
      destruct (Z.compare_spec (Z.pos m1) (Z.pos m2)) as [C|C|C]; symmetry.
      * apply Z.leb_le. apply Z.lt_succ_r. apply (Z.mul_lt_mono_pos_r p); lia.
      * apply Z.leb_le. apply Z.lt_succ_r. apply (Z.mul_lt_mono_pos_r p); lia.
      * apply Z.leb_gt. apply (Z.mul_lt_mono_pos_r p); lia.
    + symmetry. apply Z.leb_le.
      destruct (pow2_split (- e1) (- e2)) as (q & Hq & E2); [lia|].
      rewrite E2 in V1. generalize dependent (2 ^ (- e2)). intros p L2 U2 Hp2 V1 _.
      apply Z.lt_succ_r. apply (Z.mul_lt_mono_pos_r (p * q)); [nia|].
      assert ((k + 1) * p * 2 <= (k + 1) * p * q)
        by (apply Z.mul_le_mono_nonneg_l; lia).
      unfold Z.succ. lia.
    + symmetry. apply Z.leb_gt.
      destruct (pow2_split (- e2) (- e1)) as (q & Hq & E2); [lia|].
      rewrite E2 in L2, U2. generalize dependent (2 ^ (- e1)). intros p V1 Hp1 L2 U2 _.
      apply (Z.mul_lt_mono_pos_r p); [lia|].
      assert (k * p * 2 <= k * p * q)
        by (apply Z.mul_le_mono_nonneg_l; [nia | lia]).
      lia.
Qed.

Lemma holds_from_spec (P : Z -> bool) (count : nat) (start : Z) :
  holds_from P start count = true ->
  forall z, start <= z < start + Z.of_nat count -> P z = true.
Proof.
  revert start. induction count as [|count IH]; intros start H z Hz.
  - lia.
  - cbn [holds_from] in H. apply andb_prop in H as [H0 H].
    destruct (Z.eq_dec z start) as [->|Hne]; [exact H0|].
    apply (IH (start + 1) H). lia.
Qed.

Lemma double_of_small_Z (c : Z) :
  0 <= c <= 2 * total_space -> double_within true c (double_of_Z c) = true.
Proof.
  intros Hc.
  apply (holds_from_spec (fun c => double_within true c (double_of_Z c))
           (Z.to_nat 16305) 0).
  - vm_compute. reflexivity.
  - change total_space with 8152 in Hc. lia.
Qed.

Lemma nine_tenths_of_small_Z (a : Z) :
  0 <= a <= total_space ->
  double_within false (9 * a / 10) (double_mul (double_of_Z a) double_0_9) = true.
Proof.
  intros Ha.
  apply (holds_from_spec
           (fun a => double_within false (9 * a / 10) (double_mul (double_of_Z a) double_0_9))
           (Z.to_nat 8153) 0).
  - vm_compute. reflexivity.
  - change total_space with 8152 in Ha. lia.
Qed.

Lemma threshold_doubles (m : Z) :
  1 <= m <= 100 ->
  double_gt (double_of_Z m) (double_of_Z m) = false /\
  double_gt (double_of_Z (m + 1)) (double_of_Z m) = true.
Proof.
  intros Hm.
  pose proof (holds_from_spec
           (fun m => negb (double_gt (double_of_Z m) (double_of_Z m))
                     && double_gt (double_of_Z (m + 1)) (double_of_Z m))
           (Z.to_nat 100) 1 ltac:(vm_compute; reflexivity) m ltac:(lia)) as H.
  apply andb_prop in H as [H1 H2]. apply negb_true_iff in H1. split; assumption.
Qed.

(** ** The feasibility estimate *)

Lemma wrap_Size_small (z : Z) : 0 <= z < 2 ^ 64 -> wrap_Size z = z.
Proof. intros H. unfold wrap_Size. apply Z.mod_small. exact H. Qed.

Lemma average_item_size_bounds (page : PageAnalysis) :
  0 <= used_space page <= total_space ->
  0 <= average_item_size page <= total_space.
Proof.
  intros H. unfold average_item_size.
  destruct (Z.ltb_spec 0 (item_count page)) as [Hc|Hc]; [|lia].
  split.
  - apply Z.div_pos; lia.
  - apply Z.le_trans with (used_space page); [|lia].
    apply Z.div_le_upper_bound; [lia|]. nia.
Qed.

Lemma available_capacity_bounds (page : PageAnalysis) :
  0 <= used_space page <= total_space ->
  0 <= available_capacity page <= total_space.
Proof.
  intros H. pose proof (average_item_size_bounds page H) as Ha.
  unfold available_capacity. destruct (is_rightmost page); [lia|].
  rewrite MAXALIGN_eq. change total_space with 8152 in *.
  assert ((average_item_size page + 7) / 8 <= 1019).
  { apply Z.lt_succ_r. apply Z.div_lt_upper_bound; lia. }
  assert (0 <= (average_item_size page + 7) / 8) by (apply Z.div_pos; lia).
  lia.
Qed.

Lemma estimate_can_merge_spec (left_page right_page : PageAnalysis) :
  0 <= used_space left_page <= total_space ->
  0 <= used_space right_page <= total_space ->
  estimate_can_merge left_page right_page
  = (10 * (used_space left_page + used_space right_page)
       <=? 9 * available_capacity right_page).
Proof.
  intros Hl Hr.
  pose proof (available_capacity_bounds right_page Hr) as Ha.
  assert (Havail :
    (if negb (is_rightmost right_page)
     then wrap_Size (total_space - MAXALIGN (if 0 <? item_count right_page
                                             then used_space right_page / item_count right_page
                                             else 0))
     else total_space) = available_capacity right_page).
  { unfold available_capacity in *. fold (average_item_size right_page).
    destruct (is_rightmost right_page); cbn [negb]; [lia|].
    apply wrap_Size_small. change total_space with 8152 in *. lia. }
  unfold estimate_can_merge. cbv zeta. rewrite Havail.
  rewrite wrap_Size_small by (change total_space with 8152 in *; lia).
  rewrite (double_le_within (used_space left_page + used_space right_page)
             (9 * available_capacity right_page / 10)).
  - destruct (Z.leb_spec (used_space left_page + used_space right_page)
                         (9 * available_capacity right_page / 10)) as [H|H];
    symmetry; [apply Z.leb_le | apply Z.leb_gt].
    + pose proof (Z.mul_div_le (9 * available_capacity right_page) 10 ltac:(lia)). lia.
    + pose proof (Z.div_mod (9 * available_capacity right_page) 10 ltac:(lia)).
      pose proof (Z.mod_pos_bound (9 * available_capacity right_page) 10 ltac:(lia)).
      lia.
  - lia.
  - apply Z.div_pos; lia.
  - apply double_of_small_Z. lia.
  - apply nine_tenths_of_small_Z. exact Ha.
Qed.

Lemma call_Next_inv {R R'} (f : Stmt R R) (s : State) (r : R) (s' : State) :
  call (R' := R') f s = Next r s' -> f s = Return r s' \/ f s = Next r s'.
Proof. unfold call. destruct (f s); intros H; inversion H; subst; auto. Qed.

(** What [candidate_for] hands back: nothing, or the candidate of the page
    and the analysed page its right link names. *)
Lemma candidate_for_inv pages max_pct_to_merge left_stat s c s' :
  call (R' := unit) (candidate_for pages max_pct_to_merge left_stat) s = Next (Some c) s' ->
  exists right_stat,
    find_analysis pages (right_page c) = Some right_stat /\
    left_page c = blockno left_stat /\
    (double_gt (usage_pct left_stat) (double_of_Z max_pct_to_merge) &&
     double_gt (usage_pct right_stat) (double_of_Z max_pct_to_merge)) = false /\
    can_merge c = estimate_can_merge left_stat right_stat /\
    estimated_space c = wrap_Size (used_space left_stat + used_space right_stat).
Proof.
  intros H. apply call_Next_inv in H.
  unfold candidate_for in H. run_in H.
  destruct H as [H|H].
  - repeat (split_if_in H; try discriminate H).
    destruct (find_analysis pages _) as [right_stat|] eqn:Hfind; [|discriminate H].
    run_in H.
    repeat (split_if_in H; try discriminate H).
    injection H as H _. subst c. cbn.
    exists right_stat. repeat split; try assumption.
    pose proof Hfind as Hf. apply find_some in Hf as [_ Hf]. apply Z.eqb_eq in Hf.
    rewrite Hf. exact Hfind.
  - repeat (split_if_in H; try discriminate H).
    destruct (find_analysis pages _) as [right_stat|] eqn:Hfind; [|discriminate H].
    run_in H.
    repeat (split_if_in H; try discriminate H).
Qed.

(** C6 (as the code has it): for every candidate the selector emits, when the
    used bytes of both pages are within the page capacity, [can_merge] is
    true exactly when the combined used bytes are at most nine tenths of the
    available capacity, the page capacity less the average item size of the
    right page rounded up to the alignment boundary when the right page is
    not rightmost, and the whole capacity when it is. *)
Theorem candidate_can_merge pages max_pct_to_merge left_stat right_stat s c s' :
  call (R' := unit) (candidate_for pages max_pct_to_merge left_stat) s = Next (Some c) s' ->
  find_analysis pages (right_page c) = Some right_stat ->
  0 <= used_space left_stat <= total_space ->
  0 <= used_space right_stat <= total_space ->
  can_merge c = true <->
  10 * (used_space left_stat + used_space right_stat) <= 9 * available_capacity right_stat.
Proof.
  intros H Hfind Hl Hr.
  apply candidate_for_inv in H as (right_stat' & Hfind' & _ & _ & Hcan & _).
  rewrite Hfind in Hfind'. injection Hfind' as <-.
  rewrite Hcan, estimate_can_merge_spec by assumption.
  apply Z.leb_le.
Qed.

(** ** The usage filter *)

Lemma candidate_for_adjacent pages max_pct_to_merge left_page right_page s :
  st_held s = [] ->
  is_rightmost left_page = false ->
  readable s (blockno left_page) = true ->
  PageIsNew (page_at s (blockno left_page)) = false ->
  btpo_next (page_at s (blockno left_page)) = blockno right_page ->
  blockno right_page <> P_NONE ->
  find_analysis pages (blockno right_page) = Some right_page ->
  is_deleted left_page || is_halfdead left_page ||
    is_deleted right_page || is_halfdead right_page = false ->
  emits_candidate pages max_pct_to_merge left_page s
  = negb (double_gt (usage_pct left_page) (double_of_Z max_pct_to_merge) &&
          double_gt (usage_pct right_page) (double_of_Z max_pct_to_merge)).
Proof.
  intros Hheld Hrm Hrd Hnew Hnext Hnone Hfind Hflags.
  apply Z.eqb_neq in Hnone.
  unfold emits_candidate, call, candidate_for.
  rewrite Hrm. run. rewrite Hheld, lock_conflict_nil, Hrd, Hnew, unhold_hold, Hnext, Hnone, Hfind.
  run. rewrite Hflags.
  destruct (_ && _); reflexivity.
Qed.

(** C5: an adjacent, analysed pair of live pages is left out on usage grounds
    exactly when the usage of both pages is strictly above
    [max_pct_to_merge]; so a pair with both pages at [max_pct_to_merge] is
    emitted, and a pair with both pages one unit above it is not. *)
Theorem usage_threshold pages max_pct_to_merge left_page right_page s :
  1 <= max_pct_to_merge <= 100 ->
  st_held s = [] ->
  is_rightmost left_page = false ->
  readable s (blockno left_page) = true ->
  PageIsNew (page_at s (blockno left_page)) = false ->
  btpo_next (page_at s (blockno left_page)) = blockno right_page ->
  blockno right_page <> P_NONE ->
  find_analysis pages (blockno right_page) = Some right_page ->
  is_deleted left_page || is_halfdead left_page ||
    is_deleted right_page || is_halfdead right_page = false ->
  emits_candidate pages max_pct_to_merge left_page s
  = negb (double_gt (usage_pct left_page) (double_of_Z max_pct_to_merge) &&
          double_gt (usage_pct right_page) (double_of_Z max_pct_to_merge))
  /\ (usage_pct left_page = double_of_Z max_pct_to_merge ->
      usage_pct right_page = double_of_Z max_pct_to_merge ->
      emits_candidate pages max_pct_to_merge left_page s = true)
  /\ (usage_pct left_page = double_of_Z (max_pct_to_merge + 1) ->
      usage_pct right_page = double_of_Z (max_pct_to_merge + 1) ->
      emits_candidate pages max_pct_to_merge left_page s = false).
Proof.
  intros Hm Hheld Hrm Hrd Hnew Hnext Hnone Hfind Hflags.
  pose proof (candidate_for_adjacent pages max_pct_to_merge left_page right_page s
                Hheld Hrm Hrd Hnew Hnext Hnone Hfind Hflags) as E.
  destruct (threshold_doubles max_pct_to_merge Hm) as [Heq Hgt].
  split; [exact E|]. split; intros Hl Hr; rewrite E, Hl, Hr.
  - rewrite Heq. reflexivity.
  - rewrite Hgt. reflexivity.
Qed.

(** ** The entry points *)

(** C7: both entry points answer a [max_pct_to_merge] outside 1..100 with the
    invalid-parameter error, raised in the state of the call: no lock has
    been taken and nothing else has been done. *)
Theorem max_pct_to_merge_rejected fuel rel max_pct_to_merge rsinfo_ok s :
  max_pct_to_merge < 1 \/ 100 < max_pct_to_merge ->
  pg_index_reclaim_execute fuel rel max_pct_to_merge rsinfo_ok s
    = Raise ERRCODE_INVALID_PARAMETER_VALUE s
  /\ pg_index_reclaim_analyze fuel rel max_pct_to_merge rsinfo_ok s
    = Raise ERRCODE_INVALID_PARAMETER_VALUE s.
Proof.
  intros H.
  assert (Hbad : (max_pct_to_merge <? 1) || (100 <? max_pct_to_merge) = true).
  { apply orb_true_iff. destruct H; [left|right]; apply Z.ltb_lt; assumption. }
  unfold pg_index_reclaim_execute, pg_index_reclaim_analyze.
  rewrite !run_when, Hbad. split; reflexivity.
Qed.

Lemma merge_candidates_loop_capped {R} rel merge_candidates pages_merged space_reclaimed s :
  merge_candidates_loop (R := R) rel merge_candidates 1 pages_merged space_reclaimed s
  = Next (pages_merged, space_reclaimed) s.
Proof. destruct merge_candidates; reflexivity. Qed.

Lemma merge_candidates_loop_spec {R} rel merge_candidates s :
  merge_candidates_loop (R := R) rel merge_candidates 0 0 0 s
  = merge_first_feasible rel merge_candidates s.
Proof.
  induction merge_candidates as [|candidate rest IH].
  - reflexivity.
  - cbn [merge_candidates_loop]. unfold merge_first_feasible. cbn [List.find].
    change (MAX_MERGES_PER_EXECUTION <=? 0) with false. cbv iota.
    destruct (can_merge candidate).
    + unfold bind. destruct (call _ s) as [merged s1|r s1|e s1|s1|]; try reflexivity.
      destruct merged; apply merge_candidates_loop_capped.
    + rewrite IH. reflexivity.
Qed.

Lemma call_not_Return {R R'} (f : Stmt R R) (s : State) (r : R') (s' : State) :
  call f s <> Return r s'.
Proof. unfold call. destruct (f s); discriminate. Qed.

(** ** The leaf scan *)

Lemma bind_OutOfFuel {R A B} (m : Stmt R A) (k : A -> Stmt R B) s :
  m s = OutOfFuel -> bind m k s = OutOfFuel.
Proof. intros H. unfold bind. rewrite H. reflexivity. Qed.

Lemma run_nblocks {R B} (k : Z -> Stmt R B) (s : State) :
  bind RelationGetNumberOfBlocks k s = k (Z.of_nat (length (st_pages s))) s.
Proof. reflexivity. Qed.

Lemma if_apply {R A} (c : bool) (m1 m2 : Stmt R A) (s : State) :
  (if c then m1 else m2) s = if c then m1 s else m2 s.
Proof. destruct c; reflexivity. Qed.

(** Replaces the closed conditions of the goal by their values. *)
Ltac decide_closed_ifs :=
  repeat match goal with
         | |- context [if ?c then _ else _] =>
             let v := eval vm_compute in c in
             change c with v; cbv iota
         end.

(** Without a deleted or half-dead page in the index, every round of the
    scan stores a page or ends it, so the page-count cap bounds the rounds. *)
Lemma scan_leaf_pages_bounded {R} (s : State) (num_pages : Z) (fuel : nat) :
  st_held s = [] ->
  (forall b, P_ISDELETED (page_at s b) = false /\ P_ISHALFDEAD (page_at s b) = false) ->
  forall blkno pages,
    Z.max 0 (num_pages - Z.of_nat (length pages)) < Z.of_nat fuel ->
    scan_leaf_pages (R := R) fuel num_pages blkno pages s <> OutOfFuel.
Proof.
  intros Hheld Hlive. induction fuel as [|fuel IH]; intros blkno pages Hfuel.
  - lia.
  - cbn [scan_leaf_pages]. cbv zeta.
    destruct (negb _ && _) eqn:Hcond; cbn [negb]; [|discriminate].
    apply andb_prop in Hcond as [_ Hcap]. apply Z.ltb_lt in Hcap.
    destruct (Hlive blkno) as [Hdel Hhd].
    repeat (run; rewrite ?if_apply). rewrite Hheld, lock_conflict_nil, Hdel, Hhd, !unhold_hold.
    repeat (split_if; try discriminate).
    apply IH. rewrite length_app. cbn [length]. lia.
Qed.

Lemma scan_cycle {R} (fuel : nat) (pages : list PageAnalysis) :
  Z.of_nat (length pages) < 4 ->
  scan_leaf_pages (R := R) fuel 4 2 pages cyclic_index = OutOfFuel.
Proof.
  intros Hlen. induction fuel as [|fuel IH]; [reflexivity|].
  cbn [scan_leaf_pages]. cbv zeta.
  apply Z.ltb_lt in Hlen. rewrite Hlen.
  change (negb (negb (2 =? P_NONE) && true)) with false. cbv iota.
  repeat (run; rewrite ?if_apply). rewrite !unhold_hold.
  decide_closed_ifs. exact IH.
Qed.

Lemma find_leftmost_leaf_cyclic (fuel : nat) :
  call (R' := list MergeCandidate) (find_leftmost_leaf (S (S fuel))) cyclic_index
  = Next 1 cyclic_index.
Proof.
  unfold call, find_leftmost_leaf. run. rewrite !unhold_hold.
  decide_closed_ifs.
  cbn [descend_to_leaf]. run. rewrite !unhold_hold.
  decide_closed_ifs. reflexivity.
Qed.

(** C3, at the failing input: on the index whose half-dead page links to
    itself the analysis does not come back, whatever number of iterations its
    loops are given; the cap of four pages is never reached because skipped
    pages are not counted. *)
Theorem analyze_hangs_on_skipped_cycle (fuel : nat) (max_pct_to_merge : Z) :
  call (R' := unit) (analyze_index_pages fuel max_pct_to_merge) cyclic_index = OutOfFuel.
Proof.
  destruct fuel as [|[|fuel]]; [reflexivity | reflexivity |].
  unfold call at 1.
  assert (H : analyze_index_pages (S (S fuel)) max_pct_to_merge cyclic_index = OutOfFuel);
    [|rewrite H; reflexivity].
  unfold analyze_index_pages.
  rewrite run_nblocks, run_when.
  decide_closed_ifs.
  rewrite (bind_Next _ _ _ _ _ (find_leftmost_leaf_cyclic fuel)).
  rewrite run_when. decide_closed_ifs.
  apply bind_OutOfFuel.
  cbn [scan_leaf_pages]. cbv zeta. decide_closed_ifs.
  repeat (run; rewrite ?if_apply). rewrite !unhold_hold. decide_closed_ifs.
  apply scan_cycle. cbn. lia.
Qed.

(** ** Entry conservation *)

(** C2, at the failing input: merging the full left leaf of
    [full_left_index] into its right sibling succeeds, through
    [execute_merge] and through the execute entry point alike, and the live
    entries on the leaf pages drop from 408 to 407: the capacity check of
    lines 700-743 passes, the last [PageAddItem] of the loop finds no room for
    the tuple and its line pointer, and the left page is emptied all the
    same. *)
Theorem merge_loses_an_entry :
  live_entry_count full_left_index = 408 /\
  match execute_merge btree 1 2 full_left_index with
  | Return merged s' => merged = true /\ live_entry_count s' = 407
  | _ => False
  end /\
  match pg_index_reclaim_execute 10 btree 50 true full_left_index with
  | Return (pages_merged, _) s' => pages_merged = 1 /\ live_entry_count s' = 407
  | _ => False
  end.
Proof. vm_compute. repeat split. Qed.

(** ** The order of the merged entries *)

(** C1 as stated fails: merging block 1 of [small_index] into block 2
    succeeds and leaves the tuples of block 2 first. *)
Lemma merge_order_counterexample :
  execute_merge btree 1 2 small_index = Return true merged_small_index /\
  ~ left_entries_first small_index merged_small_index 1 2.
Proof.
  split.
  - vm_compute. reflexivity.
  - intros H. vm_compute in H. discriminate H.
Qed.

Lemma execute_merge_appends_left_items_witness :
  PageHasFreeLinePointers (page_at small_index 2) = false /\
  all_fit (pd_upper (page_at small_index 2) - pd_lower (page_at small_index 2))
          (live_data_items (page_at small_index 1)) = true /\
  execute_merge btree 1 2 small_index = Return true merged_small_index /\
  pd_linp (page_at merged_small_index 2)
  = pd_linp (page_at small_index 2)
    ++ map normal_copy (live_data_items (page_at small_index 1)).
Proof.
  assert (H2 : PageHasFreeLinePointers (page_at small_index 2) = false) by reflexivity.
  assert (H3 : all_fit (pd_upper (page_at small_index 2) - pd_lower (page_at small_index 2))
                 (live_data_items (page_at small_index 1)) = true) by reflexivity.
  assert (H4 : execute_merge btree 1 2 small_index = Return true merged_small_index)
    by (vm_compute; reflexivity).
  refine (conj H2 (conj H3 (conj H4 _))).
  exact (execute_merge_appends_left_items btree small_index 1 2 merged_small_index H2 H3 H4).
Defined.

(** C6 as stated fails: for blocks 1 and 2 of [uneven_index] the combined
    7320 bytes are within nine tenths of the capacity less the average item
    size of block 2, 8152 - 18, and the candidate is emitted with [can_merge]
    false, 24 bytes being taken off. *)
Lemma can_merge_counterexample :
  call (R' := unit) (analyze_index_pages 10 50) uneven_index
    = Next uneven_candidates uneven_index /\
  map (fun c => (left_page c, right_page c, can_merge c)) uneven_candidates
    = [(1, 2, false); (2, 3, true)] /\
  claimed_can_merge (analyze_page 1 (page_at uneven_index 1))
                    (analyze_page 2 (page_at uneven_index 2)) = true.
Proof. vm_compute. repeat split. Qed.

Lemma candidate_can_merge_witness :
  can_merge small_candidate = true <->
  10 * (used_space (analyze_page 1 (page_at small_index 1))
        + used_space (analyze_page 2 (page_at small_index 2)))
  <= 9 * available_capacity (analyze_page 2 (page_at small_index 2)).
Proof.
  apply (candidate_can_merge small_stats 50 _ _ small_index small_candidate small_index).
  - vm_compute. reflexivity.
  - vm_compute. reflexivity.
  - vm_compute. split; discriminate.
  - vm_compute. split; discriminate.
Defined.

Lemma usage_threshold_witness :
  emits_candidate small_stats 50 (analyze_page 1 (page_at small_index 1)) small_index
  = negb (double_gt (usage_pct (analyze_page 1 (page_at small_index 1))) (double_of_Z 50) &&
          double_gt (usage_pct (analyze_page 2 (page_at small_index 2))) (double_of_Z 50)).
Proof.
  refine (proj1 (usage_threshold small_stats 50 (analyze_page 1 (page_at small_index 1))
                   (analyze_page 2 (page_at small_index 2)) small_index
                   _ _ _ _ _ _ _ _ _)).
  - vm_compute. split; discriminate.
  - reflexivity.
  - reflexivity.
  - reflexivity.
  - reflexivity.
  - reflexivity.
  - discriminate.
  - vm_compute. reflexivity.
  - reflexivity.
Defined.



Lemma execute_merge_capacity_recheck_witness :
  PageGetFreeSpace (page_at crowded_index 2)
    < live_data_size (page_at crowded_index 1) + live_data_size (page_at crowded_index 2) /\
  execute_merge btree 1 2 crowded_index = Return false crowded_index.
Proof.
  assert (H : PageGetFreeSpace (page_at crowded_index 2)
              < live_data_size (page_at crowded_index 1)
                + live_data_size (page_at crowded_index 2))
    by (vm_compute; reflexivity).
  split; [exact H|].
  apply execute_merge_capacity_recheck; try reflexivity; try exact H.
  - discriminate.
  - intros Hr. vm_compute in Hr. discriminate Hr.
  - intros Hp. exfalso. apply Hp. reflexivity.
Defined.

Lemma execute_merge_empty_left_witness :
  live_data_items (page_at empty_left_index 1) = [] /\
  execute_merge btree 1 2 empty_left_index = Return false empty_left_index.
Proof.
  split; [reflexivity|].
  apply execute_merge_empty_left; try reflexivity.
  - discriminate.
  - intros Hr. vm_compute in Hr. discriminate Hr.
  - intros Hp. exfalso. apply Hp. reflexivity.
Defined.

Lemma max_pct_to_merge_rejected_witness :
  pg_index_reclaim_execute 10 btree 101 true small_index
    = Raise ERRCODE_INVALID_PARAMETER_VALUE small_index
  /\ pg_index_reclaim_analyze 10 btree 101 true small_index
    = Raise ERRCODE_INVALID_PARAMETER_VALUE small_index.
Proof.
  apply max_pct_to_merge_rejected. right. reflexivity.
Defined.

(** * Further properties of the code *)

(** ** States under the statements of the critical section *)

Lemma run_dirty {R B} (buf : Buffer) (k : unit -> Stmt R B) s :
  bind (MarkBufferDirty buf) k s = k tt (mark_dirty buf s).
Proof. reflexivity. Qed.

Lemma run_log {R B} (buf : Buffer) (k : unit -> Stmt R B) s :
  bind (log_newpage_buffer buf) k s = k tt (log_page buf s).
Proof. reflexivity. Qed.

Lemma run_if_modify {R B} (c : bool) (buf : Buffer) (f g : Page -> Page)
    (k : unit -> Stmt R B) s :
  bind (if c then modify_page buf f else modify_page buf g) k s
  = k tt (store buf (if c then f else g) s).
Proof. destruct c; reflexivity. Qed.

Lemma run_when_true {R B} (body : Stmt R unit) (k : unit -> Stmt R B) s :
  bind (when true body) k s = bind body k s.
Proof. reflexivity. Qed.

Lemma run_when_false {R B} (body : Stmt R unit) (k : unit -> Stmt R B) s :
  bind (when false body) k s = k tt s.
Proof. reflexivity. Qed.

Lemma store_store buf f g s :
  store buf g (store buf f s) = store buf (fun page => g (f page)) s.
Proof.
  unfold store. cbn [st_pages st_held st_rel_locks st_dirty st_wal]. f_equal.
  apply (list_alter_alter_eq g f).
Qed.

Lemma store_id buf s : store buf (fun page => page) s = s.
Proof.
  destruct s as [pages held rl d w]. unfold store.
  cbn [st_pages st_held st_rel_locks st_dirty st_wal]. f_equal.
  apply list_alter_id. reflexivity.
Qed.

Lemma page_at_mark_dirty buf s b : page_at (mark_dirty buf s) b = page_at s b.
Proof. reflexivity. Qed.

Lemma page_at_log_page buf s b : page_at (log_page buf s) b = page_at s b.
Proof. reflexivity. Qed.

Lemma page_at_unhold buf s b : page_at (unhold buf s) b = page_at s b.
Proof. reflexivity. Qed.

Lemma readable_mark_dirty buf s b : readable (mark_dirty buf s) b = readable s b.
Proof. reflexivity. Qed.

Lemma readable_log_page buf s b : readable (log_page buf s) b = readable s b.
Proof. reflexivity. Qed.

Lemma readable_unhold buf s b : readable (unhold buf s) b = readable s b.
Proof. reflexivity. Qed.

(** The statements of the critical section leave the locks alone, so the
    locks taken before it can be seen as taken after it. *)
Lemma store_hold buf f b mode s : store buf f (hold b mode s) = hold b mode (store buf f s).
Proof. reflexivity. Qed.

Lemma mark_dirty_hold buf b mode s : mark_dirty buf (hold b mode s) = hold b mode (mark_dirty buf s).
Proof. reflexivity. Qed.

Lemma log_page_hold buf b mode s : log_page buf (hold b mode s) = hold b mode (log_page buf s).
Proof. reflexivity. Qed.

(** The loop of lines 826-858. *)
Lemma run_add_items {B} (l r : Buffer) (offs : list OffsetNumber)
    (k : unit -> Stmt bool B) (s : State) :
  Z.to_nat r <> Z.to_nat l ->
  bind (for_each offs
          (fun offnum =>
             left_page <- BufferGetPage l ;;
             modify_page r
               (fun right_page =>
                  fst (PageAddItem right_page
                         (lp_item (PageGetItemId left_page offnum))
                         (ItemIdGetLength (PageGetItemId left_page offnum))
                         InvalidOffsetNumber)))) k s
  = k tt (store r (add_items (page_at s l) offs) s).
Proof.
  intros Hne. revert s. induction offs as [|off offs IH]; intros s.
  - cbn [for_each]. rewrite run_ret.
    change (add_items (page_at s l) []) with (fun page : Page => page).
    rewrite store_id. reflexivity.
  - cbn [for_each]. rewrite !run_bind_bind, run_getpage, run_modify.
    rewrite IH, page_at_store_ne by exact Hne.
    rewrite store_store. reflexivity.
Qed.

(** ** Every return of execute_merge *)

Lemma write_lock_tail buf b m held :
  lock_conflict BT_WRITE buf ((b, m) :: held) = false ->
  lock_conflict BT_WRITE buf held = false.
Proof. rewrite lock_conflict_cons. intros H. apply orb_false_elim in H as [_ H]. exact H. Qed.

(** The blocks locked so far differ from the one locked next. *)
Ltac lock_facts :=
  repeat match goal with
         | E : lock_conflict BT_WRITE _ ((_, _) :: _) = false |- _ =>
             pose proof (write_lock_excludes _ _ _ _ E);
             apply write_lock_tail in E
         end.

Lemma readable_nonneg s buf : readable s buf = true -> 0 <= buf.
Proof. intros H. apply readable_bounds in H. lia. Qed.

Lemma to_nat_ne (a b : Z) : 0 <= a -> 0 <= b -> a <> b -> Z.to_nat a <> Z.to_nat b.
Proof. lia. Qed.

(** Two blocks met on the path are different positions of the page list. *)
Ltac block_ne :=
  apply to_nat_ne;
  [ first [assumption | eapply readable_nonneg; eassumption]
  | first [assumption | eapply readable_nonneg; eassumption]
  | first [assumption | apply not_eq_sym; assumption] ].

Ltac norm_readable :=
  repeat first
    [ rewrite readable_hold | rewrite readable_unhold
    | rewrite readable_mark_dirty | rewrite readable_log_page
    | rewrite readable_store ].

Ltac norm_pages :=
  repeat first
    [ rewrite page_at_hold | rewrite page_at_unhold
    | rewrite page_at_mark_dirty | rewrite page_at_log_page
    | rewrite page_at_store_ne by block_ne
    | rewrite page_at_store_eq by (norm_readable; assumption) ].

Lemma live_data_items_nonempty page :
  (Z.of_nat (length (used_offsets page (P_FIRSTDATAKEY page) (PageGetMaxOffsetNumber page)))
   =? 0) = false ->
  live_data_items page <> [].
Proof.
  intros H Hnil. apply Z.eqb_neq in H. apply H.
  rewrite <- used_offsets_items in Hnil.
  apply (f_equal (@length _)) in Hnil. rewrite length_map in Hnil.
  rewrite Hnil. reflexivity.
Qed.

(** Puts the conditions met on a path as propositions. *)
Ltac path_facts :=
  repeat match goal with
         | E : negb _ = true |- _ => apply negb_true_iff in E
         | E : negb _ = false |- _ => apply negb_false_iff in E
         end;
  repeat match goal with
         | E : (_ =? _) = true |- _ => apply Z.eqb_eq in E
         | E : (_ =? _) = false |- _ => apply Z.eqb_neq in E
         end.

Ltac run_cs_step :=
  first [ rewrite run_bind_bind | rewrite run_ret | rewrite run_return
        | rewrite run_modify | rewrite run_dirty | rewrite run_log
        | rewrite run_getpage | rewrite run_if_modify
        | rewrite run_when_true | rewrite run_when_false
        | rewrite run_unlock | rewrite run_unlock_valid ].

(** Every outcome of [execute_merge] that is a return: [false] in the state
    of the call, or [true] after the checks, in the state the critical
    section makes.  The function does not end without a [return]. *)
Lemma execute_merge_outcome rel s l r :
  match execute_merge rel l r s with
  | Next _ _ => False
  | Return b s' =>
      (b = false /\ s' = s) \/ (b = true /\ merge_ready s l r /\ merged rel s l r s')
  | Raise _ _ | Blocked _ | OutOfFuel => True
  end.
Proof.
  unfold execute_merge. run.
  repeat (split_if; try exact I).
  all: try match goal with
           | |- (false = false /\ _) \/ _ =>
               cbn [unhold_valid]; rewrite !unhold_hold; left; split; reflexivity
           end.
  all: lock_facts.
  all: rewrite run_add_items by block_ne.
  all: match goal with
       | E : (Z.of_nat (length ?offs) =? 0) = false |- _ =>
           pose proof (live_data_items_nonempty _ E) as Hitems;
           assert (Hsome : (0 <? Z.of_nat (length offs)) = true)
             by (apply Z.ltb_lt; apply Z.eqb_neq in E; lia);
           clear E
       end.
  all: match goal with
       | E : (_ - _ + 1 <=? 0) = false |- _ =>
           apply Z.leb_gt in E; apply Z.ltb_lt in E; rewrite E; clear E
       end.
  all: destruct (rd_needswal rel) eqn:Hwal.
  all: repeat (cbv beta; first [ run_cs_step | progress norm_pages | rewrite Hsome ]).
  all: cbn [unhold_valid].
  all: repeat first [ rewrite store_hold | rewrite mark_dirty_hold | rewrite log_page_hold ].
  all: rewrite !unhold_hold.
  all: repeat (cbv beta;
               first [ rewrite run_dump | rewrite run_when | rewrite run_return
                     | rewrite run_bind_bind ]).
  all: norm_readable.
  all: cbn [st_held log_page mark_dirty store].
  all: repeat match goal with
              | E : readable _ _ = true |- _ => rewrite E
              | E : lock_conflict _ _ _ = false |- _ => rewrite E
              | E : negb (P_RIGHTMOST _) = _ |- _ => unfold P_RIGHTMOST in E; rewrite E
              end.
  all: repeat match goal with
              | |- context [if lock_conflict ?m ?x ?h then _ else _] =>
                  destruct (lock_conflict m x h) eqn:?; try exact I
              end.
  all: cbv beta delta [return_].
  all: right.
  all: split; [reflexivity|].
  all: match goal with
       | E : (PageGetFreeSpace _ <? _) = false |- _ =>
           apply Z.ltb_ge in E; rewrite add_used_sizes_acc in E
       end.
  all: path_facts.
  all: split.
  all: try match goal with
           | |- merge_ready _ _ _ =>
               constructor;
               [ assumption
               | split; [assumption|]; unfold unfit;
                 repeat match goal with
                        | E : ?c = _ |- context [?c] => rewrite E
                        end; reflexivity
               | split; [assumption|]; unfold unfit;
                 repeat match goal with
                        | E : ?c = _ |- context [?c] => rewrite E
                        end; reflexivity
               | assumption
               | intros Hrm; unfold P_RIGHTMOST in Hrm; apply Z.eqb_neq in Hrm;
                 first [ contradiction
                       | repeat split; first [assumption | apply not_eq_sym; assumption] ]
               | intros Hp;
                 first [ contradiction
                       | repeat split; first [assumption | apply not_eq_sym; assumption] ]
               | assumption
               | assumption ]
           end.
  all: constructor.
  all: try reflexivity.
  all: try match goal with
           | |- st_dirty _ = _ =>
               cbn [st_dirty log_page mark_dirty store]; unfold left_sibling;
               match goal with
               | |- context [if ?x =? P_NONE then _ else _] =>
                   destruct (Z.eqb_spec x P_NONE)
               end;
               try contradiction; reflexivity
           | |- st_wal _ = _ =>
               cbn [st_wal log_page mark_dirty store]; unfold left_sibling;
               match goal with
               | E : rd_needswal _ = _ |- _ => rewrite E
               end;
               match goal with
               | |- context [if ?x =? P_NONE then _ else _] =>
                   destruct (Z.eqb_spec x P_NONE)
               | _ => idtac
               end;
               try contradiction; rewrite <- ?app_assoc, ?app_nil_r; reflexivity
           | |- length _ = _ =>
               cbn [st_pages log_page mark_dirty store]; rewrite !length_alter; reflexivity
           | |- page_at _ _ = left_after _ =>
               norm_pages; unfold left_after, set_dummy_high_key; cbv zeta;
               destruct (_ && _); reflexivity
           | |- page_at _ _ = right_after _ _ => norm_pages; reflexivity
           | |- _ <> P_NONE -> _ =>
               intros Hp; first [ contradiction | norm_pages; reflexivity ]
           end.
  all: intros b0 Hb0 Hbl Hbr Hnin.
  all: unfold left_sibling in Hnin.
  all: match type of Hnin with
       | context [if ?x =? P_NONE then _ else _] =>
           destruct (Z.eqb_spec x P_NONE); try contradiction;
           try assert (b0 <> x) by (intros ->; apply Hnin; left; reflexivity)
       end.
  all: norm_pages; reflexivity.
Qed.

Lemma execute_merge_inv rel s l r b s' :
  execute_merge rel l r s = Return b s' ->
  (b = false /\ s' = s) \/ (b = true /\ merge_ready s l r /\ merged rel s l r s').
Proof.
  intros H. pose proof (execute_merge_outcome rel s l r) as Ho.
  rewrite H in Ho. exact Ho.
Qed.

Lemma execute_merge_call_inv {R'} rel s l r b s' :
  call (R' := R') (execute_merge rel l r) s = Next b s' ->
  execute_merge rel l r s = Return b s'.
Proof.
  intros H. pose proof (execute_merge_outcome rel s l r) as Ho.
  apply call_Next_inv in H as [H|H]; [exact H|].
  rewrite H in Ho. contradiction.
Qed.

(** ** The pages of a merge *)

(** [PageAddItem] leaves the special area alone. *)
Lemma PageAddItem_opaque page item size off :
  let page' := fst (PageAddItem page item size off) in
  btpo_prev page' = btpo_prev page /\ btpo_next page' = btpo_next page /\
  btpo_flags page' = btpo_flags page /\ btpo_cycleid page' = btpo_cycleid page.
Proof.
  unfold PageAddItem.
  destruct (negb (off =? InvalidOffsetNumber));
    [|destruct (PageHasFreeLinePointers page);
      [destruct (first_free_slot FirstOffsetNumber (pd_linp page))|]];
    cbv zeta; repeat (destruct (_ <? _)); cbn; auto.
Qed.

Lemma add_items_opaque left_page offs right_page :
  btpo_prev (add_items left_page offs right_page) = btpo_prev right_page /\
  btpo_next (add_items left_page offs right_page) = btpo_next right_page /\
  btpo_flags (add_items left_page offs right_page) = btpo_flags right_page /\
  btpo_cycleid (add_items left_page offs right_page) = btpo_cycleid right_page.
Proof.
  unfold add_items. revert right_page.
  induction offs as [|off offs IH]; intros right_page; cbn [fold_left]; [auto|].
  destruct (IH (fst (PageAddItem right_page
                       (lp_item (PageGetItemId left_page off))
                       (ItemIdGetLength (PageGetItemId left_page off))
                       InvalidOffsetNumber))) as (H1 & H2 & H3 & H4).
  destruct (PageAddItem_opaque right_page
              (lp_item (PageGetItemId left_page off))
              (ItemIdGetLength (PageGetItemId left_page off))
              InvalidOffsetNumber) as (G1 & G2 & G3 & G4).
  rewrite H1, H2, H3, H4. auto.
Qed.

Lemma set_dummy_high_key_opaque page :
  btpo_prev (set_dummy_high_key page) = btpo_prev page /\
  btpo_next (set_dummy_high_key page) = btpo_next page /\
  btpo_flags (set_dummy_high_key page) = btpo_flags page /\
  btpo_cycleid (set_dummy_high_key page) = btpo_cycleid page.
Proof.
  unfold set_dummy_high_key. destruct (_ && _).
  - unfold PageIndexTupleOverwrite. destruct (_ <? _); cbn; auto.
  - apply PageAddItem_opaque.
Qed.

Lemma PageIndexMultiDelete_opaque page itemnos :
  btpo_prev (PageIndexMultiDelete page itemnos) = btpo_prev page /\
  btpo_next (PageIndexMultiDelete page itemnos) = btpo_next page /\
  btpo_flags (PageIndexMultiDelete page itemnos) = btpo_flags page.
Proof.
  unfold PageIndexMultiDelete. destruct (delete_slots _ _ _). cbn. auto.
Qed.

Lemma left_after_links page :
  btpo_prev (left_after page) = btpo_prev page /\
  btpo_next (left_after page) = btpo_next page /\
  btpo_flags (left_after page) = Z.lor (btpo_flags page) BTP_HALF_DEAD /\
  btpo_cycleid (left_after page) = 0.
Proof.
  unfold left_after. cbv zeta.
  destruct (PageIndexMultiDelete_opaque page
              (used_offsets page (P_FIRSTDATAKEY page) (PageGetMaxOffsetNumber page)))
    as (D1 & D2 & D3).
  match goal with
  | |- context [set_dummy_high_key ?p] =>
      destruct (set_dummy_high_key_opaque p) as (H1 & H2 & H3 & _)
  end.
  cbn [btpo_prev btpo_next btpo_flags btpo_cycleid set_btpo_cycleid].
  rewrite H1, H2, H3. cbn [btpo_prev btpo_next btpo_flags set_btpo_flags].
  rewrite D1, D2, D3. auto.
Qed.

Lemma right_after_links left_page right_page :
  btpo_prev (right_after left_page right_page) = btpo_prev left_page /\
  btpo_next (right_after left_page right_page) = btpo_next right_page /\
  btpo_flags (right_after left_page right_page) = btpo_flags right_page.
Proof.
  unfold right_after.
  destruct (add_items_opaque left_page
              (used_offsets left_page (P_FIRSTDATAKEY left_page)
                 (PageGetMaxOffsetNumber left_page)) right_page) as (_ & H2 & H3 & _).
  cbn [btpo_prev btpo_next btpo_flags set_btpo_prev]. auto.
Qed.

(** Setting the half-dead bit leaves the other flag bits as they are. *)
Lemma half_dead_flags (flags : Z) :
  negb (Z.land (Z.lor flags BTP_HALF_DEAD) BTP_HALF_DEAD =? 0) = true /\
  Z.land (Z.lor flags BTP_HALF_DEAD) BTP_LEAF = Z.land flags BTP_LEAF /\
  Z.land (Z.lor flags BTP_HALF_DEAD) BTP_DELETED = Z.land flags BTP_DELETED.
Proof.
  rewrite !Z.land_lor_distr_l.
  change (Z.land BTP_HALF_DEAD BTP_HALF_DEAD) with 16.
  change (Z.land BTP_HALF_DEAD BTP_LEAF) with 0.
  change (Z.land BTP_HALF_DEAD BTP_DELETED) with 0.
  rewrite !Z.lor_0_r. repeat split.
  apply negb_true_iff, Z.eqb_neq. intros H.
  apply Z.lor_eq_0_iff in H as [_ H]. discriminate H.
Qed.

(** ** What execute_merge guarantees to its caller *)

(** X1: whenever [execute_merge] returns [false], whatever the reason, the
    state is the one of the call: no page, lock, dirty mark or log record
    differs. *)
Theorem execute_merge_false_changes_nothing rel s left_block right_block s' :
  execute_merge rel left_block right_block s = Return false s' ->
  s' = s.
Proof.
  intros H. apply execute_merge_inv in H as [[_ H]|[H _]]; [exact H | discriminate H].
Qed.

(** X2: [execute_merge] returns [true] only for two different live leaf
    pages of which the right one names the left one as its left sibling,
    whose outer neighbours link back to them, with room on the right page
    for the used data items of both by the check of lines 700-743, and with
    a used data item on the left page. *)
Theorem execute_merge_true_only_when_ready rel s left_block right_block s' :
  execute_merge rel left_block right_block s = Return true s' ->
  merge_ready s left_block right_block.
Proof.
  intros H. apply execute_merge_inv in H as [[H _]|(_ & H & _)]; [discriminate H | exact H].
Qed.

(** X3: a successful merge takes the left page out of the sibling chain: the
    right page's left link becomes the left page's old left link, its right
    link stays, and the left sibling of the left page, if there is one, gets
    the right page as its right sibling and keeps its own left link. *)
Theorem execute_merge_unlinks_left_page rel s left_block right_block s' :
  execute_merge rel left_block right_block s = Return true s' ->
  let leftsib := btpo_prev (page_at s left_block) in
  btpo_prev (page_at s' right_block) = leftsib /\
  btpo_next (page_at s' right_block) = btpo_next (page_at s right_block) /\
  (leftsib <> P_NONE ->
   btpo_next (page_at s' leftsib) = right_block /\
   btpo_prev (page_at s' leftsib) = btpo_prev (page_at s leftsib)).
Proof.
  intros H. cbv zeta. apply execute_merge_inv in H as [[H _]|(_ & _ & H)]; [discriminate H|].
  destruct H as [_ _ _ _ _ _ Hright Hsib _].
  rewrite Hright.
  destruct (right_after_links (page_at s left_block) (page_at s right_block)) as (H1 & H2 & _).
  split; [exact H1|]. split; [exact H2|].
  intros Hp. rewrite (Hsib Hp). split; reflexivity.
Qed.

(** X4: after a successful merge the left page is a half-dead leaf: the
    half-dead flag is set, the leaf and deleted flags are as before, the
    cycle id is 0, and its own sibling links still name its old
    neighbours. *)
Theorem execute_merge_leaves_left_half_dead rel s left_block right_block s' :
  execute_merge rel left_block right_block s = Return true s' ->
  P_ISHALFDEAD (page_at s' left_block) = true /\
  P_ISLEAF (page_at s' left_block) = true /\
  P_ISDELETED (page_at s' left_block) = false /\
  btpo_cycleid (page_at s' left_block) = 0 /\
  btpo_prev (page_at s' left_block) = btpo_prev (page_at s left_block) /\
  btpo_next (page_at s' left_block) = btpo_next (page_at s left_block).
Proof.
  intros H. apply execute_merge_inv in H as [[H _]|(_ & Hready & H)]; [discriminate H|].
  destruct H as [_ _ _ _ _ Hleft _ _ _].
  destruct (left_after_links (page_at s left_block)) as (H1 & H2 & H3 & H4).
  destruct (half_dead_flags (btpo_flags (page_at s left_block))) as (F1 & F2 & F3).
  destruct Hready as [_ [_ Hfit] _ _ _ _ _ _].
  unfold unfit in Hfit.
  apply orb_false_elim in Hfit as [Hfit Hhd]. apply orb_false_elim in Hfit as [Hfit Hdel].
  apply orb_false_elim in Hfit as [_ Hleaf]. apply negb_false_iff in Hleaf.
  rewrite Hleft. unfold P_ISHALFDEAD, P_ISLEAF, P_ISDELETED. rewrite H1, H2, H3, H4, F2, F3.
  repeat split; assumption.
Qed.

(** X5: however [execute_merge] returns, it holds the buffer locks and the
    relation locks it held when it was called, and no other: every lock it
    took is released on every path. *)
Theorem execute_merge_releases_its_locks rel s left_block right_block merged_ s' :
  execute_merge rel left_block right_block s = Return merged_ s' ->
  st_held s' = st_held s /\ st_rel_locks s' = st_rel_locks s.
Proof.
  intros H. apply execute_merge_inv in H as [[_ ->]|(_ & _ & H)]; [split; reflexivity|].
  destruct H as [H1 H2 _ _ _ _ _ _ _]. split; assumption.
Qed.

(** X6: a successful merge changes no page but the right page, the left
    page and the left sibling of the left page; it marks exactly these dirty
    and, when the relation needs WAL, logs a full-page image of each, the
    left page first; when the relation needs none it logs nothing. *)
Theorem execute_merge_dirties_and_logs rel s left_block right_block s' :
  execute_merge rel left_block right_block s = Return true s' ->
  let leftsib := left_sibling (page_at s left_block) in
  (forall b, 0 <= b -> ~ In b (right_block :: left_block :: leftsib) ->
             page_at s' b = page_at s b) /\
  st_dirty s' = right_block :: left_block :: leftsib ++ st_dirty s /\
  st_wal s' = st_wal s ++ (if rd_needswal rel
                           then left_block :: right_block :: leftsib else []).
Proof.
  intros H. cbv zeta. apply execute_merge_inv in H as [[H _]|(_ & _ & H)]; [discriminate H|].
  destruct H as [_ _ Hdirty Hwal _ _ _ _ Hothers].
  split; [|split; assumption].
  intros b Hb Hnin. apply Hothers; [exact Hb | | |].
  - intros ->. apply Hnin. right; left; reflexivity.
  - intros ->. apply Hnin. left; reflexivity.
  - intros Hin. apply Hnin. right; right. exact Hin.
Qed.

(** X9: handed a block that is not in the relation, by a caller that holds no
    buffer lock, [execute_merge] raises the read error in the state of the
    call: no lock is taken and no page touched. *)
Theorem execute_merge_unreadable_block rel s left_block right_block :
  st_held s = [] ->
  readable s left_block = false \/ readable s right_block = false ->
  execute_merge rel left_block right_block s = Raise ERRCODE_DATA_CORRUPTED s.
Proof.
  intros Hheld Hbad. unfold execute_merge. cbv zeta.
  rewrite run_dump, Hheld, lock_conflict_nil.
  destruct (readable s left_block) eqn:Hl; [|reflexivity].
  destruct Hbad as [Hbad|Hbad]; [discriminate Hbad|].
  rewrite run_dump, Hbad. reflexivity.
Qed.

(** ** The entries of the two pages after a merge *)

(** On a page without the free-line-pointer hint, [PageAddItem] at
    [InvalidOffsetNumber] appends the item or, for lack of room, leaves the
    page as it is. *)
Lemma PageAddItem_at_end page item size :
  PageHasFreeLinePointers page = false ->
  fst (PageAddItem page item size InvalidOffsetNumber) = page \/
  (pd_linp (fst (PageAddItem page item size InvalidOffsetNumber))
   = pd_linp page ++ [mkItemId LP_NORMAL size item] /\
   PageHasFreeLinePointers (fst (PageAddItem page item size InvalidOffsetNumber)) = false).
Proof.
  intros Hfree. unfold PageAddItem.
  rewrite Z.eqb_refl. cbn [negb]. rewrite Hfree.
  rewrite Z.ltb_irrefl, Z.eqb_refl. cbn [orb].
  destruct (_ <? _); [left; reflexivity|].
  right. cbn [fst]. split; [|exact Hfree].
  unfold set_linp. cbn [pd_linp]. rewrite PageGetMaxOffsetNumber_length.
  replace (Z.to_nat (Z.of_nat (length (pd_linp page)) + 1 - 1))
    with (length (pd_linp page)) by lia.
  rewrite firstn_all, skipn_all. reflexivity.
Qed.

Lemma add_items_appends left_page offs : forall right_page,
  PageHasFreeLinePointers right_page = false ->
  exists added,
    pd_linp (add_items left_page offs right_page) = pd_linp right_page ++ added /\
    sublist added (map normal_copy (map (PageGetItemId left_page) offs)).
Proof.
  unfold add_items.
  induction offs as [|off offs IH]; intros right_page Hfree.
  - exists []. cbn. rewrite app_nil_r. split; [reflexivity | constructor].
  - cbn [fold_left map].
    destruct (PageAddItem_at_end right_page
                (lp_item (PageGetItemId left_page off))
                (ItemIdGetLength (PageGetItemId left_page off)) Hfree) as [E|[E1 E2]].
    + rewrite E. destruct (IH right_page Hfree) as (added & H1 & H2).
      exists added. split; [exact H1 | apply sublist_cons; exact H2].
    + destruct (IH _ E2) as (added & H1 & H2).
      exists (normal_copy (PageGetItemId left_page off) :: added).
      rewrite H1, E1, <- app_assoc. split; [reflexivity|].
      apply sublist_skip. exact H2.
Qed.

(** X21: a successful merge into a right page without the free-line-pointer
    hint keeps every line pointer of the right page, in place and in order,
    and what it appends are copies of used data items of the left page, in
    their order, each at most once; the right page keeps its flags. *)
Theorem execute_merge_keeps_right_entries rel s left_block right_block s' :
  PageHasFreeLinePointers (page_at s right_block) = false ->
  execute_merge rel left_block right_block s = Return true s' ->
  btpo_flags (page_at s' right_block) = btpo_flags (page_at s right_block) /\
  exists added,
    pd_linp (page_at s' right_block) = pd_linp (page_at s right_block) ++ added /\
    sublist added (map normal_copy (live_data_items (page_at s left_block))).
Proof.
  intros Hfree H. apply execute_merge_inv in H as [[H _]|(_ & _ & H)]; [discriminate H|].
  destruct H as [_ _ _ _ _ _ Hright _ _]. rewrite Hright.
  destruct (right_after_links (page_at s left_block) (page_at s right_block)) as (_ & _ & Hflags).
  split; [exact Hflags|].
  unfold right_after. cbn [pd_linp set_btpo_prev].
  rewrite <- used_offsets_items. apply add_items_appends. exact Hfree.
Qed.

(** A multi-delete of every used slot from [off] on keeps unused slots only. *)
Lemma delete_slots_unused itemnos : forall linp off,
  (forall i item, linp !! i = Some item -> ItemIdIsUsed item = true ->
                  In (off + Z.of_nat i) itemnos) ->
  Forall (fun item => ItemIdIsUsed item = false) (fst (delete_slots off itemnos linp)).
Proof.
  induction linp as [|item rest IH]; intros off Hin; cbn [delete_slots].
  - constructor.
  - specialize (IH (off + 1)).
    destruct (delete_slots (off + 1) itemnos rest) as [kept freed]. cbn [fst] in IH.
    assert (Hkept : Forall (fun item => ItemIdIsUsed item = false) kept).
    { apply IH. intros i item' Hi Hused.
      replace (off + 1 + Z.of_nat i) with (off + Z.of_nat (S i)) by lia.
      apply (Hin (S i) item'); assumption. }
    destruct (existsb (Z.eqb off) itemnos) eqn:E; cbn [fst]; [exact Hkept|].
    constructor; [|exact Hkept].
    destruct (ItemIdIsUsed item) eqn:Hused; [|reflexivity].
    exfalso. specialize (Hin 0%nat item eq_refl Hused).
    replace (off + Z.of_nat 0) with off in Hin by lia.
    assert (existsb (Z.eqb off) itemnos = true) as E'.
    { apply existsb_exists. exists off. split; [exact Hin | apply Z.eqb_refl]. }
    congruence.
Qed.

(** Once the used data items of a page with a high key are deleted, no used
    item is left behind the first line pointer. *)
Lemma multi_delete_data_unused page :
  P_RIGHTMOST page = false ->
  Forall (fun item => ItemIdIsUsed item = false)
    (drop 1 (pd_linp (PageIndexMultiDelete page
                        (used_offsets page (P_FIRSTDATAKEY page)
                           (PageGetMaxOffsetNumber page))))).
Proof.
  intros Hright. unfold P_FIRSTDATAKEY. rewrite Hright.
  set (itemnos := used_offsets page P_FIRSTKEY (PageGetMaxOffsetNumber page)).
  assert (Hin : forall i item, drop 1 (pd_linp page) !! i = Some item ->
                               ItemIdIsUsed item = true ->
                               In (2 + Z.of_nat i) itemnos).
  { intros i item Hi Hused. rewrite lookup_drop in Hi.
    unfold itemnos, used_offsets. apply filter_In. split.
    - unfold offsets_from_to, P_FIRSTKEY. apply in_map_iff. exists i. split; [reflexivity|].
      apply in_seq. apply lookup_lt_Some in Hi.
      rewrite PageGetMaxOffsetNumber_length. lia.
    - unfold PageGetItemId.
      replace (Z.to_nat (2 + Z.of_nat i - 1)) with (1 + i)%nat by lia.
      rewrite (nth_lookup_Some _ _ _ _ Hi). exact Hused. }
  unfold PageIndexMultiDelete, FirstOffsetNumber.
  destruct (pd_linp page) as [|hikey data] eqn:Elinp.
  - cbn. constructor.
  - cbn [delete_slots].
    pose proof (delete_slots_unused itemnos data (1 + 1) Hin) as Hkept.
    destruct (delete_slots (1 + 1) itemnos data) as [kept freed]. cbn [fst] in Hkept.
    destruct (existsb (Z.eqb 1) itemnos); cbn [set_linp pd_linp].
    + apply Forall_drop. exact Hkept.
    + exact Hkept.
Qed.

(** Setting the dummy high key puts no used item behind the first line
    pointer. *)
Lemma set_dummy_high_key_data page :
  Forall (fun item => ItemIdIsUsed item = false) (drop 1 (pd_linp page)) ->
  Forall (fun item => ItemIdIsUsed item = false)
    (drop 1 (pd_linp (set_dummy_high_key page))).
Proof.
  intros Hdata. unfold set_dummy_high_key.
  destruct (_ && _) eqn:Hcond.
  - unfold PageIndexTupleOverwrite. destruct (_ <? _); cbn [fst]; [exact Hdata|].
    cbn [set_linp pd_linp]. unfold P_HIKEY. change (Z.to_nat (1 - 1)) with 0%nat.
    destruct (pd_linp page); exact Hdata.
  - unfold PageAddItem. unfold P_HIKEY in *. change (negb (1 =? InvalidOffsetNumber)) with true.
    cbv iota beta.
    rewrite PageGetMaxOffsetNumber_length in *.
    assert (Hlimit : (Z.of_nat (length (pd_linp page)) + 1 <? 1) = false)
      by (apply Z.ltb_ge; lia).
    rewrite Hlimit.
    assert (Hshuffle : (1 =? Z.of_nat (length (pd_linp page)) + 1)
                       || (1 <? Z.of_nat (length (pd_linp page)) + 1) = true).
    { destruct (Z.eqb_spec 1 (Z.of_nat (length (pd_linp page)) + 1)); [reflexivity|].
      apply Z.ltb_lt. lia. }
    rewrite Hshuffle. clear Hlimit Hshuffle.
    destruct (pd_upper page - _ <? _); cbn [fst]; [exact Hdata|].
    cbn [set_linp pd_linp]. change (Z.to_nat (1 - 1)) with 0%nat.
    cbn [take drop app].
    unfold PageGetItemId in Hcond. change (Z.to_nat (1 - 1)) with 0%nat in Hcond.
    destruct (pd_linp page) as [|hikey data]; [constructor|].
    cbn [drop] in Hdata. cbn [nth length] in Hcond.
    apply andb_false_iff in Hcond as [Hcond|Hcond].
    + apply Z.leb_gt in Hcond. lia.
    + constructor; assumption.
Qed.

Lemma filter_unused (items : list ItemId) :
  Forall (fun item => ItemIdIsUsed item = false) items ->
  List.filter ItemIdIsUsed items = [].
Proof.
  induction 1 as [|item items Hitem _ IH]; [reflexivity|].
  cbn [List.filter]. rewrite Hitem. exact IH.
Qed.

(** X22: after a successful merge the left page, if it had a right link,
    holds no used data item: what is left behind its high key are unused
    line pointers. *)
Theorem execute_merge_empties_left_page rel s left_block right_block s' :
  P_RIGHTMOST (page_at s left_block) = false ->
  execute_merge rel left_block right_block s = Return true s' ->
  live_data_items (page_at s' left_block) = [].
Proof.
  intros Hright H. apply execute_merge_inv in H as [[H _]|(_ & _ & H)]; [discriminate H|].
  destruct H as [_ _ _ _ _ Hleft _ _ _]. rewrite Hleft.
  destruct (left_after_links (page_at s left_block)) as (_ & Hnext & _).
  unfold live_data_items, P_FIRSTDATAKEY, P_RIGHTMOST in *. rewrite Hnext, Hright.
  change (Z.to_nat (P_FIRSTKEY - 1)) with 1%nat.
  unfold left_after. cbv zeta. cbn [pd_linp set_btpo_cycleid].
  apply filter_unused, set_dummy_high_key_data. cbn [pd_linp set_btpo_flags].
  apply (multi_delete_data_unused _ Hright).
Qed.

(** X23: a merge is not repeated: called again for the same two pages in the
    state a successful merge left, by a caller that holds no buffer lock,
    [execute_merge] finds the left page half-dead, returns [false] and
    changes nothing. *)
Theorem execute_merge_not_repeated rel s left_block right_block s' :
  st_held s = [] ->
  execute_merge rel left_block right_block s = Return true s' ->
  execute_merge rel left_block right_block s' = Return false s'.
Proof.
  intros Hheld H. apply execute_merge_inv in H as [[H _]|(_ & Hready & H)]; [discriminate H|].
  destruct Hready as [_ [Hl _] [Hr _] _ _ _ _ _].
  destruct H as [Hheld' _ _ _ Hlen Hleft _ _ _].
  apply execute_merge_abort.
  - rewrite Hheld'. exact Hheld.
  - unfold readable in *. rewrite Hlen. exact Hl.
  - unfold readable in *. rewrite Hlen. exact Hr.
  - apply left_unfit. unfold unfit, P_ISHALFDEAD. rewrite Hleft.
    destruct (left_after_links (page_at s left_block)) as (_ & _ & Hflags & _).
    destruct (half_dead_flags (btpo_flags (page_at s left_block))) as (F & _).
    rewrite Hflags, F. apply orb_true_r.
Qed.

(** ** Counting entries *)

Lemma live_entry_count_weights s : live_entry_count s = total_weight (st_pages s).
Proof.
  unfold live_entry_count, total_weight.
  induction (st_pages s) as [|page pages IH]; [reflexivity|].
  cbn [fold_right]. rewrite IH. unfold entry_weight.
  destruct (_ && _); lia.
Qed.

Lemma total_weight_insert pages i page old :
  pages !! i = Some old ->
  total_weight (<[i := page]> pages)
  = total_weight pages + entry_weight page - entry_weight old.
Proof.
  unfold total_weight.
  revert i. induction pages as [|p pages IH]; intros [|i] H; try discriminate H.
  - injection H as ->. cbn. lia.
  - change (<[S i := page]> (p :: pages)) with (p :: <[i := page]> pages).
    change ((p :: pages) !! S i) with (pages !! i) in H.
    cbn [fold_right]. rewrite (IH i H). lia.
Qed.

Lemma lookup_page_at s b :
  readable s b = true -> st_pages s !! Z.to_nat b = Some (page_at s b).
Proof.
  intros H. apply readable_bounds in H as [H _].
  destruct (lookup_lt_is_Some_2 _ _ H) as [p Hp].
  unfold page_at. rewrite (nth_lookup_Some _ _ _ _ Hp). exact Hp.
Qed.

Lemma lookup_nth_page s i :
  (i < length (st_pages s))%nat -> st_pages s !! i = Some (page_at s (Z.of_nat i)).
Proof.
  intros H. destruct (lookup_lt_is_Some_2 _ _ H) as [p Hp].
  unfold page_at. rewrite Nat2Z.id, (nth_lookup_Some _ _ _ _ Hp). exact Hp.
Qed.

(** The loop of lines 826-858 when every copy finds room. *)
Lemma add_items_linp left_page offs right_page :
  PageHasFreeLinePointers right_page = false ->
  all_fit (pd_upper right_page - pd_lower right_page)
          (map (PageGetItemId left_page) offs) = true ->
  pd_linp (add_items left_page offs right_page)
  = pd_linp right_page ++ map normal_copy (map (PageGetItemId left_page) offs).
Proof.
  unfold add_items. revert right_page.
  induction offs as [|off offs IH]; intros right_page Hfree Hfit.
  - cbn. rewrite app_nil_r. reflexivity.
  - cbn [map all_fit] in Hfit. apply andb_prop in Hfit as [Hfit1 Hfit].
    apply Z.leb_le in Hfit1. unfold footprint in Hfit1, Hfit.
    cbn [fold_left map].
    set (itemid := PageGetItemId left_page off) in *.
    rewrite PageAddItem_append by (assumption || lia).
    rewrite IH.
    + unfold set_linp. cbn [pd_linp]. rewrite <- app_assoc. reflexivity.
    + exact Hfree.
    + unfold pd_lower, set_linp in *. cbn [pd_linp pd_upper].
      rewrite length_app. cbn [length].
      replace (pd_upper right_page - MAXALIGN (ItemIdGetLength itemid) -
               (SizeOfPageHeaderData +
                sizeof_ItemIdData * Z.of_nat (length (pd_linp right_page) + 1)))
        with (pd_upper right_page -
              (SizeOfPageHeaderData + sizeof_ItemIdData * Z.of_nat (length (pd_linp right_page))) -
              (MAXALIGN (ItemIdGetLength itemid) + sizeof_ItemIdData))
        by (unfold sizeof_ItemIdData; lia).
      exact Hfit.
Qed.

Lemma filter_used_copies items :
  List.filter ItemIdIsUsed (map normal_copy items) = map normal_copy items.
Proof. induction items as [|x items IH]; [reflexivity|]. cbn. rewrite IH. reflexivity. Qed.

(** The used data items of the right page after a merge in which every copy
    found room: its own, then the copies. *)
Lemma right_after_items left_page right_page :
  PageHasFreeLinePointers right_page = false ->
  all_fit (pd_upper right_page - pd_lower right_page) (live_data_items left_page) = true ->
  has_high_key right_page ->
  live_data_items (right_after left_page right_page)
  = live_data_items right_page ++ map normal_copy (live_data_items left_page).
Proof.
  intros Hfree Hfit Hkey.
  destruct (right_after_links left_page right_page) as (_ & Hnext & _).
  unfold live_data_items at 1.
  replace (P_FIRSTDATAKEY (right_after left_page right_page)) with (P_FIRSTDATAKEY right_page)
    by (unfold P_FIRSTDATAKEY, P_RIGHTMOST; rewrite Hnext; reflexivity).
  unfold right_after. cbn [pd_linp set_btpo_prev].
  rewrite add_items_linp, used_offsets_items by (rewrite ?used_offsets_items; assumption).
  rewrite drop_app_le.
  - rewrite List.filter_app, filter_used_copies. reflexivity.
  - unfold P_FIRSTDATAKEY, P_HIKEY, P_FIRSTKEY.
    unfold has_high_key in Hkey.
    destruct (P_RIGHTMOST right_page) eqn:Hrm; [cbn; lia|].
    specialize (Hkey eq_refl). destruct (pd_linp right_page); [contradiction|]. cbn. lia.
Qed.

Lemma entry_weight_fit page :
  unfit page = false -> entry_weight page = Z.of_nat (length (live_data_items page)).
Proof.
  unfold unfit, entry_weight. intros H.
  apply orb_false_elim in H as [H Hhd]. apply orb_false_elim in H as [H Hdel].
  apply orb_false_elim in H as [_ Hleaf]. apply negb_false_iff in Hleaf.
  rewrite Hleaf, Hhd, Hdel. reflexivity.
Qed.

Lemma entry_weight_left_after page : entry_weight (left_after page) = 0.
Proof.
  unfold entry_weight.
  destruct (left_after_links page) as (_ & _ & Hflags & _).
  destruct (half_dead_flags (btpo_flags page)) as (Hhd & _).
  unfold P_ISHALFDEAD at 1. rewrite Hflags, Hhd.
  rewrite andb_false_r. reflexivity.
Qed.

Lemma entry_weight_relinked page next :
  btpo_next page <> P_NONE -> next <> P_NONE ->
  entry_weight (set_btpo_next page next) = entry_weight page.
Proof.
  intros H1 H2. apply Z.eqb_neq in H1, H2.
  unfold entry_weight, live_data_items, P_FIRSTDATAKEY, P_RIGHTMOST,
    P_ISLEAF, P_ISHALFDEAD, P_ISDELETED.
  cbn [set_btpo_next btpo_next btpo_flags pd_linp]. rewrite H1, H2. reflexivity.
Qed.

(** The pages after a merge, by position. *)
Lemma merged_pages rel s l r s' :
  l <> BTREE_METAPAGE -> r <> BTREE_METAPAGE ->
  merge_ready s l r -> merged rel s l r s' ->
  let leftsib := btpo_prev (page_at s l) in
  st_pages s'
  = <[Z.to_nat l := left_after (page_at s l)]>
      (<[Z.to_nat r := right_after (page_at s l) (page_at s r)]>
         (<[Z.to_nat leftsib := page_at s' leftsib]> (st_pages s))).
Proof.
  intros Hl0 Hr0 Hready Hm leftsib.
  destruct Hready as [Hne [Hl _] [Hr _] _ _ Hsib _ _].
  destruct Hm as [_ _ _ _ Hlen Hleft Hright _ Hothers].
  pose proof (readable_nonneg _ _ Hl) as Hl1.
  pose proof (readable_nonneg _ _ Hr) as Hr1.
  pose proof (proj1 (readable_bounds _ _ Hl)) as Hl2.
  pose proof (proj1 (readable_bounds _ _ Hr)) as Hr2.
  assert (Hs : 0 <= leftsib /\ leftsib <> l /\ leftsib <> r).
  { destruct (Z.eq_dec leftsib P_NONE) as [E|E].
    - rewrite E. unfold P_NONE, BTREE_METAPAGE in *. lia.
    - destruct (Hsib E) as (H1 & H2 & H3 & _).
      split; [exact (readable_nonneg _ _ H1)|]. split; assumption. }
  destruct Hs as (Hs0 & Hsl & Hsr).
  apply list_eq. intros i.
  destruct (lt_dec i (length (st_pages s))) as [Hi|Hi].
  2: { rewrite !lookup_ge_None_2; [reflexivity | rewrite ?length_insert; lia | lia]. }
  rewrite lookup_nth_page by lia.
  destruct (decide (i = Z.to_nat l)) as [->|Hil].
  { rewrite list_lookup_insert_eq by (rewrite !length_insert; exact Hi).
    rewrite Z2Nat.id by exact Hl1. rewrite Hleft. reflexivity. }
  rewrite list_lookup_insert_ne by (intros E; apply Hil; symmetry; exact E).
  destruct (decide (i = Z.to_nat r)) as [->|Hir].
  { rewrite list_lookup_insert_eq by (rewrite !length_insert; exact Hi).
    rewrite Z2Nat.id by exact Hr1. rewrite Hright. reflexivity. }
  rewrite list_lookup_insert_ne by (intros E; apply Hir; symmetry; exact E).
  destruct (decide (i = Z.to_nat leftsib)) as [->|Hils].
  { rewrite list_lookup_insert_eq by exact Hi.
    rewrite Z2Nat.id by exact Hs0. reflexivity. }
  rewrite list_lookup_insert_ne by (intros E; apply Hils; symmetry; exact E).
  rewrite lookup_nth_page by exact Hi. f_equal.
  apply Hothers; [lia | lia | lia |].
  unfold left_sibling. fold leftsib. destruct (leftsib =? P_NONE); [intros []|].
  intros [E|[]]. apply Hils. lia.
Qed.

(** X7: when neither page is the metapage, the right page carries no
    free-line-pointer hint and holds its high key if it is not rightmost,
    and every copy finds room for its aligned tuple and its line pointer, a
    successful merge keeps the number of live entries on the leaf pages that
    are neither half-dead nor deleted. *)
Theorem execute_merge_keeps_entries rel s left_block right_block s' :
  left_block <> BTREE_METAPAGE -> right_block <> BTREE_METAPAGE ->
  PageHasFreeLinePointers (page_at s right_block) = false ->
  has_high_key (page_at s right_block) ->
  all_fit (pd_upper (page_at s right_block) - pd_lower (page_at s right_block))
          (live_data_items (page_at s left_block)) = true ->
  execute_merge rel left_block right_block s = Return true s' ->
  live_entry_count s' = live_entry_count s.
Proof.
  intros Hl0 Hr0 Hfree Hkey Hfit H.
  apply execute_merge_inv in H as [[H _]|(_ & Hready & Hm)]; [discriminate H|].
  rewrite !live_entry_count_weights.
  rewrite (merged_pages rel s left_block right_block s' Hl0 Hr0 Hready Hm).
  set (leftsib := btpo_prev (page_at s left_block)).
  destruct Hready as [Hne [Hl Hlfit] [Hr Hrfit] _ _ Hsib _ _].
  assert (Hs : readable s leftsib = true /\ leftsib <> left_block /\ leftsib <> right_block /\
               entry_weight (page_at s' leftsib) = entry_weight (page_at s leftsib)).
  { destruct Hm as [_ _ _ _ _ _ _ Hrelink Hothers].
    destruct (Z.eq_dec leftsib P_NONE) as [E|E].
    - assert (0 < left_block /\ 0 < right_block) as [? ?].
      { pose proof (readable_nonneg _ _ Hl). pose proof (readable_nonneg _ _ Hr).
        unfold BTREE_METAPAGE in *. lia. }
      rewrite E. repeat split.
      + apply readable_bounds in Hl. unfold readable, P_NONE.
        apply andb_true_intro. split; [apply Z.leb_le | apply Z.ltb_lt]; lia.
      + unfold P_NONE. lia.
      + unfold P_NONE. lia.
      + rewrite Hothers; [reflexivity | unfold P_NONE; lia | unfold P_NONE; lia
                          | unfold P_NONE; lia |].
        unfold left_sibling. fold leftsib. rewrite E. intros [].
    - destruct (Hsib E) as (H1 & H2 & H3 & H4). repeat split; try assumption.
      unfold leftsib in *. rewrite (Hrelink E). apply entry_weight_relinked.
      + rewrite H4. exact Hl0.
      + exact Hr0. }
  destruct Hs as (Hs & Hsl & Hsr & Hsw).
  pose proof (readable_nonneg _ _ Hl) as Hl1.
  pose proof (readable_nonneg _ _ Hr) as Hr1.
  pose proof (readable_nonneg _ _ Hs) as Hs1.
  rewrite (total_weight_insert _ _ _ (page_at s left_block)).
  2: { rewrite !list_lookup_insert_ne by lia. apply lookup_page_at. exact Hl. }
  rewrite (total_weight_insert _ _ _ (page_at s right_block)).
  2: { rewrite !list_lookup_insert_ne by lia. apply lookup_page_at. exact Hr. }
  rewrite (total_weight_insert _ _ _ (page_at s leftsib)) by (apply lookup_page_at; exact Hs).
  rewrite entry_weight_left_after, Hsw.
  rewrite (entry_weight_fit _ Hlfit), (entry_weight_fit _ Hrfit).
  assert (Hw : entry_weight (right_after (page_at s left_block) (page_at s right_block))
               = Z.of_nat (length (live_data_items (page_at s right_block)))
                 + Z.of_nat (length (live_data_items (page_at s left_block)))).
  { unfold entry_weight.
    destruct (right_after_links (page_at s left_block) (page_at s right_block))
      as (_ & _ & Hflags).
    unfold unfit in Hrfit.
    apply orb_false_elim in Hrfit as [Hrfit Hhd]. apply orb_false_elim in Hrfit as [Hrfit Hdel].
    apply orb_false_elim in Hrfit as [_ Hleaf]. apply negb_false_iff in Hleaf.
    unfold P_ISLEAF, P_ISHALFDEAD, P_ISDELETED in *.
    rewrite Hflags, Hleaf, Hhd, Hdel. cbn [andb negb].
    rewrite right_after_items by assumption.
    rewrite length_app, length_map. lia. }
  rewrite Hw. lia.
Qed.

(** ** Every return of the analysis *)

Lemma descend_to_leaf_inv fuel : forall blkno s,
  match descend_to_leaf fuel blkno s with
  | Next _ _ => False
  | Return leaf s' => s' = s /\ leaf_found s leaf
  | Raise _ _ | Blocked _ | OutOfFuel => True
  end.
Proof.
  induction fuel as [|fuel IH]; intros blkno s; [exact I|].
  cbn [descend_to_leaf]. run. rewrite !unhold_hold.
  repeat (split_if; try exact I); try (split; [reflexivity|]).
  - left. reflexivity.
  - right. apply orb_false_elim in Heqb1 as [? ?]. auto.
  - left. reflexivity.
  - left. reflexivity.
  - left. reflexivity.
  - apply IH.
Qed.

Lemma find_leftmost_leaf_inv fuel s :
  match find_leftmost_leaf fuel s with
  | Next _ _ => False
  | Return leaf s' => s' = s /\ leaf_found s leaf
  | Raise _ _ | Blocked _ | OutOfFuel => True
  end.
Proof.
  unfold find_leftmost_leaf. run. rewrite !unhold_hold.
  repeat (split_if; try exact I).
  - split; [reflexivity | left; reflexivity].
  - apply descend_to_leaf_inv.
Qed.

Lemma blockno_analyze_page blkno page : blockno (analyze_page blkno page) = blkno.
Proof. unfold analyze_page. destruct (sum_item_sizes _ _ _). reflexivity. Qed.

Lemma scan_leaf_pages_inv {R} fuel num_pages s : forall blkno pages,
  match scan_leaf_pages (R := R) fuel num_pages blkno pages s with
  | Next pages' s' =>
      s' = s /\
      (exists more, pages' = pages ++ more /\ Forall (scanned s) more) /\
      Z.of_nat (length pages') <= Z.max (Z.of_nat (length pages)) num_pages
  | Return _ _ => False
  | Raise _ _ | Blocked _ | OutOfFuel => True
  end.
Proof.
  assert (Hstop : forall pages : list PageAnalysis,
            pages = pages /\
            (exists more, pages = pages ++ more /\ Forall (scanned s) more) /\
            Z.of_nat (length pages) <= Z.max (Z.of_nat (length pages)) num_pages).
  { intros pages. split; [reflexivity|]. split; [|lia].
    exists []. rewrite app_nil_r. split; [reflexivity | constructor]. }
  induction fuel as [|fuel IH]; intros blkno pages; [exact I|].
  cbn [scan_leaf_pages]. cbv zeta.
  destruct (negb _ && _) eqn:Hcond; cbn [negb].
  2: { split; [reflexivity|]. apply Hstop. }
  apply andb_prop in Hcond as [Hnone Hcap].
  apply negb_true_iff, Z.eqb_neq in Hnone. apply Z.ltb_lt in Hcap.
  repeat (run; rewrite ?if_apply). rewrite !unhold_hold.
  repeat (split_if; try exact I); try (split; [reflexivity | apply Hstop]).
  - apply IH.
  - apply IH.
  - specialize (IH (btpo_next (page_at s blkno)) (pages ++ [analyze_page blkno (page_at s blkno)])).
    destruct (scan_leaf_pages _ _ _ _ _) as [pages' s'| | | |]; try exact IH.
    destruct IH as (-> & (more & -> & Hmore) & Hlen).
    split; [reflexivity|]. split.
    + exists (analyze_page blkno (page_at s blkno) :: more).
      rewrite <- app_assoc. split; [reflexivity|]. constructor; [|exact Hmore].
      unfold scanned. rewrite blockno_analyze_page.
      repeat split; try assumption.
      * apply Z.eqb_eq, negb_false_iff. assumption.
      * unfold unfit.
        repeat match goal with
               | E : ?c = _ |- context [?c] => rewrite E
               end. reflexivity.
    + rewrite !length_app in Hlen |- *. cbn [length] in Hlen |- *. lia.
Qed.

Lemma candidate_for_links {R'} pages max_pct_to_merge left_stat s oc s' :
  In left_stat pages ->
  call (R' := R') (candidate_for pages max_pct_to_merge left_stat) s = Next oc s' ->
  s' = s /\ forall c, oc = Some c -> names_siblings s pages c.
Proof.
  intros Hin H. apply call_Next_inv in H.
  unfold candidate_for in H. run_in H. rewrite ?unhold_hold in H.
  destruct H as [H|H].
  - repeat (split_if_in H; try discriminate H);
      try (injection H as <- <-; split; [reflexivity | intros c Hc; discriminate Hc]).
    destruct (find_analysis pages _) as [right_stat|] eqn:Hfind.
    2: { injection H as <- <-. split; [reflexivity | intros c Hc; discriminate Hc]. }
    run_in H.
    repeat (split_if_in H; try discriminate H);
      try (injection H as <- <-; split; [reflexivity | intros c Hc; discriminate Hc]).
    injection H as <- <-. split; [reflexivity|].
    intros c Hc. injection Hc as <-.
    apply find_some in Hfind as [Hrin Hrb]. apply Z.eqb_eq in Hrb.
    unfold names_siblings. cbn [left_page right_page]. rewrite Hrb.
    repeat split.
    + apply Z.eqb_neq. assumption.
    + exists left_stat. split; [exact Hin | reflexivity].
    + exists right_stat. split; [exact Hrin | exact Hrb].
  - repeat (split_if_in H; try discriminate H).
    destruct (find_analysis pages _) as [right_stat|] eqn:Hfind; [|discriminate H].
    run_in H.
    repeat (split_if_in H; try discriminate H).
Qed.

Lemma find_candidates_inv {R} pages max_pct_to_merge s : forall todo merge_candidates,
  (forall p, In p todo -> In p pages) ->
  match find_candidates (R := R) pages todo max_pct_to_merge merge_candidates s with
  | Next merge_candidates' s' =>
      s' = s /\
      exists more, merge_candidates' = merge_candidates ++ more /\
                   Forall (names_siblings s pages) more /\
                   (length more <= length todo)%nat
  | Return _ _ => False
  | Raise _ _ | Blocked _ | OutOfFuel => True
  end.
Proof.
  induction todo as [|left_stat todo IH]; intros merge_candidates Hsub.
  - cbn. split; [reflexivity|]. exists []. rewrite app_nil_r.
    split; [reflexivity|]. split; [constructor | reflexivity].
  - cbn [find_candidates]. unfold bind at 1.
    destruct (call _ s) as [oc s1|r s1| | |] eqn:Hcall; try exact I.
    2: { exact (call_not_Return _ _ _ _ Hcall). }
    apply candidate_for_links in Hcall as [-> Hoc]; [|apply Hsub; left; reflexivity].
    match goal with
    | |- match find_candidates _ _ _ ?acc _ with _ => _ end => specialize (IH acc)
    end.
    destruct (find_candidates _ _ _ _ _) as [cands' s'| | | |];
      try (apply IH; intros p Hp; apply Hsub; right; exact Hp).
    destruct IH as (-> & more & -> & Hmore & Hlen);
      [intros p Hp; apply Hsub; right; exact Hp|].
    split; [reflexivity|].
    destruct oc as [c|].
    + exists (c :: more). rewrite <- app_assoc. split; [reflexivity|].
      split; [constructor; [apply Hoc; reflexivity | exact Hmore] | cbn; lia].
    + exists more. split; [reflexivity|]. split; [exact Hmore | cbn; lia].
Qed.

Lemma call_inv {R R'} (f : Stmt R R) (s : State) :
  match call (R' := R') f s with
  | Next r s' => f s = Return r s' \/ f s = Next r s'
  | Return _ _ => False
  | Raise _ _ | Blocked _ | OutOfFuel => True
  end.
Proof. unfold call. destruct (f s); auto. Qed.

Lemma analysed_nil s : analysed s [].
Proof. exists []. repeat split; try constructor. cbn. lia. Qed.

Lemma analyze_index_pages_outcome fuel max_pct_to_merge s :
  match analyze_index_pages fuel max_pct_to_merge s with
  | Next _ _ => False
  | Return merge_candidates s' => s' = s /\ analysed s merge_candidates
  | Raise _ _ | Blocked _ | OutOfFuel => True
  end.
Proof.
  unfold analyze_index_pages. rewrite run_nblocks, run_when.
  destruct (_ <=? 1); [split; [reflexivity | apply analysed_nil]|].
  unfold bind at 1.
  pose proof (call_inv (R' := list MergeCandidate) (find_leftmost_leaf fuel) s) as Hcall.
  destruct (call (find_leftmost_leaf fuel) s) as [leaf s1| | | |]; try exact I; try contradiction.
  assert (s1 = s) as ->.
  { pose proof (find_leftmost_leaf_inv fuel s) as Hleaf.
    destruct Hcall as [E|E]; rewrite E in Hleaf; [apply Hleaf | contradiction]. }
  rewrite run_when.
  destruct (leaf =? P_NONE); [split; [reflexivity | apply analysed_nil]|].
  unfold bind at 1.
  pose proof (scan_leaf_pages_inv (R := list MergeCandidate) fuel
                (Z.of_nat (length (st_pages s))) s leaf []) as Hscan.
  destruct (scan_leaf_pages _ _ _ _ _) as [pages s1| | | |]; try exact I; try contradiction.
  destruct Hscan as (-> & (more & Hpages & Hmore) & Hlen).
  cbn [app] in Hpages. subst more.
  unfold bind at 1.
  pose proof (find_candidates_inv (R := list MergeCandidate) pages max_pct_to_merge s
                pages [] (fun p Hp => Hp)) as Hfind.
  destruct (find_candidates _ _ _ _ _) as [cands s1| | | |]; try exact I; try contradiction.
  destruct Hfind as (-> & more & Hcands & Hsib & Hcount).
  cbn [app] in Hcands. subst more.
  split; [reflexivity|].
  exists pages. repeat split; assumption.
Qed.

Lemma analyze_index_pages_inv {R'} fuel max_pct_to_merge s merge_candidates s' :
  call (R' := R') (analyze_index_pages fuel max_pct_to_merge) s = Next merge_candidates s' ->
  s' = s /\ analysed s merge_candidates.
Proof.
  intros H. pose proof (analyze_index_pages_outcome fuel max_pct_to_merge s) as Ho.
  apply call_Next_inv in H as [H|H]; rewrite H in Ho; [exact Ho | contradiction].
Qed.

Lemma scanned_block s pages blkno :
  Forall (scanned s) pages ->
  (exists stat, In stat pages /\ blockno stat = blkno) ->
  readable s blkno = true /\ unfit (page_at s blkno) = false.
Proof.
  intros Hpages (stat & Hin & <-).
  destruct (proj1 (List.Forall_forall _ _) Hpages stat Hin) as (_ & _ & Hr & _ & Hfit).
  split; assumption.
Qed.

(** ** What the analysis guarantees to its caller *)

(** X10: when [find_leftmost_leaf] comes back it has changed nothing, and
    the block it returns is [P_NONE] or a block of the relation holding an
    initialised leaf page that is not deleted. *)
Theorem find_leftmost_leaf_finds_leaf {R'} fuel s leaf s' :
  call (R' := R') (find_leftmost_leaf fuel) s = Next leaf s' ->
  s' = s /\ leaf_found s leaf.
Proof.
  intros H. pose proof (find_leftmost_leaf_inv fuel s) as Hinv.
  apply call_Next_inv in H as [H|H]; rewrite H in Hinv; [exact Hinv | contradiction].
Qed.

(** X12: the scan ends its loop with the state it started in; it appends to
    the array, leaving the entries it was given, only statistics of live
    leaf pages of the relation (initialised, of the block size, leaf,
    neither deleted nor half-dead), and never makes the array longer than
    [num_pages], the size it was allocated with. *)
Theorem scan_leaf_pages_stays_in_array {R} fuel num_pages blkno pages s pages' s' :
  scan_leaf_pages (R := R) fuel num_pages blkno pages s = Next pages' s' ->
  s' = s /\
  (exists more, pages' = pages ++ more /\ Forall (scanned s) more) /\
  Z.of_nat (length pages') <= Z.max (Z.of_nat (length pages)) num_pages.
Proof.
  intros H. pose proof (scan_leaf_pages_inv (R := R) fuel num_pages s blkno pages) as Hinv.
  rewrite H in Hinv. exact Hinv.
Qed.

(** X13: the analysis reads only: when [analyze_index_pages] comes back, the
    pages, the buffer locks held, the dirty marks and the log are those of
    the call. *)
Theorem analyze_index_pages_reads_only {R'} fuel max_pct_to_merge s merge_candidates s' :
  call (R' := R') (analyze_index_pages fuel max_pct_to_merge) s = Next merge_candidates s' ->
  s' = s.
Proof. intros H. apply analyze_index_pages_inv in H as [H _]. exact H. Qed.

(** X14: every candidate the analysis emits names two blocks of the
    relation that hold live leaf pages (initialised, leaf, neither deleted
    nor half-dead), the right one being the block the left page's right link
    names; there are no more candidates than blocks. *)
Theorem candidates_name_live_siblings {R'} fuel max_pct_to_merge s merge_candidates s' :
  call (R' := R') (analyze_index_pages fuel max_pct_to_merge) s = Next merge_candidates s' ->
  Forall (live_siblings s) merge_candidates /\
  Z.of_nat (length merge_candidates) <= Z.of_nat (length (st_pages s)).
Proof.
  intros H. apply analyze_index_pages_inv in H as [_ (pages & Hpages & Hlen & Hsib & Hcount)].
  split; [|lia].
  apply List.Forall_forall. intros c Hc.
  destruct (proj1 (List.Forall_forall _ _) Hsib c Hc) as (Hnext & Hnone & Hleft & Hright).
  destruct (scanned_block s pages _ Hpages Hleft) as [Hl1 Hl2].
  destruct (scanned_block s pages _ Hpages Hright) as [Hr1 Hr2].
  unfold live_siblings. auto 10.
Qed.

(** ** Termination of the analysis *)

Lemma descend_to_leaf_step fuel s blkno :
  descends s blkno ->
  descend_to_leaf (S fuel) blkno s
  = descend_to_leaf fuel (first_downlink (page_at s blkno)) s.
Proof.
  intros (H1 & H2 & H3 & H4 & H5 & H6 & H7 & H8).
  cbn [descend_to_leaf]. run. rewrite H1, H2, H3, H4, H5. cbn [orb].
  rewrite (proj2 (Z.ltb_ge _ _) H6), H7. cbn [negb].
  unfold BlockNumberIsValid. fold (first_downlink (page_at s blkno)).
  rewrite (proj2 (Z.eqb_neq _ _) H8). cbn [negb].
  rewrite unhold_hold. reflexivity.
Qed.

Lemma descend_to_leaf_ends fuel s :
  st_held s = [] ->
  levels_decrease s ->
  forall blkno,
    (Z.to_nat (btpo_level (page_at s blkno)) < fuel)%nat ->
    comes_back (descend_to_leaf fuel blkno s).
Proof.
  intros Hheld Hlevels. induction fuel as [|fuel IH]; intros blkno Hfuel; [lia|].
  cbn [descend_to_leaf]. run. rewrite !unhold_hold. simpl_conflicts Hheld.
  repeat (split_if; try exact I).
  fold (first_downlink (page_at s blkno)).
  apply IH.
  match goal with
  | E : readable s blkno = true, L : P_ISLEAF (page_at s blkno) = false,
    D : (_ <? _) = false |- _ =>
      apply Z.ltb_ge in D; pose proof (Hlevels blkno E L D)
  end.
  lia.
Qed.

Lemma find_leftmost_leaf_ends fuel s :
  st_held s = [] ->
  levels_decrease s ->
  (Z.to_nat (btpo_level (page_at s (btm_root (page_at s BTREE_METAPAGE)))) < fuel)%nat ->
  comes_back (find_leftmost_leaf fuel s).
Proof.
  intros Hheld Hlevels Hroot.
  unfold find_leftmost_leaf. run. rewrite !unhold_hold. simpl_conflicts Hheld.
  repeat (split_if; try exact I).
  apply descend_to_leaf_ends; assumption.
Qed.

Lemma candidate_for_ends pages max_pct_to_merge left_stat s :
  st_held s = [] ->
  comes_back (candidate_for pages max_pct_to_merge left_stat s).
Proof.
  intros Hheld. unfold candidate_for. run. simpl_conflicts Hheld.
  repeat (split_if; try exact I).
  destruct (find_analysis pages _); [|exact I].
  run. repeat (split_if; try exact I).
Qed.

Lemma find_candidates_ends {R} pages max_pct_to_merge s :
  st_held s = [] ->
  forall todo merge_candidates,
    (forall p, In p todo -> In p pages) ->
    comes_back (find_candidates (R := R) pages todo max_pct_to_merge merge_candidates s).
Proof.
  intros Hheld.
  induction todo as [|left_stat todo IH]; intros merge_candidates Hsub; [exact I|].
  cbn [find_candidates]. unfold bind at 1.
  pose proof (candidate_for_ends pages max_pct_to_merge left_stat s Hheld) as Hends.
  destruct (call _ s) as [oc s1| | | |] eqn:Hcall; try exact I.
  - apply candidate_for_links in Hcall as [-> _]; [|apply Hsub; left; reflexivity].
    apply IH. intros p Hp. apply Hsub. right. exact Hp.
  - unfold call in Hcall. destruct (candidate_for _ _ _ s); try discriminate Hcall.
    contradiction.
  - unfold call in Hcall. destruct (candidate_for _ _ _ s); try discriminate Hcall.
    contradiction.
Qed.

(** Without a deleted or half-dead page every round of the scan stores a
    page or ends it, so the page-count cap bounds the rounds. *)
Lemma scan_leaf_pages_ends {R} (s : State) (num_pages : Z) (fuel : nat) :
  st_held s = [] ->
  all_pages_live s ->
  forall blkno pages,
    Z.max 0 (num_pages - Z.of_nat (length pages)) < Z.of_nat fuel ->
    comes_back (scan_leaf_pages (R := R) fuel num_pages blkno pages s).
Proof.
  intros Hheld Hlive. induction fuel as [|fuel IH]; intros blkno pages Hfuel; [lia|].
  cbn [scan_leaf_pages]. cbv zeta.
  destruct (negb _ && _) eqn:Hcond; cbn [negb]; [|exact I].
  apply andb_prop in Hcond as [_ Hcap]. apply Z.ltb_lt in Hcap.
  destruct (Hlive blkno) as [Hdel Hhd].
  repeat (run; rewrite ?if_apply). rewrite Hdel, Hhd, !unhold_hold. simpl_conflicts Hheld.
  repeat (split_if; try exact I).
  apply IH. rewrite length_app. cbn [length]. lia.
Qed.

(** X15: called by a caller that holds no buffer lock, on an index whose
    levels decrease along the first downlinks and which holds no deleted or
    half-dead page, the analysis ends once its loops may take more rounds
    than the root has levels and the index has blocks: it returns its
    candidates, in the state of the call, or raises an error. *)
Theorem analyze_index_pages_ends fuel max_pct_to_merge s :
  st_held s = [] ->
  levels_decrease s ->
  all_pages_live s ->
  (Z.to_nat (btpo_level (page_at s (btm_root (page_at s BTREE_METAPAGE)))) < fuel)%nat ->
  (length (st_pages s) < fuel)%nat ->
  (exists merge_candidates,
     analyze_index_pages fuel max_pct_to_merge s = Return merge_candidates s) \/
  (exists errcode s', analyze_index_pages fuel max_pct_to_merge s = Raise errcode s').
Proof.
  intros Hheld Hlevels Hlive Hroot Hblocks.
  assert (Hback : comes_back (analyze_index_pages fuel max_pct_to_merge s)).
  { unfold analyze_index_pages. rewrite run_nblocks, run_when.
    destruct (_ <=? 1); [exact I|].
    unfold bind at 1.
    pose proof (find_leftmost_leaf_inv fuel s) as Hinv.
    pose proof (find_leftmost_leaf_ends fuel s Hheld Hlevels Hroot) as Hleaf.
    unfold call at 1.
    destruct (find_leftmost_leaf fuel s) as [leaf s1|leaf s1| | |];
      try exact I; try contradiction.
    destruct Hinv as [-> _].
    rewrite run_when. destruct (leaf =? P_NONE); [exact I|].
    unfold bind at 1.
    pose proof (scan_leaf_pages_inv (R := list MergeCandidate) fuel
                  (Z.of_nat (length (st_pages s))) s leaf []) as Hscan.
    pose proof (scan_leaf_pages_ends (R := list MergeCandidate) s
                  (Z.of_nat (length (st_pages s))) fuel Hheld Hlive leaf []) as Hends.
    cbn [length] in Hends. specialize (Hends ltac:(lia)).
    destruct (scan_leaf_pages _ _ _ _ _) as [pages s1| | | |];
      try exact I; try contradiction.
    destruct Hscan as (-> & _).
    unfold bind at 1.
    pose proof (find_candidates_ends (R := list MergeCandidate) pages max_pct_to_merge
                  s Hheld pages [] (fun p Hp => Hp)) as Hfind.
    destruct (find_candidates _ _ _ _ _); try exact I; contradiction. }
  pose proof (analyze_index_pages_outcome fuel max_pct_to_merge s) as Hout.
  destruct (analyze_index_pages fuel max_pct_to_merge s) as [c s'|c s'|e s'|s'|];
    try contradiction.
  - left. exists c. destruct Hout as [-> _]. reflexivity.
  - right. exists e, s'. reflexivity.
Qed.

Lemma descend_to_leaf_never_ends (s : State) (on_path : BlockNumber -> Prop) :
  (forall blkno, on_path blkno ->
                 descends s blkno /\ on_path (first_downlink (page_at s blkno))) ->
  forall fuel blkno, on_path blkno -> descend_to_leaf fuel blkno s = OutOfFuel.
Proof.
  intros Hpath. induction fuel as [|fuel IH]; intros blkno Hon; [reflexivity|].
  destruct (Hpath blkno Hon) as [Hdesc Hnext].
  rewrite descend_to_leaf_step by exact Hdesc. apply IH. exact Hnext.
Qed.

(** X11: when the first downlinks lead from the root through internal pages
    only, again and again, [find_leftmost_leaf] does not come back: no
    number of rounds ends its loop. *)
Theorem find_leftmost_leaf_never_ends (s : State) (on_path : BlockNumber -> Prop) (fuel : nat) :
  readable s BTREE_METAPAGE = true ->
  lock_conflict BT_READ BTREE_METAPAGE (st_held s) = false ->
  btm_root (page_at s BTREE_METAPAGE) <> P_NONE ->
  on_path (btm_root (page_at s BTREE_METAPAGE)) ->
  (forall blkno, on_path blkno ->
                 descends s blkno /\ on_path (first_downlink (page_at s blkno))) ->
  find_leftmost_leaf fuel s = OutOfFuel.
Proof.
  intros Hmeta Hlock Hroot Hon Hpath.
  unfold find_leftmost_leaf. run. rewrite Hmeta, Hlock.
  rewrite (proj2 (Z.eqb_neq _ _) Hroot), unhold_hold.
  apply (descend_to_leaf_never_ends s on_path Hpath). exact Hon.
Qed.

(** ** The statistics of a page *)

(** The two sums over the same offsets, lines 345-352 and 705-714, side by
    side. *)
Lemma sum_item_sizes_bounds page offs : forall used count total,
  Forall (fun offnum => 0 <= lp_len (PageGetItemId page offnum)) offs ->
  total <= used ->
  let counted :=
    fold_left
      (fun '(used_space, item_count) offnum =>
         let itemid := PageGetItemId page offnum in
         let itemsize := MAXALIGN (ItemIdGetLength itemid) in
         (used_space + itemsize, item_count + 1))
      offs (used, count) in
  fold_left
    (fun total_used offnum =>
       let itemid := PageGetItemId page offnum in
       if negb (ItemIdIsUsed itemid) then total_used
       else total_used + MAXALIGN (ItemIdGetLength itemid))
    offs total <= fst counted /\
  snd counted = count + Z.of_nat (length offs).
Proof.
  induction offs as [|off offs IH]; intros used count total Hlen Hle; cbv zeta.
  - cbn. lia.
  - inversion Hlen as [|? ? Hoff Hrest]; subst.
    cbn [fold_left length].
    pose proof (MAXALIGN_bounds (ItemIdGetLength (PageGetItemId page off))) as Hb.
    unfold ItemIdGetLength in Hb.
    edestruct IH as [IH1 IH2];
      [ exact Hrest | | split; [exact IH1 | etransitivity; [exact IH2 | lia]] ].
    unfold ItemIdGetLength. destruct (negb _); lia.
Qed.

(** X16: the analyser counts every line pointer after the high key, used or
    not, so on a page whose item lengths are not negative its [used_space]
    is at least the bytes the executor adds up for the page in its capacity
    check, and its [item_count] is the number of those line pointers, at
    least the number of used data items. *)
Theorem analyze_page_overestimates blkno page :
  Forall (fun itemid => 0 <= lp_len itemid) (pd_linp page) ->
  live_data_size page <= used_space (analyze_page blkno page) /\
  Z.of_nat (length (live_data_items page)) <= item_count (analyze_page blkno page).
Proof.
  intros Hlen.
  assert (Hoffs : Forall (fun offnum => 0 <= lp_len (PageGetItemId page offnum))
                    (offsets_from_to (P_FIRSTDATAKEY page) (PageGetMaxOffsetNumber page))).
  { apply List.Forall_forall. intros off _. unfold PageGetItemId.
    destruct (nth_in_or_default (Z.to_nat (off - 1)) (pd_linp page) unused_ItemId) as [Hin | ->].
    - exact (proj1 (List.Forall_forall _ _) Hlen _ Hin).
    - cbn. lia. }
  pose proof (sum_item_sizes_bounds page _ 0 0 0 Hoffs (Z.le_refl 0)) as H.
  cbv zeta in H.
  unfold analyze_page, sum_item_sizes, live_data_size, add_used_sizes.
  destruct (fold_left _ _ (0, 0)) as [used count].
  cbn [used_space item_count]. cbn [fst snd] in H. destruct H as [H1 H2].
  split; [exact H1|]. subst count.
  rewrite <- used_offsets_items. unfold used_offsets. rewrite length_map.
  pose proof (List.filter_length_le
                (fun offnum => ItemIdIsUsed (PageGetItemId page offnum))
                (offsets_from_to (P_FIRSTDATAKEY page) (PageGetMaxOffsetNumber page))).
  lia.
Qed.

(** ** The entry points, whatever they return *)

Lemma relation_unlocked_locked lockmode s :
  relation_unlocked lockmode (relation_locked lockmode s) = s.
Proof.
  destruct s as [pages held rl d w]. unfold relation_unlocked, relation_locked.
  cbn [st_pages st_held st_rel_locks st_dirty st_wal unlock_relation].
  rewrite Z.eqb_refl. reflexivity.
Qed.

Lemma run_index_close {R B} (lockmode : Z) (k : unit -> Stmt R B) (s : State) :
  bind (index_close lockmode) k s = k tt (relation_unlocked lockmode s).
Proof. reflexivity. Qed.

Lemma run_index_open_locked {R B} (lockmode : Z) (k : unit -> Stmt R B) (s : State) :
  bind (index_open lockmode) k s = k tt (relation_locked lockmode s).
Proof. reflexivity. Qed.



(** The argument checks of both entry points, in their order. *)
Lemma valid_call_checks rel max_pct_to_merge rsinfo_ok :
  (max_pct_to_merge <? 1) || (100 <? max_pct_to_merge) = false ->
  negb (rd_relam rel =? BTREE_AM_OID) = false ->
  negb rsinfo_ok = false ->
  valid_call rel max_pct_to_merge rsinfo_ok.
Proof.
  intros H1 H2 H3. apply orb_false_elim in H1 as [H1 H1'].
  apply Z.ltb_ge in H1, H1'. apply negb_false_iff in H2, H3. apply Z.eqb_eq in H2.
  repeat split; assumption.
Qed.


Lemma pg_index_reclaim_analyze_outcome fuel rel max_pct_to_merge rsinfo_ok s :
  match pg_index_reclaim_analyze fuel rel max_pct_to_merge rsinfo_ok s with
  | Next _ _ => False
  | Return rows s' =>
      valid_call rel max_pct_to_merge rsinfo_ok /\ s' = s /\
      exists merge_candidates,
        rows = map analyze_row merge_candidates /\ analysed s merge_candidates
  | Raise _ _ | Blocked _ | OutOfFuel => True
  end.
Proof.
  unfold pg_index_reclaim_analyze.
  rewrite run_when. destruct (_ || _) eqn:H1; [exact I|].
  rewrite run_index_open_locked, run_when. destruct (negb (_ =? _)) eqn:H2; [exact I|].
  rewrite run_when. destruct (negb rsinfo_ok) eqn:H3; [exact I|].
  pose proof (valid_call_checks _ _ _ H1 H2 H3) as Hvalid.
  unfold bind at 1.
  destruct (call (analyze_index_pages fuel max_pct_to_merge) _)
    as [cands s2|r s2| | |] eqn:Hcall; try exact I.
  2: { exfalso. exact (call_not_Return _ _ _ _ Hcall). }
  apply analyze_index_pages_inv in Hcall as [-> Hcands].
  rewrite run_index_close, relation_unlocked_locked.
  split; [exact Hvalid|]. split; [reflexivity|].
  exists cands. split; [reflexivity | exact Hcands].
Qed.

(** X17: with [max_pct_to_merge] in range, both entry points refuse an index
    that is not a B-tree with the wrong-object-type error and, for a B-tree,
    a caller that cannot accept a set with the feature-not-supported error;
    the error is raised with the relation lock of the entry point taken
    ([ShareUpdateExclusiveLock] to execute, [AccessShareLock] to analyze)
    and nothing else done. *)
Theorem entry_points_refuse rel max_pct_to_merge rsinfo_ok fuel s :
  1 <= max_pct_to_merge <= 100 ->
  rd_relam rel <> BTREE_AM_OID \/ rsinfo_ok = false ->
  let e := if rd_relam rel =? BTREE_AM_OID
           then ERRCODE_FEATURE_NOT_SUPPORTED else ERRCODE_WRONG_OBJECT_TYPE in
  pg_index_reclaim_execute fuel rel max_pct_to_merge rsinfo_ok s
    = Raise e (relation_locked ShareUpdateExclusiveLock s) /\
  pg_index_reclaim_analyze fuel rel max_pct_to_merge rsinfo_ok s
    = Raise e (relation_locked AccessShareLock s).
Proof.
  intros Hm Hbad e. subst e.
  assert (Hok : (max_pct_to_merge <? 1) || (100 <? max_pct_to_merge) = false).
  { apply orb_false_intro; apply Z.ltb_ge; lia. }
  unfold pg_index_reclaim_execute, pg_index_reclaim_analyze.
  rewrite !run_when, Hok, !run_index_open_locked, !run_when.
  destruct (Z.eqb_spec (rd_relam rel) BTREE_AM_OID) as [E|E]; cbn [negb].
  - destruct Hbad as [Hbad| ->]; [contradiction|].
    cbn [negb]. split; reflexivity.
  - split; reflexivity.
Qed.

(** X18: on an index of at most one block, or whose metapage names no root,
    a valid call of the execute entry point returns the row (0, 0) and one
    of the analyze entry point returns no row, whatever rounds their loops
    may take; the state is left as it was. *)
Theorem nothing_to_analyze rel max_pct_to_merge rsinfo_ok fuel s :
  valid_call rel max_pct_to_merge rsinfo_ok ->
  Z.of_nat (length (st_pages s)) <= 1 \/
  (lock_conflict BT_READ BTREE_METAPAGE (st_held s) = false /\
   btm_root (page_at s BTREE_METAPAGE) = P_NONE) ->
  pg_index_reclaim_execute fuel rel max_pct_to_merge rsinfo_ok s = Return (0, 0) s /\
  pg_index_reclaim_analyze fuel rel max_pct_to_merge rsinfo_ok s = Return [] s.
Proof.
  intros (Hm & Ham & ->) Hempty.
  assert (Hok : (max_pct_to_merge <? 1) || (100 <? max_pct_to_merge) = false).
  { apply orb_false_intro; apply Z.ltb_ge; lia. }
  assert (Hnone : forall R' lockmode,
            call (R' := R') (analyze_index_pages fuel max_pct_to_merge)
                 (relation_locked lockmode s)
            = Next [] (relation_locked lockmode s)).
  { intros R' lockmode. unfold call, analyze_index_pages.
    rewrite run_nblocks, run_when.
    change (st_pages (relation_locked lockmode s)) with (st_pages s).
    destruct (Z.leb_spec (Z.of_nat (length (st_pages s))) 1) as [Hle|Hgt]; [reflexivity|].
    destruct Hempty as [Hle|[Hlock Hroot]]; [lia|].
    unfold bind at 1, call at 1, find_leftmost_leaf. run.
    change (readable (relation_locked lockmode s) BTREE_METAPAGE)
      with (readable s BTREE_METAPAGE).
    change (st_held (relation_locked lockmode s)) with (st_held s).
    change (page_at (relation_locked lockmode s) BTREE_METAPAGE)
      with (page_at s BTREE_METAPAGE).
    assert (Hmeta : readable s BTREE_METAPAGE = true).
    { unfold readable, BTREE_METAPAGE. apply andb_true_intro.
      split; [reflexivity | apply Z.ltb_lt; lia]. }
    rewrite Hmeta, Hlock, Hroot. cbn [Z.eqb P_NONE]. rewrite unhold_hold.
    cbv beta iota. rewrite run_when. reflexivity. }
  unfold pg_index_reclaim_execute, pg_index_reclaim_analyze.
  rewrite !run_when, Hok, !run_index_open_locked, !run_when, Ham.
  change (negb (BTREE_AM_OID =? BTREE_AM_OID)) with false. cbn [negb].
  split.
  - unfold bind at 1. rewrite Hnone.
    cbn [merge_candidates_loop]. rewrite run_ret, run_index_close.
    rewrite relation_unlocked_locked. reflexivity.
  - unfold bind at 1. rewrite Hnone.
    rewrite run_index_close, relation_unlocked_locked. reflexivity.
Qed.

(** C9: when the execute entry point returns, it has run the analysis once,
    under its relation lock, and has called [execute_merge] on the first
    candidate of the analysis's list with [can_merge] set and on no other:
    without such a candidate the state is the one of the call and the row is
    (0, 0); with one, the state is the one this single call of
    [execute_merge] left, the relation lock given back, and the row reports
    1 page when the call returned [true] and 0 when it returned [false].
    [pages_merged] is 0 or 1. *)
Theorem at_most_one_merge fuel rel max_pct_to_merge rsinfo_ok s row s' :
  pg_index_reclaim_execute fuel rel max_pct_to_merge rsinfo_ok s = Return row s' ->
  let locked := relation_locked ShareUpdateExclusiveLock s in
  exists merge_candidates,
    analyze_index_pages fuel max_pct_to_merge locked = Return merge_candidates locked /\
    (fst row = 0 \/ fst row = 1) /\
    match List.find can_merge merge_candidates with
    | None => row = (0, 0) /\ s' = s
    | Some candidate =>
        exists merged_ s2,
          execute_merge rel (left_page candidate) (right_page candidate) locked
          = Return merged_ s2 /\
          row = (if merged_ : bool
                 then (1, BLCKSZ - estimated_space candidate) else (0, 0)) /\
          s' = relation_unlocked ShareUpdateExclusiveLock s2
    end.
Proof.
  unfold pg_index_reclaim_execute. intros H. cbv zeta.
  rewrite run_when in H. split_if_in H; [discriminate H|].
  rewrite run_index_open_locked in H.
  rewrite run_when in H. split_if_in H; [discriminate H|].
  rewrite run_when in H. split_if_in H; [discriminate H|].
  set (locked := relation_locked ShareUpdateExclusiveLock s) in *.
  unfold bind at 1 in H.
  destruct (call (analyze_index_pages fuel max_pct_to_merge) locked)
    as [cands s2|r s2| | |] eqn:Hcall; try discriminate H.
  2: { exfalso. exact (call_not_Return _ _ _ _ Hcall). }
  pose proof (analyze_index_pages_inv _ _ _ _ _ Hcall) as [-> _].
  apply call_Next_inv in Hcall as [Hcall|Hcall].
  2: { pose proof (analyze_index_pages_outcome fuel max_pct_to_merge locked) as Ho.
       rewrite Hcall in Ho. contradiction. }
  exists cands. split; [exact Hcall|].
  unfold bind at 1 in H. rewrite merge_candidates_loop_spec in H.
  unfold merge_first_feasible in H.
  destruct (List.find can_merge cands) as [c|].
  - unfold bind at 1 in H.
    destruct (call (execute_merge rel (left_page c) (right_page c)) locked)
      as [merged_ s3|r s3| | |] eqn:Hmerge; try discriminate H.
    2: { exfalso. exact (call_not_Return _ _ _ _ Hmerge). }
    apply execute_merge_call_inv in Hmerge.
    cbv beta iota delta [ret] in H. rewrite run_index_close in H.
    unfold return_ in H. injection H as <- <-.
    split; [destruct merged_; cbn [fst]; lia|].
    exists merged_, s3. auto.
  - cbv beta iota delta [ret] in H. rewrite run_index_close in H.
    unfold return_ in H. injection H as <- <-.
    split; [left; reflexivity|].
    split; [reflexivity|]. unfold locked. apply relation_unlocked_locked.
Qed.


(** X20: the analyze entry point returns only for a valid call, with the
    state left as it was (no page changed, no buffer lock held, the relation
    lock given back), and its rows are those of candidates naming live
    sibling leaf pages. *)
Theorem pg_index_reclaim_analyze_result fuel rel max_pct_to_merge rsinfo_ok s rows s' :
  pg_index_reclaim_analyze fuel rel max_pct_to_merge rsinfo_ok s = Return rows s' ->
  valid_call rel max_pct_to_merge rsinfo_ok /\ s' = s /\
  exists merge_candidates,
    rows = map analyze_row merge_candidates /\ Forall (live_siblings s) merge_candidates.
Proof.
  intros H.
  pose proof (pg_index_reclaim_analyze_outcome fuel rel max_pct_to_merge rsinfo_ok s) as Ho.
  rewrite H in Ho. destruct Ho as (Hvalid & -> & cands & -> & pages & Hpages & _ & Hsib & _).
  split; [exact Hvalid|]. split; [reflexivity|].
  exists cands. split; [reflexivity|].
  apply List.Forall_forall. intros c Hc.
  destruct (proj1 (List.Forall_forall _ _) Hsib c Hc) as (Hnext & Hnone & Hleft & Hright).
  destruct (scanned_block s pages _ Hpages Hleft) as [Hl1 Hl2].
  destruct (scanned_block s pages _ Hpages Hright) as [Hr1 Hr2].
  unfold live_siblings. auto 10.
Qed.

(** ** The properties at work *)

Lemma execute_merge_false_changes_nothing_witness :
  execute_merge btree 1 2 empty_left_index = Return false empty_left_index /\
  empty_left_index = empty_left_index.
Proof.
  assert (H : execute_merge btree 1 2 empty_left_index = Return false empty_left_index)
    by (vm_compute; reflexivity).
  exact (conj H (execute_merge_false_changes_nothing btree empty_left_index 1 2
                   empty_left_index H)).
Defined.

Lemma execute_merge_true_only_when_ready_witness :
  execute_merge btree 1 2 small_index = Return true merged_small_index /\
  merge_ready small_index 1 2.
Proof.
  assert (H : execute_merge btree 1 2 small_index = Return true merged_small_index)
    by (vm_compute; reflexivity).
  exact (conj H (execute_merge_true_only_when_ready btree small_index 1 2
                   merged_small_index H)).
Defined.

Lemma execute_merge_unlinks_left_page_witness :
  execute_merge btree 2 3 uneven_index = Return true merged_uneven_index /\
  btpo_prev (page_at merged_uneven_index 3) = 1 /\
  btpo_next (page_at merged_uneven_index 3) = btpo_next (page_at uneven_index 3) /\
  (1 <> P_NONE ->
   btpo_next (page_at merged_uneven_index 1) = 3 /\
   btpo_prev (page_at merged_uneven_index 1) = btpo_prev (page_at uneven_index 1)).
Proof.
  assert (H : execute_merge btree 2 3 uneven_index = Return true merged_uneven_index)
    by (vm_compute; reflexivity).
  exact (conj H (execute_merge_unlinks_left_page btree uneven_index 2 3
                   merged_uneven_index H)).
Defined.

Lemma execute_merge_leaves_left_half_dead_witness :
  execute_merge btree 1 2 small_index = Return true merged_small_index /\
  P_ISHALFDEAD (page_at merged_small_index 1) = true /\
  P_ISLEAF (page_at merged_small_index 1) = true /\
  P_ISDELETED (page_at merged_small_index 1) = false /\
  btpo_cycleid (page_at merged_small_index 1) = 0 /\
  btpo_prev (page_at merged_small_index 1) = btpo_prev (page_at small_index 1) /\
  btpo_next (page_at merged_small_index 1) = btpo_next (page_at small_index 1).
Proof.
  assert (H : execute_merge btree 1 2 small_index = Return true merged_small_index)
    by (vm_compute; reflexivity).
  exact (conj H (execute_merge_leaves_left_half_dead btree small_index 1 2
                   merged_small_index H)).
Defined.

Lemma execute_merge_releases_its_locks_witness :
  execute_merge btree 1 2 small_index = Return true merged_small_index /\
  st_held merged_small_index = st_held small_index /\
  st_rel_locks merged_small_index = st_rel_locks small_index.
Proof.
  assert (H : execute_merge btree 1 2 small_index = Return true merged_small_index)
    by (vm_compute; reflexivity).
  exact (conj H (execute_merge_releases_its_locks btree small_index 1 2 true
                   merged_small_index H)).
Defined.

Lemma execute_merge_dirties_and_logs_witness :
  execute_merge btree 2 3 uneven_index = Return true merged_uneven_index /\
  (forall b, 0 <= b -> ~ In b [3; 2; 1] ->
             page_at merged_uneven_index b = page_at uneven_index b) /\
  st_dirty merged_uneven_index = [3; 2; 1] /\
  st_wal merged_uneven_index = [2; 3; 1].
Proof.
  assert (H : execute_merge btree 2 3 uneven_index = Return true merged_uneven_index)
    by (vm_compute; reflexivity).
  exact (conj H (execute_merge_dirties_and_logs btree uneven_index 2 3
                   merged_uneven_index H)).
Defined.

Lemma execute_merge_keeps_entries_witness :
  2 <> BTREE_METAPAGE /\ 3 <> BTREE_METAPAGE /\
  PageHasFreeLinePointers (page_at uneven_index 3) = false /\
  has_high_key (page_at uneven_index 3) /\
  all_fit (pd_upper (page_at uneven_index 3) - pd_lower (page_at uneven_index 3))
          (live_data_items (page_at uneven_index 2)) = true /\
  execute_merge btree 2 3 uneven_index = Return true merged_uneven_index /\
  live_entry_count merged_uneven_index = live_entry_count uneven_index.
Proof.
  assert (H1 : 2 <> BTREE_METAPAGE) by discriminate.
  assert (H2 : 3 <> BTREE_METAPAGE) by discriminate.
  assert (H3 : PageHasFreeLinePointers (page_at uneven_index 3) = false) by reflexivity.
  assert (H4 : has_high_key (page_at uneven_index 3)) by (intros _; discriminate).
  assert (H5 : all_fit (pd_upper (page_at uneven_index 3) - pd_lower (page_at uneven_index 3))
                 (live_data_items (page_at uneven_index 2)) = true) by reflexivity.
  assert (H6 : execute_merge btree 2 3 uneven_index = Return true merged_uneven_index)
    by (vm_compute; reflexivity).
  refine (conj H1 (conj H2 (conj H3 (conj H4 (conj H5 (conj H6 _)))))).
  exact (execute_merge_keeps_entries btree uneven_index 2 3 merged_uneven_index
           H1 H2 H3 H4 H5 H6).
Defined.

Lemma execute_merge_same_page_witness :
  st_held small_index = [] /\
  readable small_index 1 = true /\
  unfit (page_at small_index 1) = false /\
  execute_merge btree 1 1 small_index = Blocked (hold 1 BT_WRITE small_index).
Proof.
  refine (conj eq_refl (conj eq_refl (conj eq_refl _))).
  exact (execute_merge_same_page btree small_index 1 eq_refl eq_refl eq_refl).
Defined.

Lemma execute_merge_unreadable_block_witness :
  st_held small_index = [] /\
  (readable small_index 1 = false \/ readable small_index 9 = false) /\
  execute_merge btree 1 9 small_index = Raise ERRCODE_DATA_CORRUPTED small_index.
Proof.
  refine (conj eq_refl (conj (or_intror eq_refl) _)).
  exact (execute_merge_unreadable_block btree small_index 1 9 eq_refl (or_intror eq_refl)).
Defined.

Lemma execute_merge_keeps_right_entries_witness :
  PageHasFreeLinePointers (page_at uneven_index 3) = false /\
  execute_merge btree 2 3 uneven_index = Return true merged_uneven_index /\
  btpo_flags (page_at merged_uneven_index 3) = btpo_flags (page_at uneven_index 3) /\
  exists added,
    pd_linp (page_at merged_uneven_index 3) = pd_linp (page_at uneven_index 3) ++ added /\
    sublist added (map normal_copy (live_data_items (page_at uneven_index 2))).
Proof.
  assert (H1 : PageHasFreeLinePointers (page_at uneven_index 3) = false) by reflexivity.
  assert (H2 : execute_merge btree 2 3 uneven_index = Return true merged_uneven_index)
    by (vm_compute; reflexivity).
  refine (conj H1 (conj H2 _)).
  exact (execute_merge_keeps_right_entries btree uneven_index 2 3 merged_uneven_index H1 H2).
Defined.

Lemma execute_merge_empties_left_page_witness :
  P_RIGHTMOST (page_at uneven_index 2) = false /\
  execute_merge btree 2 3 uneven_index = Return true merged_uneven_index /\
  live_data_items (page_at merged_uneven_index 2) = [].
Proof.
  assert (H1 : P_RIGHTMOST (page_at uneven_index 2) = false) by reflexivity.
  assert (H2 : execute_merge btree 2 3 uneven_index = Return true merged_uneven_index)
    by (vm_compute; reflexivity).
  refine (conj H1 (conj H2 _)).
  exact (execute_merge_empties_left_page btree uneven_index 2 3 merged_uneven_index H1 H2).
Defined.

Lemma execute_merge_not_repeated_witness :
  st_held small_index = [] /\
  execute_merge btree 1 2 small_index = Return true merged_small_index /\
  execute_merge btree 1 2 merged_small_index = Return false merged_small_index.
Proof.
  assert (H : execute_merge btree 1 2 small_index = Return true merged_small_index)
    by (vm_compute; reflexivity).
  refine (conj eq_refl (conj H _)).
  exact (execute_merge_not_repeated btree small_index 1 2 merged_small_index eq_refl H).
Defined.

Lemma find_leftmost_leaf_finds_leaf_witness :
  call (R' := unit) (find_leftmost_leaf 10) small_index = Next 1 small_index /\
  small_index = small_index /\ leaf_found small_index 1.
Proof.
  assert (H : call (R' := unit) (find_leftmost_leaf 10) small_index = Next 1 small_index)
    by (vm_compute; reflexivity).
  exact (conj H (find_leftmost_leaf_finds_leaf 10 small_index 1 small_index H)).
Defined.

Lemma find_leftmost_leaf_never_ends_witness :
  readable looping_index BTREE_METAPAGE = true /\
  lock_conflict BT_READ BTREE_METAPAGE (st_held looping_index) = false /\
  btm_root (page_at looping_index BTREE_METAPAGE) <> P_NONE /\
  btm_root (page_at looping_index BTREE_METAPAGE) = 1 /\
  (forall blkno, blkno = 1 ->
                 descends looping_index blkno /\
                 first_downlink (page_at looping_index blkno) = 1) /\
  find_leftmost_leaf 10 looping_index = OutOfFuel.
Proof.
  assert (H1 : readable looping_index BTREE_METAPAGE = true) by reflexivity.
  assert (H2 : lock_conflict BT_READ BTREE_METAPAGE (st_held looping_index) = false)
    by reflexivity.
  assert (H3 : btm_root (page_at looping_index BTREE_METAPAGE) <> P_NONE) by discriminate.
  assert (H4 : btm_root (page_at looping_index BTREE_METAPAGE) = 1) by reflexivity.
  assert (H5 : forall blkno, blkno = 1 ->
                 descends looping_index blkno /\
                 first_downlink (page_at looping_index blkno) = 1).
  { intros blkno ->. split; [|reflexivity].
    unfold descends. repeat split; try reflexivity; discriminate. }
  refine (conj H1 (conj H2 (conj H3 (conj H4 (conj H5 _))))).
  exact (find_leftmost_leaf_never_ends looping_index (fun blkno => blkno = 1) 10
           H1 H2 H3 H4 H5).
Defined.

Lemma scan_leaf_pages_stays_in_array_witness :
  scan_leaf_pages (R := unit) 10 4 1 [] small_index = Next small_stats small_index /\
  small_index = small_index /\
  (exists more, small_stats = [] ++ more /\ Forall (scanned small_index) more) /\
  Z.of_nat (length small_stats) <= Z.max (Z.of_nat (length (@nil PageAnalysis))) 4.
Proof.
  assert (H : scan_leaf_pages (R := unit) 10 4 1 [] small_index = Next small_stats small_index)
    by (vm_compute; reflexivity).
  exact (conj H (scan_leaf_pages_stays_in_array 10 4 1 [] small_index small_stats
                   small_index H)).
Defined.

Lemma analyze_index_pages_reads_only_witness :
  call (R' := unit) (analyze_index_pages 10 50) uneven_index
    = Next uneven_candidates uneven_index /\
  uneven_index = uneven_index.
Proof.
  assert (H : call (R' := unit) (analyze_index_pages 10 50) uneven_index
              = Next uneven_candidates uneven_index) by (vm_compute; reflexivity).
  exact (conj H (analyze_index_pages_reads_only 10 50 uneven_index uneven_candidates
                   uneven_index H)).
Defined.

Lemma candidates_name_live_siblings_witness :
  call (R' := unit) (analyze_index_pages 10 50) uneven_index
    = Next uneven_candidates uneven_index /\
  Forall (live_siblings uneven_index) uneven_candidates /\
  Z.of_nat (length uneven_candidates) <= Z.of_nat (length (st_pages uneven_index)).
Proof.
  assert (H : call (R' := unit) (analyze_index_pages 10 50) uneven_index
              = Next uneven_candidates uneven_index) by (vm_compute; reflexivity).
  exact (conj H (candidates_name_live_siblings 10 50 uneven_index uneven_candidates
                   uneven_index H)).
Defined.

Lemma small_index_blocks blkno :
  readable small_index blkno = true ->
  blkno = 0 \/ blkno = 1 \/ blkno = 2 \/ blkno = 3.
Proof. intros H. apply readable_bounds in H. cbn in H. lia. Qed.

Lemma analyze_index_pages_ends_witness :
  st_held small_index = [] /\
  levels_decrease small_index /\
  all_pages_live small_index /\
  (Z.to_nat (btpo_level (page_at small_index (btm_root (page_at small_index BTREE_METAPAGE))))
   < 10)%nat /\
  (length (st_pages small_index) < 10)%nat /\
  ((exists merge_candidates,
      analyze_index_pages 10 50 small_index = Return merge_candidates small_index) \/
   (exists errcode s', analyze_index_pages 10 50 small_index = Raise errcode s')).
Proof.
  assert (H1 : levels_decrease small_index).
  { intros blkno Hr Hleaf Hdata.
    destruct (small_index_blocks blkno Hr) as [-> | [-> | [-> | ->]]];
      try discriminate Hleaf.
    - exfalso. apply Hdata. reflexivity.
    - split; [discriminate | reflexivity]. }
  assert (H2 : all_pages_live small_index).
  { intros blkno. unfold page_at.
    destruct (Z.to_nat blkno) as [|[|[|[|n]]]]; try (split; reflexivity).
    cbn [st_pages small_index index_of nth]. destruct n; split; reflexivity. }
  assert (H3 : (Z.to_nat (btpo_level (page_at small_index
                                        (btm_root (page_at small_index BTREE_METAPAGE))))
                < 10)%nat) by (vm_compute; lia).
  assert (H4 : (length (st_pages small_index) < 10)%nat) by (vm_compute; lia).
  refine (conj eq_refl (conj H1 (conj H2 (conj H3 (conj H4 _))))).
  exact (analyze_index_pages_ends 10 50 small_index eq_refl H1 H2 H3 H4).
Defined.

Lemma analyze_page_overestimates_witness :
  Forall (fun itemid => 0 <= lp_len itemid) (pd_linp (page_at small_index 1)) /\
  live_data_size (page_at small_index 1)
    <= used_space (analyze_page 1 (page_at small_index 1)) /\
  Z.of_nat (length (live_data_items (page_at small_index 1)))
    <= item_count (analyze_page 1 (page_at small_index 1)).
Proof.
  assert (H : Forall (fun itemid => 0 <= lp_len itemid) (pd_linp (page_at small_index 1))).
  { repeat constructor; discriminate. }
  exact (conj H (analyze_page_overestimates 1 (page_at small_index 1) H)).
Defined.

Lemma entry_points_refuse_witness :
  1 <= 50 <= 100 /\
  (rd_relam hash_index <> BTREE_AM_OID \/ true = false) /\
  pg_index_reclaim_execute 10 hash_index 50 true small_index
    = Raise ERRCODE_WRONG_OBJECT_TYPE (relation_locked ShareUpdateExclusiveLock small_index) /\
  pg_index_reclaim_analyze 10 hash_index 50 true small_index
    = Raise ERRCODE_WRONG_OBJECT_TYPE (relation_locked AccessShareLock small_index).
Proof.
  assert (H1 : 1 <= 50 <= 100) by lia.
  assert (H2 : rd_relam hash_index <> BTREE_AM_OID \/ true = false)
    by (left; discriminate).
  refine (conj H1 (conj H2 _)).
  exact (entry_points_refuse hash_index 50 true 10 small_index H1 H2).
Defined.

Lemma nothing_to_analyze_witness :
  valid_call btree 50 true /\
  (Z.of_nat (length (st_pages metapage_only_index)) <= 1 \/
   (lock_conflict BT_READ BTREE_METAPAGE (st_held metapage_only_index) = false /\
    btm_root (page_at metapage_only_index BTREE_METAPAGE) = P_NONE)) /\
  pg_index_reclaim_execute 10 btree 50 true metapage_only_index
    = Return (0, 0) metapage_only_index /\
  pg_index_reclaim_analyze 10 btree 50 true metapage_only_index
    = Return [] metapage_only_index.
Proof.
  assert (H1 : valid_call btree 50 true).
  { unfold valid_call. split; [lia|]. split; reflexivity. }
  assert (H2 : Z.of_nat (length (st_pages metapage_only_index)) <= 1 \/
               (lock_conflict BT_READ BTREE_METAPAGE (st_held metapage_only_index) = false /\
                btm_root (page_at metapage_only_index BTREE_METAPAGE) = P_NONE)).
  { left. vm_compute. discriminate. }
  refine (conj H1 (conj H2 _)).
  exact (nothing_to_analyze btree 50 true 10 metapage_only_index H1 H2).
Defined.

Lemma at_most_one_merge_witness :
  pg_index_reclaim_execute 10 btree 50 true four_leaf_index
  = Return (1, 8144) executed_four_leaf_index /\
  exists merge_candidates,
    analyze_index_pages 10 50 (relation_locked ShareUpdateExclusiveLock four_leaf_index)
    = Return merge_candidates (relation_locked ShareUpdateExclusiveLock four_leaf_index) /\
    (fst (1, 8144) = 0 \/ fst (1, 8144) = 1) /\
    match List.find can_merge merge_candidates with
    | None => (1, 8144) = (0, 0) /\ executed_four_leaf_index = four_leaf_index
    | Some candidate =>
        exists merged_ s2,
          execute_merge btree (left_page candidate) (right_page candidate)
            (relation_locked ShareUpdateExclusiveLock four_leaf_index)
          = Return merged_ s2 /\
          (1, 8144) = (if merged_ : bool
                       then (1, BLCKSZ - estimated_space candidate) else (0, 0)) /\
          executed_four_leaf_index = relation_unlocked ShareUpdateExclusiveLock s2
    end.
Proof.
  assert (H : pg_index_reclaim_execute 10 btree 50 true four_leaf_index
              = Return (1, 8144) executed_four_leaf_index) by (vm_compute; reflexivity).
  split; [exact H|].
  exact (at_most_one_merge 10 btree 50 true four_leaf_index (1, 8144)
           executed_four_leaf_index H).
Defined.


Lemma pg_index_reclaim_analyze_result_witness :
  pg_index_reclaim_analyze 10 btree 50 true uneven_index
    = Return uneven_rows uneven_index /\
  valid_call btree 50 true /\ uneven_index = uneven_index /\
  exists merge_candidates,
    uneven_rows = map analyze_row merge_candidates /\
    Forall (live_siblings uneven_index) merge_candidates.
Proof.
  assert (H : pg_index_reclaim_analyze 10 btree 50 true uneven_index
              = Return uneven_rows uneven_index) by (vm_compute; reflexivity).
  exact (conj H (pg_index_reclaim_analyze_result 10 btree 50 true uneven_index uneven_rows
                   uneven_index H)).
Defined.
